(** * GraphSAGE layers of tensorflow_gnn: a shallow embedding

    Sources embedded here:
    - [tensorflow_gnn/graph/keras/layers/next_state.py]
      ([NextStateFromConcat], [ResidualNextState]);
    - [tensorflow_gnn/models/graph_sage/layers.py]
      ([GraphSAGEAggregatorConv], [GraphSAGEPoolingConv],
       [GCNGraphSAGENodeSetUpdate], [GraphSAGEGraphUpdate],
       [GraphSAGENextState]).

    Scalars are exact rationals ([Qc]): rounding of floating point numbers
    is abstracted away, and [x / 0 = 0] in [Qc] is the value that
    [tf.math.divide_no_nan] returns. *)

From Stdlib Require Import QArith Qcanon.
From Stdlib Require Import Strings.String Strings.Ascii.
From Stdlib Require Import Structures.OrdersEx.
From stdpp Require Import gmap strings list sorting.

Local Open Scope string_scope.
Local Open Scope list_scope.

(** ** Python exceptions and fallible computations *)

Module Py.

Inductive exn : Type :=
| ValueError (msg : string)
| KeyError (msg : string)
| AssertionError (msg : string)
| AttributeError (msg : string)
| TypeError (msg : string)
| InvalidArgumentError (msg : string).

Inductive result (A : Type) : Type :=
| Ok (a : A)
| Raise (e : exn).
Arguments Ok {A} a.
Arguments Raise {A} e.

Definition bind {A B} (r : result A) (k : A -> result B) : result B :=
  match r with
  | Ok a => k a
  | Raise e => Raise e
  end.

Definition is_ok {A} (r : result A) : bool :=
  match r with Ok _ => true | Raise _ => false end.

(** [result] version of a loop body applied to every element of a list,
    stopping at the first exception. *)
Fixpoint mapM {A B} (f : A -> result B) (l : list A) : result (list B) :=
  match l with
  | [] => Ok []
  | a :: l' =>
      bind (f a) (fun b => bind (mapM f l') (fun bs => Ok (b :: bs)))
  end.

(** A loop that threads an accumulator through the elements of a list,
    stopping at the first exception. *)
Fixpoint foldM {A B} (f : B -> A -> result B) (b : B) (l : list A) : result B :=
  match l with
  | [] => Ok b
  | a :: l' => bind (f b a) (fun b' => foldM f b' l')
  end.

(** Lookup in a [dict] whose iteration order matters: the association
    list holds the items in insertion order, keys are distinct. *)
Fixpoint assoc {V} (k : string) (d : list (string * V)) : option V :=
  match d with
  | [] => None
  | (k', v) :: d' => if String.eqb k k' then Some v else assoc k d'
  end.

(** [sorted(d.items())]: the items ordered by key.  Keys of a dict are
    distinct, so the comparison of two items never reaches the values. *)
Definition key_le {V} (a b : string * V) : Prop :=
  String.leb (fst a) (fst b) = true.

#[export] Instance key_le_dec {V} (a b : string * V) : Decision (key_le a b).
Proof. unfold key_le. apply _. Defined.

Definition sorted_items {V} (d : list (string * V)) : list (string * V) :=
  merge_sort key_le d.

End Py.

Export Py.

Declare Scope py_scope.
Notation "x <- r ;; k" := (Py.bind r (fun x => k))
  (at level 100, r at next level, right associativity) : py_scope.
Local Open Scope py_scope.

(** ** Tensors and the TensorFlow / Keras operations the layers call *)

Module TF.

Definition row := list Qc.

(** A rank-2 tensor of shape [[nrows, ncols]].  The width is stored, so a
    tensor without rows still has a feature dimension. *)
Record tensor : Type := Tensor { ncols : nat; rows : list row }.

Definition nrows (t : tensor) : nat := length (rows t).

Definition shape (t : tensor) : nat * nat := (nrows t, ncols t).

Definition wf (t : tensor) : Prop :=
  Forall (fun r => length r = ncols t) (rows t).

(** Results of [tf.squeeze] and the operands of the in-degree arithmetic:
    tensors of rank 0, 1 or 2. *)
Inductive any_tensor : Type :=
| T0 (x : Qc)
| T1 (v : row)
| T2 (t : tensor).

(** What TensorFlow supplies at run time and rationals cannot express:
    the reciprocal square root, the random numbers of dropout (one mask per
    dropout application, a cell is kept when the mask says so), and the
    training mode Keras falls back on when a layer is called without a
    [training] argument. *)
Record Env : Type := {
  rsqrt : Qc -> Qc;
  keep : nat -> nat -> nat -> bool;
  ambient_training : bool
}.

Definition vadd (a b : row) : row := zip_with Qcplus a b.
Definition vscale (c : Qc) (a : row) : row := map (Qcmult c) a.
Definition zeros (n : nat) : row := replicate n (0%Qc).
Definition ones (n : nat) : row := replicate n (1%Qc).
Definition vsum (a : row) : Qc := foldr Qcplus (0%Qc) a.

(** [tf.ones([n, c])]. *)
Definition ones2 (n c : nat) : tensor := Tensor c (replicate n (ones c)).

(** Row vector times matrix: the sum of the rows of [w] scaled by the
    entries of [r]. *)
Fixpoint vecmat (units : nat) (r : row) (w : list row) : row :=
  match r, w with
  | x :: r', wi :: w' => vadd (vscale x wi) (vecmat units r' w')
  | _, _ => zeros units
  end.

(** [tf.matmul(x, w)] for rank-2 operands. *)
Definition matmul (x w : tensor) : result tensor :=
  if Nat.eqb (ncols x) (nrows w)
  then Ok (Tensor (ncols w) (map (fun r => vecmat (ncols w) r (rows w)) (rows x)))
  else Raise (InvalidArgumentError "Matrix size-incompatible").

(** [tf.math.add_n]: all inputs must have the same shape. *)
Definition add2 (a b : tensor) : tensor :=
  Tensor (ncols a) (zip_with vadd (rows a) (rows b)).

Definition same_shape (a b : tensor) : bool :=
  Nat.eqb (nrows a) (nrows b) && Nat.eqb (ncols a) (ncols b).

Definition add_n (l : list tensor) : result tensor :=
  match l with
  | [] => Raise (ValueError "inputs must be a list of at least one Tensor")
  | t :: l' =>
      if forallb (same_shape t) l'
      then Ok (foldl add2 t l')
      else Raise (InvalidArgumentError "Inputs to operation AddN must have the same size and shape")
  end.

(** [tf.concat(l, axis=-1)]: all inputs must have the same number of rows. *)
Definition concat2 (a b : tensor) : tensor :=
  Tensor (ncols a + ncols b) (zip_with app (rows a) (rows b)).

Definition concat (l : list tensor) : result tensor :=
  match l with
  | [] => Raise (ValueError "List argument 'values' to 'ConcatV2' Op with length 0 shorter than minimum length 1")
  | t :: l' =>
      if forallb (fun u => Nat.eqb (nrows t) (nrows u)) l'
      then Ok (foldl concat2 t l')
      else Raise (InvalidArgumentError "ConcatOp : Dimensions of inputs should match")
  end.

(** [tf.add(a, b)] on two rank-2 tensors of one shape (the only use in the
    sources is guarded by a shape check). *)
Definition add (a b : tensor) : result tensor :=
  if same_shape a b then Ok (add2 a b)
  else Raise (InvalidArgumentError "Incompatible shapes").

(** [t + bias] with a rank-1 [bias], under NumPy broadcasting of the last
    axis. *)
Definition bias_add (t : tensor) (bias : row) : result tensor :=
  if Nat.eqb (ncols t) (length bias)
  then Ok (Tensor (ncols t) (map (fun r => vadd r bias) (rows t)))
  else match bias, Nat.eqb (ncols t) 1 with
       | [b], _ => Ok (Tensor (ncols t) (map (map (fun x => x + b)%Qc) (rows t)))
       | _, true =>
           Ok (Tensor (length bias)
                 (map (fun r => map (fun b => hd 0%Qc r + b)%Qc bias) (rows t)))
       | _, false => Raise (InvalidArgumentError "Incompatible shapes")
       end.

(** [tf.squeeze(t)] without [axis]: every dimension of size 1 goes. *)
Definition squeeze (t : tensor) : any_tensor :=
  match Nat.eqb (nrows t) 1, Nat.eqb (ncols t) 1 with
  | true, true => T0 (hd 0%Qc (hd [] (rows t)))
  | true, false => T1 (hd [] (rows t))
  | false, true => T1 (map (hd 0%Qc) (rows t))
  | false, false => T2 t
  end.

(** [tf.math.add_n] on the in-degree tensors. *)
Definition any_same_shape (a b : any_tensor) : bool :=
  match a, b with
  | T0 _, T0 _ => true
  | T1 u, T1 v => Nat.eqb (length u) (length v)
  | T2 s, T2 t => same_shape s t
  | _, _ => false
  end.

Definition any_add2 (a b : any_tensor) : any_tensor :=
  match a, b with
  | T0 x, T0 y => T0 (x + y)%Qc
  | T1 u, T1 v => T1 (vadd u v)
  | T2 s, T2 t => T2 (add2 s t)
  | _, _ => a
  end.

Definition any_add_n (l : list any_tensor) : result any_tensor :=
  match l with
  | [] => Raise (ValueError "inputs must be a list of at least one Tensor")
  | t :: l' =>
      if forallb (any_same_shape t) l'
      then Ok (foldl any_add2 t l')
      else Raise (InvalidArgumentError "Inputs to operation AddN must have the same size and shape")
  end.

(** [d[:, tf.newaxis]]: a vector becomes a column; a scalar has no axis 0
    to slice.  A rank-2 operand would give rank 3, which no call site
    produces (see [squeeze] of a one-column tensor). *)
Definition new_axis_1 (d : any_tensor) : result tensor :=
  match d with
  | T0 _ => Raise (InvalidArgumentError "Index out of range using input dim 0; input has only 0 dims")
  | T1 v => Ok (Tensor 1 (map (fun x => [x]) v))
  | T2 _ => Raise (InvalidArgumentError "rank 3 tensors are outside this embedding")
  end.

(** [tf.math.divide_no_nan(x, d)] with [d] a column, under broadcasting of
    the row axis.  In [Qc], [x / 0 = 0]. *)
Definition div_row (r : row) (d : Qc) : row := map (fun x => x / d)%Qc r.

Definition divide_no_nan (x d : tensor) : result tensor :=
  let ds := map (hd 0%Qc) (rows d) in
  if Nat.eqb (nrows x) (nrows d)
  then Ok (Tensor (ncols x) (zip_with div_row (rows x) ds))
  else match ds, rows x with
       | [d0], _ => Ok (Tensor (ncols x) (map (fun r => div_row r d0) (rows x)))
       | _, [r0] => Ok (Tensor (ncols x) (map (div_row r0) ds))
       | _, _ => Raise (InvalidArgumentError "Incompatible shapes")
       end.

End TF.

Export TF.

(** ** The Keras layers used as building blocks *)

Module Keras.

(** A resolved activation function, as [tf.keras.activations.get] returns
    it.  [linear] and [relu] are computed here; every other callable is a
    function on tensors. *)
Inductive activation : Type :=
| linear
| relu
| custom (f : tensor -> tensor).

(** The [activation] argument of a constructor: [None], the name of a
    built-in activation, or a callable. *)
Inductive activation_arg : Type :=
| ActNone
| ActName (s : string)
| ActCallable (a : activation).

(** [tf.keras.activations.get].  [registry] resolves the names of the
    built-in activations other than "linear" and "relu". *)
Definition activations_get (registry : string -> option (tensor -> tensor))
    (a : activation_arg) : result activation :=
  match a with
  | ActNone => Ok linear
  | ActCallable f => Ok f
  | ActName s =>
      if String.eqb s "linear" then Ok linear
      else if String.eqb s "relu" then Ok relu
      else match registry s with
           | Some f => Ok (custom f)
           | None => Raise (ValueError "Unknown activation function")
           end
  end.

Definition relu1 (x : Qc) : Qc := if Qle_bool 0 x then x else 0%Qc.

Definition apply_activation (a : activation) (t : tensor) : tensor :=
  match a with
  | linear => t
  | relu => Tensor (ncols t) (map (map relu1) (rows t))
  | custom f => f t
  end.

(** The value of [training] a layer call works with: the argument when one
    is passed, otherwise the mode of the enclosing Keras call context. *)
Definition resolve_training (env : Env) (training : option bool) : bool :=
  match training with
  | Some b => b
  | None => ambient_training env
  end.

(** [tf.keras.layers.Dropout(rate)(x, training=...)].  [mask] names the
    random mask of this application.  Kept cells are scaled by
    [1 / (1 - rate)], the others become zero; at rate 0 and outside
    training the input comes back unchanged. *)
Definition drop_cell (env : Env) (rate : Qc) (mask i j : nat) (v : Qc) : Qc :=
  if keep env mask i j then (v / (1 - rate))%Qc else 0%Qc.

Definition Dropout_call (env : Env) (rate : Qc) (mask : nat) (x : tensor)
    (training : option bool) : tensor :=
  if resolve_training env training && negb (Qc_eq_bool rate 0)
  then Tensor (ncols x)
         (imap (fun i r => imap (fun j v => drop_cell env rate mask i j v) r) (rows x))
  else x.

(** A built [tf.keras.layers.Dense]: [activation(x . kernel + bias)]. *)
Record Dense : Type := {
  dense_units : nat;
  dense_use_bias : bool;
  dense_activation : activation;
  dense_kernel : tensor;
  dense_bias : row
}.

Definition Dense_call (d : Dense) (x : tensor) : result tensor :=
  y <- matmul x (dense_kernel d) ;;
  y <- (if dense_use_bias d then bias_add y (dense_bias d) else Ok y) ;;
  Ok (apply_activation (dense_activation d) y).

(** [tf.math.l2_normalize(t, axis=1)]:
    [t * rsqrt(max(sum(t^2, axis=1), 1e-12))]. *)
Definition l2_epsilon : Qc := Q2Qc (1 # 1000000000000).

Definition l2_row (env : Env) (r : row) : row :=
  let s := vsum (map (fun x => x * x)%Qc r) in
  let m := if Qle_bool s l2_epsilon then l2_epsilon else s in
  vscale (rsqrt env m) r.

Definition l2_normalize (env : Env) (t : tensor) : tensor :=
  Tensor (ncols t) (map (l2_row env) (rows t)).

End Keras.

Export Keras.

(** ** The graph tensor and the tfgnn operations *)

Module TFGNN.

Inductive IncidentNodeTag : Type := SOURCE | TARGET.

(** [graph_constants.HIDDEN_STATE] and [graph_constants.DEFAULT_STATE_NAME],
    the canonical name of the state feature. *)
Definition HIDDEN_STATE : string := "hidden_state".
Definition DEFAULT_STATE_NAME : string := HIDDEN_STATE.

Definition reverse_tag (tag : IncidentNodeTag) : IncidentNodeTag :=
  match tag with SOURCE => TARGET | TARGET => SOURCE end.

(** An edge set connects two node sets; [source] and [target] hold, for
    every edge, the index of its endpoint in the node set of that name. *)
Record Adjacency : Type := {
  source_name : string;
  target_name : string;
  source : list nat;
  target : list nat
}.

Definition node_set_name (a : Adjacency) (tag : IncidentNodeTag) : string :=
  match tag with SOURCE => source_name a | TARGET => target_name a end.

Definition indices (a : Adjacency) (tag : IncidentNodeTag) : list nat :=
  match tag with SOURCE => source a | TARGET => target a end.

Record EdgeSet : Type := { adjacency : Adjacency }.

Definition edge_total_size (e : EdgeSet) : nat := length (source (adjacency e)).

Record NodeSet : Type := {
  total_size : nat;
  features : gmap string tensor
}.

Record GraphTensor : Type := {
  node_sets : gmap string NodeSet;
  edge_sets : gmap string EdgeSet
}.

(** [d[key]] on the mappings of a graph tensor. *)
Definition getitem {V} (d : gmap string V) (key : string) : result V :=
  match d !! key with
  | Some v => Ok v
  | None => Raise (KeyError key)
  end.

Definition of_nat (n : nat) : Qc := Q2Qc (inject_Z (Z.of_nat n)).

(** Modelled from the spec: the registry of reduction operators behind
    [tfgnn.pool_edges_to_node] ("supported names include at least sum, mean,
    max_no_inf; unregistered names fail with a configuration error"; "for a
    node with in-degree d>0 and edge values v_1..v_d, mean-pooled result
    equals (sum v_i)/d; for d=0, result is exactly 0"). *)
Definition vmax (a b : row) : row :=
  zip_with (fun x y : Qc => if Qle_bool x y then y else x) a b.

Definition reduce_rows (reduce_type : string) (width : nat) (l : list row)
    : result row :=
  if String.eqb reduce_type "sum" then Ok (foldr vadd (zeros width) l)
  else if String.eqb reduce_type "mean" then
    Ok (div_row (foldr vadd (zeros width) l) (of_nat (length l)))
  else if String.eqb reduce_type "max_no_inf" then
    Ok (match l with
        | [] => zeros width
        | r :: l' => foldr vmax r l'
        end)
  else Raise (ValueError "Unknown reduce operation").

(** The values on the edges whose endpoint is node [i], in edge order. *)
Definition incident_rows (idx : list nat) (vals : list row) (i : nat) : list row :=
  map snd (List.filter (fun p => Nat.eqb (fst p) i) (zip idx vals)).

(** Modelled from the spec: [tfgnn.pool_edges_to_node] ("reduces per-edge
    values to the receiver node using a named registered reduction
    operator"). *)
Definition pool_edges_to_node (graph : GraphTensor) (edge_set_name : string)
    (tag : IncidentNodeTag) (reduce_type : string) (feature_value : tensor)
    : result tensor :=
  es <- getitem (edge_sets graph) edge_set_name ;;
  ns <- getitem (node_sets graph) (node_set_name (adjacency es) tag) ;;
  if negb (Nat.eqb (nrows feature_value) (edge_total_size es))
  then Raise (InvalidArgumentError "feature_value does not have one row per edge")
  else
    rs <- mapM (fun i => reduce_rows reduce_type (ncols feature_value)
                           (incident_rows (indices (adjacency es) tag)
                              (rows feature_value) i))
            (seq 0 (total_size ns)) ;;
    Ok (Tensor (ncols feature_value) rs).

(** Modelled from the spec: [tfgnn.broadcast_node_to_edges] ("replicates a
    node feature to every incident edge at the given endpoint"). *)
Definition broadcast_node_to_edges (graph : GraphTensor) (edge_set_name : string)
    (tag : IncidentNodeTag) (feature_value : tensor) : result tensor :=
  es <- getitem (edge_sets graph) edge_set_name ;;
  rs <- mapM (fun i => match rows feature_value !! i with
                       | Some r => Ok r
                       | None => Raise (InvalidArgumentError "index out of range")
                       end)
          (indices (adjacency es) tag) ;;
  Ok (Tensor (ncols feature_value) rs).

(** Modelled from the spec: [tfgnn.combine_values] ("sum elementwise-adds
    all entries (all must already share units width); concat concatenates
    along the feature axis"; "unsupported combine-type names" are
    configuration errors). *)
Definition combine_values (inputs : list tensor) (combine_type : string)
    : result tensor :=
  if String.eqb combine_type "sum" then add_n inputs
  else if String.eqb combine_type "concat" then concat inputs
  else Raise (ValueError "Unknown combine type").

End TFGNN.

Export TFGNN.

(** ** next_state.py *)

(** The inputs of a NextState layer, as the module docstring types them:
    [FieldOrFields] is a single tensor or a dict of tensors keyed by feature
    names, [FieldsNest] is one of those or a mapping from the names of
    related graph pieces to them. *)
Inductive FieldOrFields : Type :=
| Field (t : tensor)
| Fields (d : list (string * tensor)).

Inductive FieldsNest : Type :=
| Nest (f : FieldOrFields)
| NestBy (d : list (string * FieldOrFields)).

(** [tf.nest.flatten]: the tensors of a structure, dicts in the order of
    their sorted keys. *)
Definition flatten_field (f : FieldOrFields) : list tensor :=
  match f with
  | Field t => [t]
  | Fields d => map snd (sorted_items d)
  end.

Definition flatten_nest (n : FieldsNest) : list tensor :=
  match n with
  | Nest f => flatten_field f
  | NestBy d => flat_map (fun p => flatten_field (snd p)) (sorted_items d)
  end.

Definition flatten_inputs (inputs : FieldOrFields * FieldsNest * FieldsNest)
    : list tensor :=
  let '(self_input, other1, other2) := inputs in
  flatten_field self_input ++ flatten_nest other1 ++ flatten_nest other2.

(** [TensorShape.is_compatible_with] on the fully defined shapes of two
    rank-2 tensors. *)
Definition is_compatible_with (a b : nat * nat) : bool :=
  Nat.eqb (fst a) (fst b) && Nat.eqb (snd a) (snd b).

Module NextStateFromConcat.

Record t : Type := { transformation : tensor -> result tensor }.

Definition init (transformation : tensor -> result tensor) : t :=
  {| transformation := transformation |}.

Definition call (self : t) (inputs : FieldOrFields * FieldsNest * FieldsNest)
    : result tensor :=
  let net := flatten_inputs inputs in
  net <- concat net ;;
  net <- transformation self net ;;
  Ok net.

End NextStateFromConcat.

Module ResidualNextState.

Record t : Type := {
  residual_block : tensor -> result tensor;
  activation : Keras.activation;
  skip_connection_feature_name : string
}.

(** [__init__]: stores the block and the name, and resolves the activation
    (a layer is kept, anything else goes through
    [tf.keras.layers.Activation]).  No shape is looked at. *)
Definition init (registry : string -> option (tensor -> tensor))
    (residual_block : tensor -> result tensor)
    (activation : activation_arg)
    (skip_connection_feature_name : string) : result t :=
  act <- activations_get registry activation ;;
  Ok {| residual_block := residual_block;
        activation := act;
        skip_connection_feature_name := skip_connection_feature_name |}.

(** The two errors of [call]; the list of feature names and the two shapes
    that end the messages in the source are left out. *)
Definition skip_key_error (name : string) : exn :=
  KeyError ("ResidualNextState() could not find the skip connection feature '"
            ++ name ++ "' in the features of the updated graph piece").

Definition shape_error : exn :=
  ValueError ("A ResidualNextState() requires an update_fn whose output has "
              ++ "the same shape as the input state").

Definition call (self : t) (inputs : FieldOrFields * FieldsNest * FieldsNest)
    : result tensor :=
  (* Extract the feature for a skip connection. *)
  let self_input := fst (fst inputs) in
  skip_connection_feature <-
    match self_input with
    | Field x => Ok x
    | Fields d =>
        match assoc (skip_connection_feature_name self) d with
        | Some x => Ok x
        | None => Raise (skip_key_error (skip_connection_feature_name self))
        end
    end ;;
  (* Compute the state update. *)
  let net := flatten_inputs inputs in
  net <- concat net ;;
  net <- residual_block self net ;;
  if negb (is_compatible_with (shape skip_connection_feature) (shape net))
  then Raise shape_error
  else
    net <- add net skip_connection_feature ;;
    let net := apply_activation (activation self) net in
    Ok net.

End ResidualNextState.

(** ** graph_sage/layers.py *)

(** The keyword arguments a layer constructor forwards to its base class.
    For the two feature keywords, [None] is an absent keyword and
    [Some None] is the keyword passed as Python's [None]. *)
Record Kwargs : Type := {
  kw_name : option string;
  kw_receiver_feature : option (option string);
  kw_sender_edge_feature : option (option string)
}.

Definition no_kwargs : Kwargs :=
  {| kw_name := None; kw_receiver_feature := None; kw_sender_edge_feature := None |}.

(** [kwargs.get(key)]. *)
Definition kwargs_get (v : option (option string)) : option string :=
  match v with Some (Some s) => Some s | _ => None end.

(** [kwargs.setdefault("name", default)]. *)
Definition setdefault_name (default : string) (kwargs : Kwargs) : Kwargs :=
  {| kw_name := Some (match kw_name kwargs with Some n => n | None => default end);
     kw_receiver_feature := kw_receiver_feature kwargs;
     kw_sender_edge_feature := kw_sender_edge_feature kwargs |}.

(** [tf.keras.layers.Layer.__init__] on the forwarded keywords: the layer gets the name it
    is given, or one that Keras generates ([auto_name]); a keyword that
    [Layer] does not know is refused. *)
Definition Layer_init (auto_name : string) (kwargs : Kwargs) : result string :=
  match kw_receiver_feature kwargs, kw_sender_edge_feature kwargs with
  | None, None =>
      Ok (match kw_name kwargs with Some n => n | None => auto_name end)
  | _, _ => Raise (TypeError "Keyword argument not understood")
  end.

Module AnyToAnyConvolutionBase.

Record t : Type := {
  _name : string;
  _receiver_tag : IncidentNodeTag;
  _receiver_feature : option string;
  _sender_node_feature : option string;
  _sender_edge_feature : option string
}.

(** Modelled from the spec: the constructor of
    [tfgnn.keras.layers.AnyToAnyConvolutionBase], called by the subclasses
    as [super().__init__(receiver_tag=..., receiver_feature=None,
    sender_node_feature=..., sender_edge_feature=None, **kwargs)] ("is
    associated with exactly one edge set and one receiver endpoint").  A
    keyword given both by name and in [kwargs] is a [TypeError] of the call
    itself. *)
Definition init (auto_name : string) (receiver_tag : IncidentNodeTag)
    (receiver_feature sender_node_feature sender_edge_feature : option string)
    (kwargs : Kwargs) : result t :=
  match kw_receiver_feature kwargs, kw_sender_edge_feature kwargs with
  | None, None =>
      name <- Layer_init auto_name kwargs ;;
      Ok {| _name := name;
            _receiver_tag := receiver_tag;
            _receiver_feature := receiver_feature;
            _sender_node_feature := sender_node_feature;
            _sender_edge_feature := sender_edge_feature |}
  | _, _ => Raise (TypeError "got multiple values for keyword argument")
  end.

(** Modelled from the spec: [get_config] of the base class ("every
    parameterized instance must round-trip its full constructor
    configuration (all named options)"). *)
Record Config : Type := {
  name : string;
  receiver_tag : IncidentNodeTag;
  receiver_feature : option string;
  sender_node_feature : option string;
  sender_edge_feature : option string
}.

Definition get_config (self : t) : Config :=
  {| name := _name self;
     receiver_tag := _receiver_tag self;
     receiver_feature := _receiver_feature self;
     sender_node_feature := _sender_node_feature self;
     sender_edge_feature := _sender_edge_feature self |}.

(** Modelled from the spec: the call of a convolution on one edge set
    ("[convolve(sender_node_input, receiver_input, sender_edge_input,
    broadcast_fn, pool_fn, training)], operating over exactly one edge set
    per instantiation, parameterized by a receiver endpoint tag"): the
    sender node feature is read from the node set at the other endpoint,
    broadcasting goes from there to the edges, pooling goes from the edges
    to the receiver endpoint. *)
Definition call
    (convolve : option tensor -> (tensor -> result tensor) ->
                (tensor -> string -> result tensor) -> option bool ->
                result tensor)
    (self : t) (graph : GraphTensor) (edge_set_name : string)
    (training : option bool) : result tensor :=
  es <- getitem (edge_sets graph) edge_set_name ;;
  let sender_tag := reverse_tag (_receiver_tag self) in
  sender_node_input <-
    match _sender_node_feature self with
    | None => Ok None
    | Some f =>
        ns <- getitem (node_sets graph) (node_set_name (adjacency es) sender_tag) ;;
        x <- getitem (features ns) f ;;
        Ok (Some x)
    end ;;
  convolve sender_node_input
    (fun v => broadcast_node_to_edges graph edge_set_name sender_tag v)
    (fun v reduce_type =>
       pool_edges_to_node graph edge_set_name (_receiver_tag self) reduce_type v)
    training.

End AnyToAnyConvolutionBase.

Module GraphSAGEAggregatorConv.

(** The arguments of [__init__], which are also the keys of the dict that
    [get_config] returns. *)
Record Args : Type := {
  receiver_tag : IncidentNodeTag;
  reduce_type : string;
  sender_node_feature : option string;
  units : nat;
  dropout_rate : Qc;
  kwargs : Kwargs
}.

Record t : Type := {
  base : AnyToAnyConvolutionBase.t;
  _units : nat;
  _dropout_rate : Qc;
  _reduce_type : string
}.

(** [self._transform_neighbor_fn = tf.keras.layers.Dense(units,
    use_bias=False)], with the kernel it has been built with. *)
Definition _transform_neighbor_fn (self : t) (kernel : tensor) : Dense :=
  {| dense_units := _units self; dense_use_bias := false;
     dense_activation := linear; dense_kernel := kernel; dense_bias := [] |}.

Definition init (a : Args) : result t :=
  let kwargs := setdefault_name "graph_sage_aggregator_conv" (kwargs a) in
  match kwargs_get (kw_receiver_feature kwargs) with
  | Some _ =>
      Raise (ValueError "receiver_feature has to be None for GraphSAGEAggregatorConv.")
  | None =>
  match kwargs_get (kw_sender_edge_feature kwargs) with
  | Some _ =>
      Raise (ValueError "sender_edge_feature has to be None for GraphSAGEAggregatorConv.")
  | None =>
  match sender_node_feature a with
  | None =>
      Raise (ValueError "sender_node_feature should be specified for GraphSAGEAggregatorConv.")
  | Some _ =>
      b <- AnyToAnyConvolutionBase.init "graph_sage_aggregator_conv"
             (receiver_tag a) None (sender_node_feature a) None kwargs ;;
      Ok {| base := b;
            _units := units a;
            _dropout_rate := dropout_rate a;
            _reduce_type := reduce_type a |}
  end end end.

Definition get_config (self : t) : result Args :=
  let config := AnyToAnyConvolutionBase.get_config (base self) in
  match AnyToAnyConvolutionBase.receiver_feature config with
  | Some _ => Raise (AssertionError "init should guarantee receiver_feature=None")
  | None =>
  match AnyToAnyConvolutionBase.sender_edge_feature config with
  | Some _ => Raise (AssertionError "init should guarantee sender_edge_feature=None")
  | None =>
      Ok {| receiver_tag := AnyToAnyConvolutionBase.receiver_tag config;
            sender_node_feature := AnyToAnyConvolutionBase.sender_node_feature config;
            kwargs := {| kw_name := Some (AnyToAnyConvolutionBase.name config);
                         kw_receiver_feature := None;
                         kw_sender_edge_feature := None |};
            units := _units self;
            dropout_rate := _dropout_rate self;
            reduce_type := _reduce_type self |}
  end end.

(** [cls.from_config(config)], which calls the constructor with the entries of [config] as keywords. *)
Definition from_config (config : Args) : result t := init config.

Definition convolve (self : t) (kernel : tensor) (env : Env)
    (sender_node_input : option tensor)
    (broadcast_from_sender_node : tensor -> result tensor)
    (pool_to_receiver : tensor -> string -> result tensor)
    (training : option bool) : result tensor :=
  match sender_node_input with
  | None => Raise (AssertionError "sender_node_input can't be None.")
  | Some sender_node_input =>
      result <- broadcast_from_sender_node sender_node_input ;;
      let result := Dropout_call env (_dropout_rate self) 0 result training in
      result <- pool_to_receiver result (_reduce_type self) ;;
      result <- Dense_call (_transform_neighbor_fn self kernel) result ;;
      Ok result
  end.

End GraphSAGEAggregatorConv.

Module GraphSAGEPoolingConv.

Record Args : Type := {
  receiver_tag : IncidentNodeTag;
  sender_node_feature : option string;
  units : nat;
  hidden_units : nat;
  reduce_type : string;
  use_bias : bool;
  dropout_rate : Qc;
  activation : activation_arg;
  kwargs : Kwargs
}.

Record t : Type := {
  base : AnyToAnyConvolutionBase.t;
  _dropout_rate : Qc;
  _units : nat;
  _hidden_units : nat;
  _use_bias : bool;
  _activation : Keras.activation;
  _reduce_type : string
}.

(** The trained weights of the two [Dense] sublayers. *)
Record Weights : Type := {
  pooling_kernel : tensor;
  pooling_bias : row;
  neighbor_kernel : tensor
}.

Definition _pooling_transform_fn (self : t) (w : Weights) : Dense :=
  {| dense_units := _hidden_units self; dense_use_bias := _use_bias self;
     dense_activation := _activation self;
     dense_kernel := pooling_kernel w; dense_bias := pooling_bias w |}.

Definition _transform_neighbor_fn (self : t) (w : Weights) : Dense :=
  {| dense_units := _units self; dense_use_bias := false;
     dense_activation := linear;
     dense_kernel := neighbor_kernel w; dense_bias := [] |}.

Definition init (registry : string -> option (tensor -> tensor)) (a : Args)
    : result t :=
  let kwargs := setdefault_name "graph_sage_pooling_conv" (kwargs a) in
  match kwargs_get (kw_receiver_feature kwargs) with
  | Some _ =>
      Raise (ValueError "receiver_feature has to be None for GraphSAGEPoolingConv.")
  | None =>
  match kwargs_get (kw_sender_edge_feature kwargs) with
  | Some _ =>
      Raise (ValueError "sender_edge_feature has to be None for GraphSAGEPoolingConv.")
  | None =>
  match sender_node_feature a with
  | None =>
      Raise (ValueError "sender_node_feature should be specified for GraphSAGEPoolingConv.")
  | Some _ =>
      b <- AnyToAnyConvolutionBase.init "graph_sage_pooling_conv"
             (receiver_tag a) None (sender_node_feature a) None kwargs ;;
      act <- activations_get registry (activation a) ;;
      Ok {| base := b;
            _dropout_rate := dropout_rate a;
            _units := units a;
            _hidden_units := hidden_units a;
            _use_bias := use_bias a;
            _activation := act;
            _reduce_type := reduce_type a |}
  end end end.

Definition get_config (self : t) : result Args :=
  let config := AnyToAnyConvolutionBase.get_config (base self) in
  match AnyToAnyConvolutionBase.receiver_feature config with
  | Some _ => Raise (AssertionError "init should guarantee receiver_feature=None")
  | None =>
  match AnyToAnyConvolutionBase.sender_edge_feature config with
  | Some _ => Raise (ValueError "init should guarantee sender_edge_feature=None")
  | None =>
      Ok {| receiver_tag := AnyToAnyConvolutionBase.receiver_tag config;
            sender_node_feature := AnyToAnyConvolutionBase.sender_node_feature config;
            kwargs := {| kw_name := Some (AnyToAnyConvolutionBase.name config);
                         kw_receiver_feature := None;
                         kw_sender_edge_feature := None |};
            activation := ActCallable (_activation self);
            units := _units self;
            hidden_units := _hidden_units self;
            dropout_rate := _dropout_rate self;
            use_bias := _use_bias self;
            reduce_type := _reduce_type self |}
  end end.

Definition from_config (registry : string -> option (tensor -> tensor))
    (config : Args) : result t := init registry config.

Definition convolve (self : t) (w : Weights) (env : Env)
    (sender_node_input : option tensor)
    (broadcast_from_sender_node : tensor -> result tensor)
    (pool_to_receiver : tensor -> string -> result tensor)
    (training : option bool) : result tensor :=
  match sender_node_input with
  | None => Raise (AssertionError "sender_node_input can't be None.")
  | Some sender_node_input =>
      result <- broadcast_from_sender_node sender_node_input ;;
      let result := Dropout_call env (_dropout_rate self) 0 result training in
      (* The "Pooling aggregator" from Eq. (3) of the paper, plus dropout. *)
      result <- Dense_call (_pooling_transform_fn self w) result ;;
      result <- pool_to_receiver result (_reduce_type self) ;;
      result <- Dense_call (_transform_neighbor_fn self w) result ;;
      Ok result
  end.

End GraphSAGEPoolingConv.

Module GCNGraphSAGENodeSetUpdate.

Record Args : Type := {
  edge_set_names : list string;
  receiver_tag : IncidentNodeTag;
  reduce_type : string;
  self_node_feature : string;
  sender_node_feature : string;
  units : nat;
  dropout_rate : Qc;
  activation : activation_arg;
  use_bias : bool;
  share_weights : bool;
  add_self_loop : bool;
  kwargs : Kwargs
}.

Record t : Type := {
  _name : string;
  _self_node_feature : string;
  _edge_set_names : list string;
  _units : nat;
  _activation : Keras.activation;
  _receiver_tag : IncidentNodeTag;
  _reduce_type : string;
  _dropout_rate : Qc;
  _share_weights : bool;
  _add_self_loop : bool;
  _sender_node_feature : string;
  _use_bias : bool
}.

(** The trained weights: one kernel per edge set
    ([self._transform_edge_fn_dict]), the kernel of
    [self._node_transform_fn], and [self._bias_term]. *)
Record Weights : Type := {
  transform_edge_kernel : string -> tensor;
  node_transform_kernel : tensor;
  bias_term : row
}.

Definition _transform_edge_fn (self : t) (w : Weights) (edge_set_name : string)
    : Dense :=
  {| dense_units := _units self; dense_use_bias := false;
     dense_activation := linear;
     dense_kernel := transform_edge_kernel w edge_set_name; dense_bias := [] |}.

Definition _node_transform_fn (self : t) (w : Weights) : Dense :=
  {| dense_units := _units self; dense_use_bias := false;
     dense_activation := linear;
     dense_kernel := node_transform_kernel w; dense_bias := [] |}.

Definition init (registry : string -> option (tensor -> tensor)) (a : Args)
    : result t :=
  let kwargs := setdefault_name "graph_sage_gcn_update" (kwargs a) in
  name <- Layer_init "graph_sage_gcn_update" kwargs ;;
  act <- activations_get registry (activation a) ;;
  Ok {| _name := name;
        _self_node_feature := self_node_feature a;
        _edge_set_names := edge_set_names a;
        _units := units a;
        _activation := act;
        _receiver_tag := receiver_tag a;
        _reduce_type := reduce_type a;
        _dropout_rate := dropout_rate a;
        _share_weights := share_weights a;
        _add_self_loop := add_self_loop a;
        _sender_node_feature := sender_node_feature a;
        _use_bias := use_bias a |}.

Definition get_config (self : t) : Args :=
  {| kwargs := {| kw_name := Some (_name self);
                  kw_receiver_feature := None;
                  kw_sender_edge_feature := None |};
     edge_set_names := _edge_set_names self;
     receiver_tag := _receiver_tag self;
     reduce_type := _reduce_type self;
     self_node_feature := _self_node_feature self;
     sender_node_feature := _sender_node_feature self;
     units := _units self;
     dropout_rate := _dropout_rate self;
     activation := ActCallable (_activation self);
     use_bias := _use_bias self;
     share_weights := _share_weights self;
     add_self_loop := _add_self_loop self |}.

Definition from_config (registry : string -> option (tensor -> tensor))
    (config : Args) : result t := init registry config.

Definition receiver_error (edge_set_name : string) (node_set_name : string) : exn :=
  ValueError ("Incorrect " ++ edge_set_name ++
              " that has a different node at receiver_tag other than " ++
              node_set_name ++ ".").

(** The body of [for edge_set_name in self._edge_set_names], with the two
    lists it appends to.  [mask] numbers the dropout applications of the
    call.  The dropout layer is called without a [training] argument. *)
Fixpoint edge_set_loop (self : t) (w : Weights) (env : Env)
    (graph : GraphTensor) (node_set_name : string)
    (names : list string) (mask : nat)
    (edge_set_in_degrees_list : list any_tensor)
    (pooled_node_states_list : list tensor)
    : result (list any_tensor * list tensor) :=
  match names with
  | [] => Ok (edge_set_in_degrees_list, pooled_node_states_list)
  | edge_set_name :: names' =>
      edge_set <- getitem (edge_sets graph) edge_set_name ;;
      if negb (String.eqb node_set_name
                 (TFGNN.node_set_name (adjacency edge_set) (_receiver_tag self)))
      then Raise (receiver_error edge_set_name node_set_name)
      else
        let sender_node_set_name :=
          TFGNN.node_set_name (adjacency edge_set) (reverse_tag (_receiver_tag self)) in
        sender_node_set <- getitem (node_sets graph) sender_node_set_name ;;
        sender_node_values <-
          getitem (features sender_node_set) (_sender_node_feature self) ;;
        let sender_node_values :=
          Dropout_call env (_dropout_rate self) mask sender_node_values None in
        sender_node_values <-
          (if negb (_share_weights self)
           then Dense_call (_transform_edge_fn self w edge_set_name) sender_node_values
           else Dense_call (_node_transform_fn self w) sender_node_values) ;;
        broadcasted_sender_values <-
          broadcast_node_to_edges graph edge_set_name
            (reverse_tag (_receiver_tag self)) sender_node_values ;;
        pooled_sender_values <-
          pool_edges_to_node graph edge_set_name (_receiver_tag self) "sum"
            broadcasted_sender_values ;;
        let pooled_node_states_list :=
          pooled_node_states_list ++ [pooled_sender_values] in
        edge_set_in_degrees_list <-
          (if String.eqb (_reduce_type self) "mean"
           then
             let edge_set_ones := ones2 (edge_total_size edge_set) 1 in
             pooled_ones <-
               pool_edges_to_node graph edge_set_name (_receiver_tag self) "sum"
                 edge_set_ones ;;
             let edge_set_in_degrees := squeeze pooled_ones in
             Ok (edge_set_in_degrees_list ++ [edge_set_in_degrees])
           else Ok edge_set_in_degrees_list) ;;
        edge_set_loop self w env graph node_set_name names' (S mask)
          edge_set_in_degrees_list pooled_node_states_list
  end.

Definition reduce_type_error (reduce_type : string) : exn :=
  ValueError (reduce_type ++
              " isn't supported, please instead use any of ['sum', 'mean']").

(** [call(graph, *, node_set_name, training=False)].  Graph tensors of this
    embedding are scalar, so [check_scalar_graph_tensor] passes. *)
Definition call (self : t) (w : Weights) (env : Env) (graph : GraphTensor)
    (node_set_name : string) (training : option bool)
    : result (list (string * tensor)) :=
  if negb (String.eqb (_reduce_type self) "sum" ||
           String.eqb (_reduce_type self) "mean")
  then Raise (reduce_type_error (_reduce_type self))
  else
    lists <-
      edge_set_loop self w env graph node_set_name (_edge_set_names self) 0 [] [] ;;
    let '(edge_set_in_degrees_list, pooled_node_states_list) := lists in
    node_set <- getitem (node_sets graph) node_set_name ;;
    let total_size := total_size node_set in
    (* aggregate with self node states only if add_self_loop is enabled. *)
    lists <-
      (if _add_self_loop self
       then
         self_node_values <- getitem (features node_set) (_self_node_feature self) ;;
         let self_node_values :=
           Dropout_call env (_dropout_rate self) (length (_edge_set_names self))
             self_node_values None in
         self_node_values <- Dense_call (_node_transform_fn self w) self_node_values ;;
         Ok (if String.eqb (_reduce_type self) "mean"
             then edge_set_in_degrees_list ++ [T1 (ones total_size)]
             else edge_set_in_degrees_list,
             pooled_node_states_list ++ [self_node_values])
       else Ok (edge_set_in_degrees_list, pooled_node_states_list)) ;;
    let '(edge_set_in_degrees_list, pooled_node_states_list) := lists in
    summed_node_values <- add_n pooled_node_states_list ;;
    result <-
      (if String.eqb (_reduce_type self) "mean"
       then
         total_in_degrees <- any_add_n edge_set_in_degrees_list ;;
         column <- new_axis_1 total_in_degrees ;;
         divide_no_nan summed_node_values column
       else Ok summed_node_values) ;;
    result <- (if _use_bias self then bias_add result (bias_term w) else Ok result) ;;
    let result := apply_activation (_activation self) result in
    Ok [(_self_node_feature self, result)].

End GCNGraphSAGENodeSetUpdate.

(** A [tf.TensorShape]: [None] when the rank is unknown, otherwise the
    dimensions, each known or not. *)
Definition TensorShape : Type := option (list (option nat)).

Definition shape_of (x : tensor) : TensorShape :=
  Some [Some (nrows x); Some (ncols x)].

(** [s.rank] and [s[i]]; an unknown rank and an unknown dimension are
    Python's [None]. *)
Definition rank (s : TensorShape) : option nat :=
  match s with
  | Some dims => Some (length dims)
  | None => None
  end.

Definition dim (s : TensorShape) (i : nat) : option nat :=
  match s with
  | Some dims => match dims !! i with Some d => d | None => None end
  | None => None
  end.

Module GraphSAGENextState.

Record Args : Type := {
  units : nat;
  use_bias : bool;
  dropout_rate : Qc;
  feature_name : string;
  l2_normalize : bool;
  combine_type : string;
  activation : activation_arg;
  kwargs : Kwargs
}.

Record t : Type := {
  _name : string;
  _use_bias : bool;
  _l2_normalize : bool;
  _combine_type : string;
  _activation : Keras.activation;
  _units : nat;
  _feature_name : string;
  _dropout_rate : Qc
}.

(** The weights: the kernel of [self._self_transform], and
    [self._bias_term], an attribute that exists once [build] has added it. *)
Record Weights : Type := {
  self_transform_kernel : tensor;
  _bias_term : option row
}.

Definition _self_transform (self : t) (w : Weights) : Dense :=
  {| dense_units := _units self; dense_use_bias := false;
     dense_activation := linear;
     dense_kernel := self_transform_kernel w; dense_bias := [] |}.

Definition init (registry : string -> option (tensor -> tensor))
    (auto_name : string) (a : Args) : result t :=
  name <- Layer_init auto_name (kwargs a) ;;
  act <- activations_get registry (activation a) ;;
  Ok {| _name := name;
        _use_bias := use_bias a;
        _l2_normalize := l2_normalize a;
        _combine_type := combine_type a;
        _activation := act;
        _units := units a;
        _feature_name := feature_name a;
        _dropout_rate := dropout_rate a |}.

Definition get_config (self : t) : Args :=
  {| units := _units self;
     use_bias := _use_bias self;
     dropout_rate := _dropout_rate self;
     feature_name := _feature_name self;
     l2_normalize := _l2_normalize self;
     combine_type := _combine_type self;
     activation := ActCallable (_activation self);
     kwargs := {| kw_name := Some (_name self);
                  kw_receiver_feature := None;
                  kw_sender_edge_feature := None |} |}.

Definition from_config (registry : string -> option (tensor -> tensor))
    (auto_name : string) (config : Args) : result t :=
  init registry auto_name config.

(** [s.rank != 2 or s[1] is None]. *)
Definition invalid_edge_shape (s : TensorShape) : bool :=
  negb (bool_decide (rank s = Some 2)) || bool_decide (dim s 1 = None).

(** [s[1]] of a shape that passed the test above. *)
Definition feature_dim (s : TensorShape) : nat := default 0 (dim s 1).

Definition combine_type_error (combine_type : string) : exn :=
  ValueError ("combine_type: " ++ combine_type ++
              " isn't supported. Please instead specify 'concat' or 'sum'.").

(** [build(input_shapes)]: creates the bias term, filled with zeros.  The
    result is the value of [self._bias_term] afterwards. *)
Definition build (self : t)
    (input_shapes : TensorShape * list (string * TensorShape) * list (string * TensorShape))
    : result (option row) :=
  let '(_, edge_inputs_shape_dict, _) := input_shapes in
  if _use_bias self then
    shape <-
      (if String.eqb (_combine_type self) "sum" then Ok (_units self)
       else if String.eqb (_combine_type self) "concat" then
         let edge_input_shapes := map snd edge_inputs_shape_dict in
         if existsb invalid_edge_shape edge_input_shapes
         then Raise (ValueError "Invalid shape for edge inputs.")
         else Ok (_units self + sum_list (map feature_dim edge_input_shapes))
       else Raise (combine_type_error (_combine_type self))) ;;
    Ok (Some (zeros shape))
  else Ok None.

Definition context_error : exn :=
  ValueError "Input from context is not supported by GraphSAGENextState".

(** [call(inputs, training)].  The inputs are the old node state, the dict
    of aggregator outputs keyed by edge set name, and the dict of context
    features. *)
Definition call (self : t) (w : Weights) (env : Env)
    (inputs : tensor * list (string * tensor) * list (string * tensor))
    (training : option bool) : result (list (string * tensor)) :=
  let '(old_node_state, edge_inputs_dict, unused_context_state) := inputs in
  match unused_context_state with
  | _ :: _ => Raise context_error
  | [] =>
      let result := Dropout_call env (_dropout_rate self) 0 old_node_state training in
      result <- Dense_call (_self_transform self w) result ;;
      let result := result :: map snd (sorted_items edge_inputs_dict) in
      result <- combine_values result (_combine_type self) ;;
      result <-
        (if _use_bias self then
           match _bias_term w with
           | Some b => bias_add result b
           | None => Raise (AttributeError "_bias_term")
           end
         else Ok result) ;;
      let result := apply_activation (_activation self) result in
      let result :=
        if _l2_normalize self then Keras.l2_normalize env result else result in
      Ok [(_feature_name self, result)]
  end.

(** What Keras's [Layer.__call__] adds around [call]: on the first call of
    the layer, and only then, [build] runs on the shapes of the inputs. *)
Record State : Type := {
  built : bool;
  weights : Weights
}.

Definition input_shapes_of
    (inputs : tensor * list (string * tensor) * list (string * tensor))
    : TensorShape * list (string * TensorShape) * list (string * TensorShape) :=
  let '(x, edge_inputs, context) := inputs in
  (shape_of x,
   map (fun p => (fst p, shape_of (snd p))) edge_inputs,
   map (fun p => (fst p, shape_of (snd p))) context).

Definition keras_call (self : t) (env : Env) (st : State)
    (inputs : tensor * list (string * tensor) * list (string * tensor))
    (training : option bool) : result (State * list (string * tensor)) :=
  st <-
    (if built st then Ok st
     else
       b <- build self (input_shapes_of inputs) ;;
       Ok {| built := true;
             weights := {| self_transform_kernel := self_transform_kernel (weights st);
                           _bias_term := b |} |}) ;;
  out <- call self (weights st) env inputs training ;;
  Ok (st, out).

End GraphSAGENextState.

Module NodeSetUpdate.

(** The convolutions that [GraphSAGEGraphUpdate] puts on the edge sets. *)
Inductive Conv : Type :=
| Pooling (c : GraphSAGEPoolingConv.t)
| Aggregator (c : GraphSAGEAggregatorConv.t).

Record t : Type := {
  _edge_set_inputs : gmap string Conv;
  _next_state : GraphSAGENextState.t;
  _node_input_feature : string
}.

Definition init (edge_set_inputs : gmap string Conv)
    (next_state : GraphSAGENextState.t) (node_input_feature : string) : t :=
  {| _edge_set_inputs := edge_set_inputs;
     _next_state := next_state;
     _node_input_feature := node_input_feature |}.

Record Weights : Type := {
  conv_weights : string -> GraphSAGEPoolingConv.Weights;
  next_state_weights : GraphSAGENextState.Weights
}.

Definition conv_call (c : Conv) (w : GraphSAGEPoolingConv.Weights) (env : Env)
    (graph : GraphTensor) (edge_set_name : string) (training : option bool)
    : result tensor :=
  match c with
  | Pooling c =>
      AnyToAnyConvolutionBase.call (GraphSAGEPoolingConv.convolve c w env)
        (GraphSAGEPoolingConv.base c) graph edge_set_name training
  | Aggregator c =>
      AnyToAnyConvolutionBase.call
        (GraphSAGEAggregatorConv.convolve c (GraphSAGEPoolingConv.neighbor_kernel w) env)
        (GraphSAGEAggregatorConv.base c) graph edge_set_name training
  end.

(** Modelled from the spec: the call of [tfgnn.keras.layers.NodeSetUpdate]
    ("at call time the graph-tensor framework broadcasts/pools data through
    each Aggregator, then feeds all edge-set outputs plus the old node state
    into the Combiner, which returns the new node state dictionary").  No
    context feature is selected, so the third input is the empty dict. *)
Definition call (self : t) (w : Weights) (env : Env) (graph : GraphTensor)
    (node_set_name : string) (training : option bool)
    : result (list (string * tensor)) :=
  node_set <- getitem (node_sets graph) node_set_name ;;
  node_input <- getitem (features node_set) (_node_input_feature self) ;;
  edge_inputs <-
    mapM (fun item =>
            v <- conv_call (snd item) (conv_weights w (fst item)) env graph
                   (fst item) training ;;
            Ok (fst item, v))
      (sorted_items (map_to_list (_edge_set_inputs self))) ;;
  GraphSAGENextState.call (_next_state self) (next_state_weights w) env
    (node_input, edge_inputs, []) training.

End NodeSetUpdate.

Module GraphSAGEGraphUpdate.

Record Args : Type := {
  node_set_names : gset string;
  receiver_tag : IncidentNodeTag;
  reduce_type : string;
  use_pooling : bool;
  use_bias : bool;
  dropout_rate : Qc;
  units : nat;
  hidden_units : option nat;
  l2_normalize : bool;
  combine_type : string;
  activation : activation_arg;
  feature_name : string;
  name : string;
  kwargs : Kwargs
}.

(** What the callback reads of a [tfgnn.GraphTensorSpec]: the edge sets in
    the order of [spec.edge_sets_spec.items()], each with the names of the
    node sets at its two endpoints. *)
Record AdjacencySpec : Type := {
  spec_source_name : string;
  spec_target_name : string
}.

Definition spec_node_set_name (a : AdjacencySpec) (tag : IncidentNodeTag) : string :=
  match tag with SOURCE => spec_source_name a | TARGET => spec_target_name a end.

Record GraphTensorSpec : Type := {
  edge_sets_spec : list (string * AdjacencySpec)
}.

Definition pairing_error : exn :=
  ValueError ("Either use_pooling or hidden_units has been configured without the "
              ++ "other, please configure them together or disable them both.").

(** The convolution for one edge set.  In the pooling branch
    [hidden_units] is not [None], by the test at the head of the callback.
    The activation of the pooling convolution is its default, "relu". *)
Definition make_conv (registry : string -> option (tensor -> tensor)) (a : Args)
    : result NodeSetUpdate.Conv :=
  if use_pooling a then
    c <- GraphSAGEPoolingConv.init registry
           {| GraphSAGEPoolingConv.receiver_tag := receiver_tag a;
              GraphSAGEPoolingConv.sender_node_feature := Some (feature_name a);
              GraphSAGEPoolingConv.reduce_type := reduce_type a;
              GraphSAGEPoolingConv.units := units a;
              GraphSAGEPoolingConv.hidden_units :=
                match hidden_units a with Some h => h | None => 0 end;
              GraphSAGEPoolingConv.use_bias := use_bias a;
              GraphSAGEPoolingConv.dropout_rate := dropout_rate a;
              GraphSAGEPoolingConv.activation := ActName "relu";
              GraphSAGEPoolingConv.kwargs := kwargs a |} ;;
    Ok (NodeSetUpdate.Pooling c)
  else
    c <- GraphSAGEAggregatorConv.init
           {| GraphSAGEAggregatorConv.receiver_tag := receiver_tag a;
              GraphSAGEAggregatorConv.reduce_type := reduce_type a;
              GraphSAGEAggregatorConv.sender_node_feature := Some (feature_name a);
              GraphSAGEAggregatorConv.units := units a;
              GraphSAGEAggregatorConv.dropout_rate := dropout_rate a;
              GraphSAGEAggregatorConv.kwargs := kwargs a |} ;;
    Ok (NodeSetUpdate.Aggregator c).

(** The body of [for edge_set_name, edge_set_spec in
    spec.edge_sets_spec.items()] on the [defaultdict(dict)]. *)
Definition add_edge_set (registry : string -> option (tensor -> tensor)) (a : Args)
    (node_set_update_dict : gmap string (gmap string NodeSetUpdate.Conv))
    (item : string * AdjacencySpec)
    : result (gmap string (gmap string NodeSetUpdate.Conv)) :=
  let '(edge_set_name, edge_set_spec) := item in
  let node_set_name := spec_node_set_name edge_set_spec (receiver_tag a) in
  if decide (node_set_name ∈ node_set_names a) then
    c <- make_conv registry a ;;
    Ok (<[node_set_name :=
            <[edge_set_name := c]> (default ∅ (node_set_update_dict !! node_set_name))]>
          node_set_update_dict)
  else Ok node_set_update_dict.

(** The body of [for node_set_name, edge_set_update_dict in
    node_set_update_dict.items()]. *)
Definition make_node_set_update (registry : string -> option (tensor -> tensor))
    (auto_name : string) (a : Args)
    (item : string * gmap string NodeSetUpdate.Conv)
    : result (string * NodeSetUpdate.t) :=
  let '(node_set_name, edge_set_update_dict) := item in
  next_state <- GraphSAGENextState.init registry auto_name
                  {| GraphSAGENextState.units := units a;
                     GraphSAGENextState.use_bias := use_bias a;
                     GraphSAGENextState.dropout_rate := dropout_rate a;
                     GraphSAGENextState.feature_name := feature_name a;
                     GraphSAGENextState.l2_normalize := l2_normalize a;
                     GraphSAGENextState.combine_type := combine_type a;
                     GraphSAGENextState.activation := activation a;
                     GraphSAGENextState.kwargs := kwargs a |} ;;
  Ok (node_set_name,
      NodeSetUpdate.init edge_set_update_dict next_state (feature_name a)).

(** [GraphUpdateCallback(spec)]; the result is the [node_sets] entry of the
    dict it returns. *)
Definition GraphUpdateCallback (registry : string -> option (tensor -> tensor))
    (auto_name : string) (a : Args) (spec : GraphTensorSpec)
    : result (gmap string NodeSetUpdate.t) :=
  if negb (Bool.eqb (use_pooling a)
             (match hidden_units a with Some _ => true | None => false end))
  then Raise pairing_error
  else
    node_set_update_dict <-
      foldM (add_edge_set registry a) ∅ (edge_sets_spec spec) ;;
    node_set_updates <-
      mapM (make_node_set_update registry auto_name a)
        (map_to_list node_set_update_dict) ;;
    Ok (list_to_map node_set_updates).

End GraphSAGEGraphUpdate.

Module GraphUpdate.

(** Modelled from the spec: the call of [tfgnn.keras.layers.GraphUpdate] on
    the result of the callback ("an immutable mapping from node-set name to
    its assembled update"): every node set with an update gets the features
    its update returns, written over its old ones; the rest of the graph is
    passed on as it is. *)
Definition update_features (old : gmap string tensor) (new : list (string * tensor))
    : gmap string tensor :=
  list_to_map new ∪ old.

Definition call (node_set_updates : gmap string NodeSetUpdate.t)
    (w : string -> NodeSetUpdate.Weights) (env : Env) (graph : GraphTensor)
    (training : option bool) : result GraphTensor :=
  new_features <-
    mapM (fun item =>
            f <- NodeSetUpdate.call (snd item) (w (fst item)) env graph
                   (fst item) training ;;
            Ok (fst item, f))
      (map_to_list node_set_updates) ;;
  let new_features : gmap string (list (string * tensor)) := list_to_map new_features in
  Ok {| node_sets :=
          map_imap (fun node_set_name node_set =>
                      Some match new_features !! node_set_name with
                           | Some f =>
                               {| total_size := total_size node_set;
                                  features := update_features (features node_set) f |}
                           | None => node_set
                           end)
            (node_sets graph);
        edge_sets := edge_sets graph |}.

End GraphUpdate.

(** ** End-to-end scenario A of the spec

    A homogeneous graph of three nodes with the edges 1->0 and 2->0; an
    elementwise aggregator with [reduce_type="mean"] and [units=4]; a
    combiner with [combine_type="sum"], [use_bias=False], [activation=None]
    and [l2_normalize=False]. *)

Module ScenarioA.

Definition aggregator_args : GraphSAGEAggregatorConv.Args :=
  {| GraphSAGEAggregatorConv.receiver_tag := TARGET;
     GraphSAGEAggregatorConv.reduce_type := "mean";
     GraphSAGEAggregatorConv.sender_node_feature := Some HIDDEN_STATE;
     GraphSAGEAggregatorConv.units := 4;
     GraphSAGEAggregatorConv.dropout_rate := 0%Qc;
     GraphSAGEAggregatorConv.kwargs := no_kwargs |}.

Definition aggregator : GraphSAGEAggregatorConv.t :=
  {| GraphSAGEAggregatorConv.base :=
       {| AnyToAnyConvolutionBase._name := "graph_sage_aggregator_conv";
          AnyToAnyConvolutionBase._receiver_tag := TARGET;
          AnyToAnyConvolutionBase._receiver_feature := None;
          AnyToAnyConvolutionBase._sender_node_feature := Some HIDDEN_STATE;
          AnyToAnyConvolutionBase._sender_edge_feature := None |};
     GraphSAGEAggregatorConv._units := 4;
     GraphSAGEAggregatorConv._dropout_rate := 0%Qc;
     GraphSAGEAggregatorConv._reduce_type := "mean" |}.

Definition next_state_args : GraphSAGENextState.Args :=
  {| GraphSAGENextState.units := 4;
     GraphSAGENextState.use_bias := false;
     GraphSAGENextState.dropout_rate := 0%Qc;
     GraphSAGENextState.feature_name := HIDDEN_STATE;
     GraphSAGENextState.l2_normalize := false;
     GraphSAGENextState.combine_type := "sum";
     GraphSAGENextState.activation := ActNone;
     GraphSAGENextState.kwargs := no_kwargs |}.

Definition next_state : GraphSAGENextState.t :=
  {| GraphSAGENextState._name := "graph_sage_next_state";
     GraphSAGENextState._use_bias := false;
     GraphSAGENextState._l2_normalize := false;
     GraphSAGENextState._combine_type := "sum";
     GraphSAGENextState._activation := linear;
     GraphSAGENextState._units := 4;
     GraphSAGENextState._feature_name := HIDDEN_STATE;
     GraphSAGENextState._dropout_rate := 0%Qc |}.

Definition update : NodeSetUpdate.t :=
  NodeSetUpdate.init {[ "edges" := NodeSetUpdate.Aggregator aggregator ]}
    next_state HIDDEN_STATE.

(** The graph, with the old states of the three nodes as the rows of the
    hidden state. *)
Definition graph (width : nat) (state_0 state_1 state_2 : row) : GraphTensor :=
  {| node_sets :=
       {[ "nodes" :=
            {| total_size := 3;
               features :=
                 {[ HIDDEN_STATE := Tensor width [state_0; state_1; state_2] ]} |} ]};
     edge_sets :=
       {[ "edges" :=
            {| adjacency :=
                 {| source_name := "nodes"; target_name := "nodes";
                    source := [1; 2]; target := [0; 0] |} |} ]} |}.

(** The kernel of the self-transform and the kernel of the aggregator. *)
Definition weights (w_self w_neigh : tensor) : NodeSetUpdate.Weights :=
  {| NodeSetUpdate.conv_weights :=
       fun _ => {| GraphSAGEPoolingConv.pooling_kernel := w_neigh;
                   GraphSAGEPoolingConv.pooling_bias := [];
                   GraphSAGEPoolingConv.neighbor_kernel := w_neigh |};
     NodeSetUpdate.next_state_weights :=
       {| GraphSAGENextState.self_transform_kernel := w_self;
          GraphSAGENextState._bias_term := None |} |}.

(** [self_transform] and [transform] on one state, and the mean of two
    vectors. *)
Definition transform (w : tensor) (state : row) : row :=
  vecmat (ncols w) state (rows w).

Definition mean2 (a b : row) : row := div_row (vadd a b) (of_nat 2).

End ScenarioA.

(** ** Concrete data: two small graphs and a GCN update *)

Module Sample.

Definition q (n : Z) : Qc := Q2Qc (inject_Z n).

(** A run-time environment that keeps every cell under dropout; [ambient]
    is the training mode of the enclosing Keras call context. *)
Definition env (ambient : bool) : Env :=
  {| rsqrt := fun x => x; keep := fun _ _ _ => true; ambient_training := ambient |}.

Definition identity2 : tensor := Tensor 2 [[q 1; q 0]; [q 0; q 1]].

(** Three nodes with the edges 1->0 and 2->0. *)
Definition graph3 : GraphTensor :=
  {| node_sets :=
       {[ "nodes" :=
            {| total_size := 3;
               features :=
                 {[ HIDDEN_STATE := Tensor 2 [[q 1; q 2]; [q 3; q 4]; [q 5; q 6]] ]} |} ]};
     edge_sets :=
       {[ "edges" :=
            {| adjacency :=
                 {| source_name := "nodes"; target_name := "nodes";
                    source := [1; 2]; target := [0; 0] |} |} ]} |}.

(** One node, and an edge set without edges. *)
Definition graph1 : GraphTensor :=
  {| node_sets :=
       {[ "nodes" :=
            {| total_size := 1;
               features := {[ HIDDEN_STATE := Tensor 2 [[q 1; q 2]] ]} |} ]};
     edge_sets :=
       {[ "edges" :=
            {| adjacency :=
                 {| source_name := "nodes"; target_name := "nodes";
                    source := []; target := [] |} |} ]} |}.

Definition gcn_args (reduce_type : string) (dropout_rate : Qc) (add_self_loop : bool)
    : GCNGraphSAGENodeSetUpdate.Args :=
  {| GCNGraphSAGENodeSetUpdate.edge_set_names := ["edges"];
     GCNGraphSAGENodeSetUpdate.receiver_tag := TARGET;
     GCNGraphSAGENodeSetUpdate.reduce_type := reduce_type;
     GCNGraphSAGENodeSetUpdate.self_node_feature := HIDDEN_STATE;
     GCNGraphSAGENodeSetUpdate.sender_node_feature := HIDDEN_STATE;
     GCNGraphSAGENodeSetUpdate.units := 2;
     GCNGraphSAGENodeSetUpdate.dropout_rate := dropout_rate;
     GCNGraphSAGENodeSetUpdate.activation := ActNone;
     GCNGraphSAGENodeSetUpdate.use_bias := false;
     GCNGraphSAGENodeSetUpdate.share_weights := false;
     GCNGraphSAGENodeSetUpdate.add_self_loop := add_self_loop;
     GCNGraphSAGENodeSetUpdate.kwargs := no_kwargs |}.

Definition gcn (reduce_type : string) (dropout_rate : Qc) (add_self_loop : bool)
    : GCNGraphSAGENodeSetUpdate.t :=
  {| GCNGraphSAGENodeSetUpdate._name := "graph_sage_gcn_update";
     GCNGraphSAGENodeSetUpdate._self_node_feature := HIDDEN_STATE;
     GCNGraphSAGENodeSetUpdate._edge_set_names := ["edges"];
     GCNGraphSAGENodeSetUpdate._units := 2;
     GCNGraphSAGENodeSetUpdate._activation := linear;
     GCNGraphSAGENodeSetUpdate._receiver_tag := TARGET;
     GCNGraphSAGENodeSetUpdate._reduce_type := reduce_type;
     GCNGraphSAGENodeSetUpdate._dropout_rate := dropout_rate;
     GCNGraphSAGENodeSetUpdate._share_weights := false;
     GCNGraphSAGENodeSetUpdate._add_self_loop := add_self_loop;
     GCNGraphSAGENodeSetUpdate._sender_node_feature := HIDDEN_STATE;
     GCNGraphSAGENodeSetUpdate._use_bias := false |}.

Definition gcn_weights : GCNGraphSAGENodeSetUpdate.Weights :=
  {| GCNGraphSAGENodeSetUpdate.transform_edge_kernel := fun _ => identity2;
     GCNGraphSAGENodeSetUpdate.node_transform_kernel := identity2;
     GCNGraphSAGENodeSetUpdate.bias_term := [q 0; q 0] |}.

(** Inputs of a combiner on three nodes: the old state and two aggregator
    outputs, listed in two iteration orders. *)
Definition old_state : tensor := Tensor 2 [[q 1; q 2]; [q 3; q 4]; [q 5; q 6]].

Definition from_cites : tensor :=
  Tensor 4 [[q 1; q 0; q 0; q 0]; [q 0; q 1; q 0; q 0]; [q 0; q 0; q 1; q 0]].

Definition from_writes : tensor :=
  Tensor 4 [[q 2; q 2; q 2; q 2]; [q 3; q 3; q 3; q 3]; [q 4; q 4; q 4; q 4]].

Definition edge_inputs : list (string * tensor) :=
  [("writes", from_writes); ("cites", from_cites)].

Definition edge_inputs_other_order : list (string * tensor) :=
  [("cites", from_cites); ("writes", from_writes)].

Definition kernel_2_4 : tensor :=
  Tensor 4 [[q 1; q 0; q 1; q 0]; [q 0; q 1; q 0; q 1]].

(** A combiner with a bias, in the given combine mode. *)
Definition next_state_args (combine_type : string) : GraphSAGENextState.Args :=
  {| GraphSAGENextState.units := 4;
     GraphSAGENextState.use_bias := true;
     GraphSAGENextState.dropout_rate := 0%Qc;
     GraphSAGENextState.feature_name := HIDDEN_STATE;
     GraphSAGENextState.l2_normalize := true;
     GraphSAGENextState.combine_type := combine_type;
     GraphSAGENextState.activation := ActName "relu";
     GraphSAGENextState.kwargs := no_kwargs |}.

Definition next_state (combine_type : string) : GraphSAGENextState.t :=
  {| GraphSAGENextState._name := "graph_sage_next_state";
     GraphSAGENextState._use_bias := true;
     GraphSAGENextState._l2_normalize := true;
     GraphSAGENextState._combine_type := combine_type;
     GraphSAGENextState._activation := relu;
     GraphSAGENextState._units := 4;
     GraphSAGENextState._feature_name := HIDDEN_STATE;
     GraphSAGENextState._dropout_rate := 0%Qc |}.

Definition next_state_weights (bias_width : nat) : GraphSAGENextState.Weights :=
  {| GraphSAGENextState.self_transform_kernel := kernel_2_4;
     GraphSAGENextState._bias_term := Some (zeros bias_width) |}.

(** The layer before its first call. *)
Definition unbuilt : GraphSAGENextState.State :=
  {| GraphSAGENextState.built := false;
     GraphSAGENextState.weights :=
       {| GraphSAGENextState.self_transform_kernel := kernel_2_4;
          GraphSAGENextState._bias_term := None |} |}.

(** A residual block that maps every input to a tensor of the shape
    [[3, 2]], and one that gives a tensor of the shape [[3, 1]]. *)
Definition residual_fitting : ResidualNextState.t :=
  {| ResidualNextState.residual_block := fun _ => Ok old_state;
     ResidualNextState.activation := linear;
     ResidualNextState.skip_connection_feature_name := DEFAULT_STATE_NAME |}.

Definition residual_misfit : ResidualNextState.t :=
  {| ResidualNextState.residual_block :=
       fun _ => Ok (Tensor 1 [[q 1]; [q 2]; [q 3]]);
     ResidualNextState.activation := linear;
     ResidualNextState.skip_connection_feature_name := DEFAULT_STATE_NAME |}.

Definition aggregator_args : GraphSAGEAggregatorConv.Args :=
  {| GraphSAGEAggregatorConv.receiver_tag := TARGET;
     GraphSAGEAggregatorConv.reduce_type := "mean";
     GraphSAGEAggregatorConv.sender_node_feature := Some HIDDEN_STATE;
     GraphSAGEAggregatorConv.units := 4;
     GraphSAGEAggregatorConv.dropout_rate := Q2Qc (1 # 2);
     GraphSAGEAggregatorConv.kwargs := no_kwargs |}.

Definition pooling_args : GraphSAGEPoolingConv.Args :=
  {| GraphSAGEPoolingConv.receiver_tag := SOURCE;
     GraphSAGEPoolingConv.sender_node_feature := Some HIDDEN_STATE;
     GraphSAGEPoolingConv.units := 4;
     GraphSAGEPoolingConv.hidden_units := 8;
     GraphSAGEPoolingConv.reduce_type := "max_no_inf";
     GraphSAGEPoolingConv.use_bias := true;
     GraphSAGEPoolingConv.dropout_rate := Q2Qc (1 # 2);
     GraphSAGEPoolingConv.activation := ActName "relu";
     GraphSAGEPoolingConv.kwargs := no_kwargs |}.

Definition pooling : GraphSAGEPoolingConv.t :=
  {| GraphSAGEPoolingConv.base :=
       {| AnyToAnyConvolutionBase._name := "graph_sage_pooling_conv";
          AnyToAnyConvolutionBase._receiver_tag := SOURCE;
          AnyToAnyConvolutionBase._receiver_feature := None;
          AnyToAnyConvolutionBase._sender_node_feature := Some HIDDEN_STATE;
          AnyToAnyConvolutionBase._sender_edge_feature := None |};
     GraphSAGEPoolingConv._dropout_rate := Q2Qc (1 # 2);
     GraphSAGEPoolingConv._units := 4;
     GraphSAGEPoolingConv._hidden_units := 8;
     GraphSAGEPoolingConv._use_bias := true;
     GraphSAGEPoolingConv._activation := relu;
     GraphSAGEPoolingConv._reduce_type := "max_no_inf" |}.

(** A schema with two edge sets that both end in the node set "paper", and
    a graph update requested for "paper" and "author". *)
Definition spec : GraphSAGEGraphUpdate.GraphTensorSpec :=
  {| GraphSAGEGraphUpdate.edge_sets_spec :=
       [("cites", {| GraphSAGEGraphUpdate.spec_source_name := "paper";
                     GraphSAGEGraphUpdate.spec_target_name := "paper" |});
        ("writes", {| GraphSAGEGraphUpdate.spec_source_name := "author";
                      GraphSAGEGraphUpdate.spec_target_name := "paper" |})] |}.

Definition graph_update_args : GraphSAGEGraphUpdate.Args :=
  {| GraphSAGEGraphUpdate.node_set_names := {[ "paper"; "author" ]};
     GraphSAGEGraphUpdate.receiver_tag := TARGET;
     GraphSAGEGraphUpdate.reduce_type := "mean";
     GraphSAGEGraphUpdate.use_pooling := false;
     GraphSAGEGraphUpdate.use_bias := true;
     GraphSAGEGraphUpdate.dropout_rate := 0%Qc;
     GraphSAGEGraphUpdate.units := 4;
     GraphSAGEGraphUpdate.hidden_units := None;
     GraphSAGEGraphUpdate.l2_normalize := true;
     GraphSAGEGraphUpdate.combine_type := "sum";
     GraphSAGEGraphUpdate.activation := ActName "relu";
     GraphSAGEGraphUpdate.feature_name := HIDDEN_STATE;
     GraphSAGEGraphUpdate.name := "graph_sage";
     GraphSAGEGraphUpdate.kwargs := no_kwargs |}.

(** The value of a result, and the empty mapping for an exception. *)
Definition updates_of (r : result (gmap string NodeSetUpdate.t))
    : gmap string NodeSetUpdate.t :=
  match r with Ok u => u | Raise _ => ∅ end.

End Sample.

(** ** Decidable equality of results, for evaluation on concrete inputs *)

Definition row_eqb (a b : row) : bool :=
  Nat.eqb (length a) (length b) && forallb (fun p => Qc_eq_bool (fst p) (snd p)) (zip a b).

Definition tensor_eqb (a b : tensor) : bool :=
  Nat.eqb (ncols a) (ncols b) && Nat.eqb (nrows a) (nrows b) &&
  forallb (fun p => row_eqb (fst p) (snd p)) (zip (rows a) (rows b)).

Definition bag_eqb (a b : list (string * tensor)) : bool :=
  Nat.eqb (length a) (length b) &&
  forallb (fun p => String.eqb (fst (fst p)) (fst (snd p)) &&
                    tensor_eqb (snd (fst p)) (snd (snd p))) (zip a b).

(** ** Notions used in the statements *)

(** The receiver node set of an edge set of the spec. *)
Definition receiver_of (a : GraphSAGEGraphUpdate.Args)
    (item : string * GraphSAGEGraphUpdate.AdjacencySpec) : string :=
  GraphSAGEGraphUpdate.spec_node_set_name (snd item)
    (GraphSAGEGraphUpdate.receiver_tag a).

(** The same arguments with another set of node set names. *)
Definition with_node_set_names (a : GraphSAGEGraphUpdate.Args) (names : gset string)
    : GraphSAGEGraphUpdate.Args :=
  {| GraphSAGEGraphUpdate.node_set_names := names;
     GraphSAGEGraphUpdate.receiver_tag := GraphSAGEGraphUpdate.receiver_tag a;
     GraphSAGEGraphUpdate.reduce_type := GraphSAGEGraphUpdate.reduce_type a;
     GraphSAGEGraphUpdate.use_pooling := GraphSAGEGraphUpdate.use_pooling a;
     GraphSAGEGraphUpdate.use_bias := GraphSAGEGraphUpdate.use_bias a;
     GraphSAGEGraphUpdate.dropout_rate := GraphSAGEGraphUpdate.dropout_rate a;
     GraphSAGEGraphUpdate.units := GraphSAGEGraphUpdate.units a;
     GraphSAGEGraphUpdate.hidden_units := GraphSAGEGraphUpdate.hidden_units a;
     GraphSAGEGraphUpdate.l2_normalize := GraphSAGEGraphUpdate.l2_normalize a;
     GraphSAGEGraphUpdate.combine_type := GraphSAGEGraphUpdate.combine_type a;
     GraphSAGEGraphUpdate.activation := GraphSAGEGraphUpdate.activation a;
     GraphSAGEGraphUpdate.feature_name := GraphSAGEGraphUpdate.feature_name a;
     GraphSAGEGraphUpdate.name := GraphSAGEGraphUpdate.name a;
     GraphSAGEGraphUpdate.kwargs := GraphSAGEGraphUpdate.kwargs a |}.



(** A tensor of rank 0. *)
Definition is_scalar (a : any_tensor) : Prop :=
  match a with T0 _ => True | _ => False end.

(** ** Notions used in the statements about the GCN update *)

(** [p] is what the loop of the GCN update appends for the edge set
    [edge_set_name]: the edge set is in the graph and ends in the node set
    [node_set_name], its sender node set has the sender feature, and [p] is
    the sum-pooling of some per-edge values to the receiver nodes. *)
Definition pooled_from (self : GCNGraphSAGENodeSetUpdate.t) (graph : GraphTensor)
    (node_set_name : string) (edge_set_name : string) (p : tensor) : Prop :=
  exists edge_set sender_node_set sender_node_values per_edge_values,
    edge_sets graph !! edge_set_name = Some edge_set /\
    TFGNN.node_set_name (adjacency edge_set)
      (GCNGraphSAGENodeSetUpdate._receiver_tag self) = node_set_name /\
    node_sets graph !!
      TFGNN.node_set_name (adjacency edge_set)
        (reverse_tag (GCNGraphSAGENodeSetUpdate._receiver_tag self)) =
      Some sender_node_set /\
    features sender_node_set !! GCNGraphSAGENodeSetUpdate._sender_node_feature self =
      Some sender_node_values /\
    pool_edges_to_node graph edge_set_name
      (GCNGraphSAGENodeSetUpdate._receiver_tag self) "sum" per_edge_values = Ok p.

(** Node [i] is the receiver of no edge of the configured edge sets. *)
Definition isolated (self : GCNGraphSAGENodeSetUpdate.t) (graph : GraphTensor)
    (i : nat) : Prop :=
  forall edge_set_name edge_set,
    edge_set_name ∈ GCNGraphSAGENodeSetUpdate._edge_set_names self ->
    edge_sets graph !! edge_set_name = Some edge_set ->
    i ∉ indices (adjacency edge_set) (GCNGraphSAGENodeSetUpdate._receiver_tag self).

(** Every edge of every edge set has both endpoints. *)
Definition edges_paired (graph : GraphTensor) : Prop :=
  forall edge_set_name edge_set,
    edge_sets graph !! edge_set_name = Some edge_set ->
    length (source (adjacency edge_set)) = length (target (adjacency edge_set)).

(** The number of edges of one edge set, and of all configured edge sets,
    that node [i] receives. *)
Definition in_degree_along (graph : GraphTensor) (tag : IncidentNodeTag)
    (edge_set_name : string) (i : nat) : nat :=
  match edge_sets graph !! edge_set_name with
  | Some edge_set => count_occ Nat.eq_dec (indices (adjacency edge_set) tag) i
  | None => 0
  end.

Definition in_degree (self : GCNGraphSAGENodeSetUpdate.t) (graph : GraphTensor)
    (i : nat) : nat :=
  sum_list
    (map (fun edge_set_name =>
            in_degree_along graph (GCNGraphSAGENodeSetUpdate._receiver_tag self)
              edge_set_name i)
       (GCNGraphSAGENodeSetUpdate._edge_set_names self)).

(** The vector of the values of [c] on the nodes [0 .. n-1]. *)
Definition degree_vector (n : nat) (c : nat -> nat) : row :=
  map (fun i => of_nat (c i)) (seq 0 n).

(** The same layer with another [reduce_type]. *)
Definition with_reduce_type (self : GCNGraphSAGENodeSetUpdate.t) (reduce_type : string)
    : GCNGraphSAGENodeSetUpdate.t :=
  {| GCNGraphSAGENodeSetUpdate._name := GCNGraphSAGENodeSetUpdate._name self;
     GCNGraphSAGENodeSetUpdate._self_node_feature :=
       GCNGraphSAGENodeSetUpdate._self_node_feature self;
     GCNGraphSAGENodeSetUpdate._edge_set_names :=
       GCNGraphSAGENodeSetUpdate._edge_set_names self;
     GCNGraphSAGENodeSetUpdate._units := GCNGraphSAGENodeSetUpdate._units self;
     GCNGraphSAGENodeSetUpdate._activation := GCNGraphSAGENodeSetUpdate._activation self;
     GCNGraphSAGENodeSetUpdate._receiver_tag :=
       GCNGraphSAGENodeSetUpdate._receiver_tag self;
     GCNGraphSAGENodeSetUpdate._reduce_type := reduce_type;
     GCNGraphSAGENodeSetUpdate._dropout_rate :=
       GCNGraphSAGENodeSetUpdate._dropout_rate self;
     GCNGraphSAGENodeSetUpdate._share_weights :=
       GCNGraphSAGENodeSetUpdate._share_weights self;
     GCNGraphSAGENodeSetUpdate._add_self_loop :=
       GCNGraphSAGENodeSetUpdate._add_self_loop self;
     GCNGraphSAGENodeSetUpdate._sender_node_feature :=
       GCNGraphSAGENodeSetUpdate._sender_node_feature self;
     GCNGraphSAGENodeSetUpdate._use_bias := GCNGraphSAGENodeSetUpdate._use_bias self |}.

(** The number of the summands that the mean of the GCN update divides
    by at node [i]. *)
Definition gcn_degree (self : GCNGraphSAGENodeSetUpdate.t) (graph : GraphTensor)
    (i : nat) : nat :=
  in_degree self graph i +
  (if GCNGraphSAGENodeSetUpdate._add_self_loop self then 1 else 0).

(** The last steps of the call of the GCN update: bias and activation. *)
Definition gcn_finish (self : GCNGraphSAGENodeSetUpdate.t)
    (w : GCNGraphSAGENodeSetUpdate.Weights) (values : tensor)
    : result (list (string * tensor)) :=
  result <-
    (if GCNGraphSAGENodeSetUpdate._use_bias self
     then bias_add values (GCNGraphSAGENodeSetUpdate.bias_term w)
     else Ok values) ;;
  Ok [(GCNGraphSAGENodeSetUpdate._self_node_feature self,
       apply_activation (GCNGraphSAGENodeSetUpdate._activation self) result)].

(** ** Notions used in the statements about the layers of next_state.py *)




(** The feature that [ResidualNextState] adds back. *)
Definition skip_feature (self : ResidualNextState.t) (self_input : FieldOrFields)
    : option tensor :=
  match self_input with
  | Field x => Some x
  | Fields d => assoc (ResidualNextState.skip_connection_feature_name self) d
  end.

(** ** Notions used in the statements about the graph update *)

(** The convolution [c] is the one that the arguments [a] of
    [GraphSAGEGraphUpdate] ask for. *)
Definition base_as_requested (a : GraphSAGEGraphUpdate.Args)
    (b : AnyToAnyConvolutionBase.t) : Prop :=
  AnyToAnyConvolutionBase._receiver_tag b = GraphSAGEGraphUpdate.receiver_tag a /\
  AnyToAnyConvolutionBase._sender_node_feature b =
    Some (GraphSAGEGraphUpdate.feature_name a) /\
  AnyToAnyConvolutionBase._receiver_feature b = None /\
  AnyToAnyConvolutionBase._sender_edge_feature b = None.

Definition conv_as_requested (a : GraphSAGEGraphUpdate.Args) (c : NodeSetUpdate.Conv)
    : Prop :=
  match c with
  | NodeSetUpdate.Pooling p =>
      GraphSAGEGraphUpdate.use_pooling a = true /\
      GraphSAGEGraphUpdate.hidden_units a = Some (GraphSAGEPoolingConv._hidden_units p) /\
      GraphSAGEPoolingConv._units p = GraphSAGEGraphUpdate.units a /\
      GraphSAGEPoolingConv._use_bias p = GraphSAGEGraphUpdate.use_bias a /\
      GraphSAGEPoolingConv._dropout_rate p = GraphSAGEGraphUpdate.dropout_rate a /\
      GraphSAGEPoolingConv._reduce_type p = GraphSAGEGraphUpdate.reduce_type a /\
      GraphSAGEPoolingConv._activation p = relu /\
      base_as_requested a (GraphSAGEPoolingConv.base p)
  | NodeSetUpdate.Aggregator g =>
      GraphSAGEGraphUpdate.use_pooling a = false /\
      GraphSAGEGraphUpdate.hidden_units a = None /\
      GraphSAGEAggregatorConv._units g = GraphSAGEGraphUpdate.units a /\
      GraphSAGEAggregatorConv._dropout_rate g = GraphSAGEGraphUpdate.dropout_rate a /\
      GraphSAGEAggregatorConv._reduce_type g = GraphSAGEGraphUpdate.reduce_type a /\
      base_as_requested a (GraphSAGEAggregatorConv.base g)
  end.

(** The combiner [n] is the one that the arguments [a] ask for. *)
Definition next_state_as_requested (registry : string -> option (tensor -> tensor))
    (a : GraphSAGEGraphUpdate.Args) (n : GraphSAGENextState.t) : Prop :=
  GraphSAGENextState._units n = GraphSAGEGraphUpdate.units a /\
  GraphSAGENextState._use_bias n = GraphSAGEGraphUpdate.use_bias a /\
  GraphSAGENextState._dropout_rate n = GraphSAGEGraphUpdate.dropout_rate a /\
  GraphSAGENextState._feature_name n = GraphSAGEGraphUpdate.feature_name a /\
  GraphSAGENextState._l2_normalize n = GraphSAGEGraphUpdate.l2_normalize a /\
  GraphSAGENextState._combine_type n = GraphSAGEGraphUpdate.combine_type a /\
  activations_get registry (GraphSAGEGraphUpdate.activation a) =
    Ok (GraphSAGENextState._activation n).




(** The same combiner without a bias. *)
Definition without_bias (self : GraphSAGENextState.t) : GraphSAGENextState.t :=
  {| GraphSAGENextState._name := GraphSAGENextState._name self;
     GraphSAGENextState._use_bias := false;
     GraphSAGENextState._l2_normalize := GraphSAGENextState._l2_normalize self;
     GraphSAGENextState._combine_type := GraphSAGENextState._combine_type self;
     GraphSAGENextState._activation := GraphSAGENextState._activation self;
     GraphSAGENextState._units := GraphSAGENextState._units self;
     GraphSAGENextState._feature_name := GraphSAGENextState._feature_name self;
     GraphSAGENextState._dropout_rate := GraphSAGENextState._dropout_rate self |}.


(** ** Layers without dropout, for evaluation *)

Module NoDropout.

Definition pooling : GraphSAGEPoolingConv.t :=
  {| GraphSAGEPoolingConv.base :=
       {| AnyToAnyConvolutionBase._name := "graph_sage_pooling_conv";
          AnyToAnyConvolutionBase._receiver_tag := TARGET;
          AnyToAnyConvolutionBase._receiver_feature := None;
          AnyToAnyConvolutionBase._sender_node_feature := Some HIDDEN_STATE;
          AnyToAnyConvolutionBase._sender_edge_feature := None |};
     GraphSAGEPoolingConv._dropout_rate := 0%Qc;
     GraphSAGEPoolingConv._units := 2;
     GraphSAGEPoolingConv._hidden_units := 2;
     GraphSAGEPoolingConv._use_bias := false;
     GraphSAGEPoolingConv._activation := relu;
     GraphSAGEPoolingConv._reduce_type := "sum" |}.

Definition pooling_weights : GraphSAGEPoolingConv.Weights :=
  {| GraphSAGEPoolingConv.pooling_kernel := Sample.identity2;
     GraphSAGEPoolingConv.pooling_bias := [];
     GraphSAGEPoolingConv.neighbor_kernel := Sample.identity2 |}.

(** A run-time environment that drops every cell under dropout. *)
Definition dropping_env : Env :=
  {| rsqrt := fun x => x; keep := fun _ _ _ => false; ambient_training := true |}.

End NoDropout.

(** * Properties *)

(** ** The order on edge set names *)

Lemma String_compare_OT (a b : string) :
  String.compare a b = String_as_OT.compare a b.
Proof.
  revert b. induction a as [|c a IH]; intros [|d b]; reflexivity.
Qed.

Lemma String_compare_spec (a b : string) :
  CompSpec eq String_as_OT.lt a b (String.compare a b).
Proof. rewrite String_compare_OT. apply String_as_OT.compare_spec. Qed.

Lemma String_leb_trans (a b c : string) :
  String.leb a b = true -> String.leb b c = true -> String.leb a c = true.
Proof.
  unfold String.leb.
  destruct (String_compare_spec a b) as [Hab | Hab | Hab]; try discriminate;
  destruct (String_compare_spec b c) as [Hbc | Hbc | Hbc]; try discriminate;
  intros _ _; destruct (String_compare_spec a c) as [Hac | Hac | Hac];
  try reflexivity; exfalso; subst;
  eapply (StrictOrder_Irreflexive (R := String_as_OT.lt));
  repeat (eassumption || etransitivity).
Qed.

#[local] Instance key_le_trans {V} : Transitive (@key_le V).
Proof. intros x y z. unfold key_le. apply String_leb_trans. Qed.

#[local] Instance key_le_total {V} : Total (@key_le V).
Proof. intros x y. unfold key_le. apply String.leb_total. Qed.

(** The items of a dict come out of [sorted] in one order, whatever the
    order they went in. *)
Lemma sorted_items_perm {V} (d1 d2 : list (string * V)) :
  NoDup (map fst d1) -> d1 ≡ₚ d2 -> sorted_items d1 = sorted_items d2.
Proof.
  intros Hnd Hp. unfold sorted_items.
  apply (Sorted_unique_strong key_le).
  - intros [k1 v1] [k2 v2] H1 H2 Hle1 Hle2.
    unfold key_le in Hle1, Hle2. simpl in *.
    assert (k1 = k2) by (apply String.leb_antisym; assumption). subst k2.
    rewrite merge_sort_Permutation in H1, H2. rewrite <- Hp in H2.
    f_equal. clear -Hnd H1 H2.
    induction d1 as [|[k v] d1 IH]; [inv H1|].
    simpl in Hnd. apply NoDup_cons in Hnd as [Hk Hnd].
    apply elem_of_cons in H1 as [E1|H1], H2 as [E2|H2].
    + congruence.
    + inv E1. exfalso. apply Hk. apply list_elem_of_fmap. exists (k, v2). auto.
    + inv E2. exfalso. apply Hk. apply list_elem_of_fmap. exists (k, v1). auto.
    + auto.
  - apply Sorted_merge_sort; apply _.
  - apply Sorted_merge_sort; apply _.
  - rewrite !merge_sort_Permutation. exact Hp.
Qed.

(** C4: the combiner sorts the edge set names before it combines, so two
    edge-set-keyed input mappings with the same key-value pairs, presented
    in different iteration orders, give equal outputs. *)
Theorem next_state_call_order_invariant
    (self : GraphSAGENextState.t) (w : GraphSAGENextState.Weights) (env : Env)
    (x : tensor) (d1 d2 context : list (string * tensor)) (training : option bool) :
  NoDup (map fst d1) -> d1 ≡ₚ d2 ->
  GraphSAGENextState.call self w env (x, d1, context) training =
  GraphSAGENextState.call self w env (x, d2, context) training.
Proof.
  intros Hnd Hp. unfold GraphSAGENextState.call.
  rewrite (sorted_items_perm d1 d2 Hnd Hp). reflexivity.
Qed.

(** ** The combiner's guard on context inputs *)


Lemma bind_Ok {A B} (r : result A) (k : A -> result B) (b : B) :
  Py.bind r k = Ok b -> exists a, r = Ok a /\ k a = Ok b.
Proof.
  destruct r as [a|e']; simpl; intros H; [exists a; split; [reflexivity|exact H] | discriminate].
Qed.







(** ** The bias of the combiner *)

(** C8: with [use_bias], the bias vector has shape [[units]] in sum mode and
    [[units + sum of the feature widths of the edge set inputs]] in concat
    mode, where the computation fails with a validation error if an edge set
    input shape has a rank other than 2 or an undefined feature axis.  It is
    created by the first call of the layer and by no later call. *)
Theorem next_state_bias_built_once
    (self : GraphSAGENextState.t) (env : Env) (st : GraphSAGENextState.State)
    (inputs : tensor * list (string * tensor) * list (string * tensor))
    (training : option bool)
    (s0 : TensorShape) (edge_shapes context_shapes : list (string * TensorShape)) :
  GraphSAGENextState._use_bias self = true ->
  (GraphSAGENextState._combine_type self = "sum" ->
   GraphSAGENextState.build self (s0, edge_shapes, context_shapes) =
     Ok (Some (zeros (GraphSAGENextState._units self)))) /\
  (GraphSAGENextState._combine_type self = "concat" ->
   (forall k s, (k, s) ∈ edge_shapes -> rank s = Some 2 /\ dim s 1 <> None) ->
   GraphSAGENextState.build self (s0, edge_shapes, context_shapes) =
     Ok (Some (zeros (GraphSAGENextState._units self +
                      sum_list (map (fun p => default 0 (dim (snd p) 1)) edge_shapes))))) /\
  (GraphSAGENextState._combine_type self = "concat" ->
   (exists k s, (k, s) ∈ edge_shapes /\ (rank s <> Some 2 \/ dim s 1 = None)) ->
   GraphSAGENextState.build self (s0, edge_shapes, context_shapes) =
     Raise (ValueError "Invalid shape for edge inputs.")) /\
  (GraphSAGENextState.built st = false ->
   GraphSAGENextState.keras_call self env st inputs training =
     (b <- GraphSAGENextState.build self (GraphSAGENextState.input_shapes_of inputs) ;;
      let st' :=
        {| GraphSAGENextState.built := true;
           GraphSAGENextState.weights :=
             {| GraphSAGENextState.self_transform_kernel :=
                  GraphSAGENextState.self_transform_kernel (GraphSAGENextState.weights st);
                GraphSAGENextState._bias_term := b |} |} in
      out <- GraphSAGENextState.call self (GraphSAGENextState.weights st') env inputs training ;;
      Ok (st', out))) /\
  (GraphSAGENextState.built st = true ->
   GraphSAGENextState.keras_call self env st inputs training =
     (out <- GraphSAGENextState.call self (GraphSAGENextState.weights st) env inputs training ;;
      Ok (st, out))).
Proof.
  intros Hb. repeat split;
    [unfold GraphSAGENextState.build; rewrite Hb ..
    | unfold GraphSAGENextState.keras_call | unfold GraphSAGENextState.keras_call].
  - intros ->. reflexivity.
  - intros -> Hok. simpl.
    replace (existsb _ _) with false.
    + simpl. do 3 f_equal. rewrite map_map. reflexivity.
    + symmetry. apply not_true_is_false. intros H.
      apply existsb_exists in H as (s & Hin & Hs).
      apply in_map_iff in Hin as ([k s'] & <- & Hin).
      apply list_elem_of_In in Hin. destruct (Hok _ _ Hin) as [Hr Hd].
      unfold GraphSAGENextState.invalid_edge_shape in Hs. simpl in Hs.
      rewrite bool_decide_eq_true_2 in Hs by exact Hr.
      rewrite bool_decide_eq_false_2 in Hs by exact Hd. discriminate.
  - intros -> (k & s & Hin & Hbad). simpl.
    replace (existsb _ _) with true; [reflexivity|].
    symmetry. apply existsb_exists. exists s. split.
    + apply in_map_iff. exists (k, s). split; [reflexivity|].
      apply list_elem_of_In. exact Hin.
    + unfold GraphSAGENextState.invalid_edge_shape.
      destruct Hbad as [Hr | Hd].
      * rewrite bool_decide_eq_false_2 by exact Hr. reflexivity.
      * rewrite (bool_decide_eq_true_2 _ Hd). apply orb_true_r.
  - intros ->. destruct (GraphSAGENextState.build _ _); reflexivity.
  - intros ->. reflexivity.
Qed.

(** ** The residual block *)

(** C5: a feature bag without the skip connection feature makes the call
    raise a lookup error; a residual block whose output shape differs from
    the shape of the skip feature makes the call raise the shape error,
    while the constructor, which sees no shape, accepts the block; and when
    nothing fails, the activation is applied to the sum of the block's
    output and the skip feature. *)
Theorem residual_next_state_errors
    (registry : string -> option (tensor -> tensor))
    (self : ResidualNextState.t)
    (self_input : FieldOrFields) (other1 other2 : FieldsNest)
    (skip net0 net : tensor) :
  (forall d, self_input = Fields d ->
     assoc (ResidualNextState.skip_connection_feature_name self) d = None ->
     ResidualNextState.call self (self_input, other1, other2) =
       Raise (ResidualNextState.skip_key_error
                (ResidualNextState.skip_connection_feature_name self))) /\
  ((self_input = Field skip \/
    exists d, self_input = Fields d /\
      assoc (ResidualNextState.skip_connection_feature_name self) d = Some skip) ->
   concat (flatten_inputs (self_input, other1, other2)) = Ok net0 ->
   ResidualNextState.residual_block self net0 = Ok net ->
   (shape net <> shape skip ->
      ResidualNextState.call self (self_input, other1, other2) =
        Raise ResidualNextState.shape_error /\
      ResidualNextState.init registry (ResidualNextState.residual_block self)
        (ActCallable (ResidualNextState.activation self))
        (ResidualNextState.skip_connection_feature_name self) = Ok self) /\
   (shape net = shape skip ->
      ResidualNextState.call self (self_input, other1, other2) =
        Ok (apply_activation (ResidualNextState.activation self) (add2 net skip)))).
Proof.
  split.
  - intros d -> Hnone. unfold ResidualNextState.call. simpl. rewrite Hnone.
    reflexivity.
  - intros Hskip Hcat Hblock.
    assert (Hcall : ResidualNextState.call self (self_input, other1, other2) =
              if negb (is_compatible_with (shape skip) (shape net))
              then Raise ResidualNextState.shape_error
              else (n <- add net skip ;;
                    Ok (apply_activation (ResidualNextState.activation self) n))).
    { unfold ResidualNextState.call.
      destruct Hskip as [-> | (d & -> & Hd)]; cbn [fst]; [|rewrite Hd];
        cbn [Py.bind]; rewrite Hcat; cbn [Py.bind]; rewrite Hblock; reflexivity. }
    rewrite Hcall. unfold is_compatible_with, shape. simpl. split.
    + intros Hne. split; [|destruct self; reflexivity].
      destruct (Nat.eqb_spec (nrows skip) (nrows net)) as [E1|N1];
        [|reflexivity].
      destruct (Nat.eqb_spec (ncols skip) (ncols net)) as [E2|N2];
        [|reflexivity].
      exfalso. apply Hne. unfold shape. congruence.
    + intros [= E1 E2]. rewrite E1, E2, !Nat.eqb_refl. simpl.
      unfold add, same_shape. rewrite E1, E2, !Nat.eqb_refl. reflexivity.
Qed.

(** ** Configuration round trips *)

Lemma aggregator_conv_round_trip (a : GraphSAGEAggregatorConv.Args)
    (self : GraphSAGEAggregatorConv.t) :
  GraphSAGEAggregatorConv.init a = Ok self ->
  exists config,
    GraphSAGEAggregatorConv.get_config self = Ok config /\
    GraphSAGEAggregatorConv.from_config config = Ok self /\
    GraphSAGEAggregatorConv.receiver_tag config = GraphSAGEAggregatorConv.receiver_tag a /\
    GraphSAGEAggregatorConv.reduce_type config = GraphSAGEAggregatorConv.reduce_type a /\
    GraphSAGEAggregatorConv.sender_node_feature config =
      GraphSAGEAggregatorConv.sender_node_feature a /\
    GraphSAGEAggregatorConv.units config = GraphSAGEAggregatorConv.units a /\
    GraphSAGEAggregatorConv.dropout_rate config = GraphSAGEAggregatorConv.dropout_rate a.
Proof.
  destruct a as [tag rt snf u dr [kn krf kse]].
  unfold GraphSAGEAggregatorConv.init, AnyToAnyConvolutionBase.init, Layer_init.
  simpl. destruct krf as [[?|]|], kse as [[?|]|], snf as [f|]; try discriminate.
  simpl. intros [= <-]. eexists. split; [reflexivity|].
  repeat split.
Qed.

Lemma pooling_conv_round_trip registry (a : GraphSAGEPoolingConv.Args)
    (self : GraphSAGEPoolingConv.t) :
  GraphSAGEPoolingConv.init registry a = Ok self ->
  exists config,
    GraphSAGEPoolingConv.get_config self = Ok config /\
    GraphSAGEPoolingConv.from_config registry config = Ok self /\
    GraphSAGEPoolingConv.receiver_tag config = GraphSAGEPoolingConv.receiver_tag a /\
    GraphSAGEPoolingConv.sender_node_feature config =
      GraphSAGEPoolingConv.sender_node_feature a /\
    GraphSAGEPoolingConv.units config = GraphSAGEPoolingConv.units a /\
    GraphSAGEPoolingConv.hidden_units config = GraphSAGEPoolingConv.hidden_units a /\
    GraphSAGEPoolingConv.reduce_type config = GraphSAGEPoolingConv.reduce_type a /\
    GraphSAGEPoolingConv.use_bias config = GraphSAGEPoolingConv.use_bias a /\
    GraphSAGEPoolingConv.dropout_rate config = GraphSAGEPoolingConv.dropout_rate a /\
    activations_get registry (GraphSAGEPoolingConv.activation config) =
      activations_get registry (GraphSAGEPoolingConv.activation a).
Proof.
  destruct a as [tag snf u hu rt ub dr act [kn krf kse]].
  unfold GraphSAGEPoolingConv.init, AnyToAnyConvolutionBase.init, Layer_init.
  simpl. destruct krf as [[?|]|], kse as [[?|]|], snf as [f|]; try discriminate.
  simpl. destruct (activations_get registry act) as [fn|] eqn:Hact; [|discriminate].
  simpl. intros [= <-]. eexists. split; [reflexivity|].
  repeat split.
Qed.

Lemma gcn_round_trip registry (a : GCNGraphSAGENodeSetUpdate.Args)
    (self : GCNGraphSAGENodeSetUpdate.t) :
  GCNGraphSAGENodeSetUpdate.init registry a = Ok self ->
  let config := GCNGraphSAGENodeSetUpdate.get_config self in
  GCNGraphSAGENodeSetUpdate.from_config registry config = Ok self /\
  GCNGraphSAGENodeSetUpdate.edge_set_names config = GCNGraphSAGENodeSetUpdate.edge_set_names a /\
  GCNGraphSAGENodeSetUpdate.receiver_tag config = GCNGraphSAGENodeSetUpdate.receiver_tag a /\
  GCNGraphSAGENodeSetUpdate.reduce_type config = GCNGraphSAGENodeSetUpdate.reduce_type a /\
  GCNGraphSAGENodeSetUpdate.self_node_feature config =
    GCNGraphSAGENodeSetUpdate.self_node_feature a /\
  GCNGraphSAGENodeSetUpdate.sender_node_feature config =
    GCNGraphSAGENodeSetUpdate.sender_node_feature a /\
  GCNGraphSAGENodeSetUpdate.units config = GCNGraphSAGENodeSetUpdate.units a /\
  GCNGraphSAGENodeSetUpdate.dropout_rate config = GCNGraphSAGENodeSetUpdate.dropout_rate a /\
  GCNGraphSAGENodeSetUpdate.use_bias config = GCNGraphSAGENodeSetUpdate.use_bias a /\
  GCNGraphSAGENodeSetUpdate.share_weights config = GCNGraphSAGENodeSetUpdate.share_weights a /\
  GCNGraphSAGENodeSetUpdate.add_self_loop config = GCNGraphSAGENodeSetUpdate.add_self_loop a /\
  activations_get registry (GCNGraphSAGENodeSetUpdate.activation config) =
    activations_get registry (GCNGraphSAGENodeSetUpdate.activation a).
Proof.
  destruct a as [names tag rt self_f snf u dr act ub sw sl [kn krf kse]].
  unfold GCNGraphSAGENodeSetUpdate.init, Layer_init.
  simpl. destruct krf as [?|], kse as [?|]; try discriminate.
  simpl. destruct (activations_get registry act) as [fn|] eqn:Hact; [|discriminate].
  simpl. intros [= <-]. repeat split.
Qed.

Lemma next_state_round_trip registry auto_name (a : GraphSAGENextState.Args)
    (self : GraphSAGENextState.t) :
  GraphSAGENextState.init registry auto_name a = Ok self ->
  let config := GraphSAGENextState.get_config self in
  (forall auto_name', GraphSAGENextState.from_config registry auto_name' config = Ok self) /\
  GraphSAGENextState.units config = GraphSAGENextState.units a /\
  GraphSAGENextState.use_bias config = GraphSAGENextState.use_bias a /\
  GraphSAGENextState.dropout_rate config = GraphSAGENextState.dropout_rate a /\
  GraphSAGENextState.feature_name config = GraphSAGENextState.feature_name a /\
  GraphSAGENextState.l2_normalize config = GraphSAGENextState.l2_normalize a /\
  GraphSAGENextState.combine_type config = GraphSAGENextState.combine_type a /\
  activations_get registry (GraphSAGENextState.activation config) =
    activations_get registry (GraphSAGENextState.activation a).
Proof.
  destruct a as [u ub dr fn l2 ct act [kn krf kse]].
  unfold GraphSAGENextState.init, Layer_init.
  simpl. destruct krf as [?|], kse as [?|]; try discriminate.
  simpl. destruct (activations_get registry act) as [f|] eqn:Hact; [|discriminate].
  simpl. intros [= <-]. repeat split.
Qed.

(** C9: for each of the four layer classes, the configuration that
    [get_config] returns for an instance rebuilds that instance, and it
    holds every named constructor argument the instance was made from, the
    activation in its resolved form. *)
Theorem get_config_round_trip
    (registry : string -> option (tensor -> tensor)) (auto_name : string)
    (a1 : GraphSAGEAggregatorConv.Args) (s1 : GraphSAGEAggregatorConv.t)
    (a2 : GraphSAGEPoolingConv.Args) (s2 : GraphSAGEPoolingConv.t)
    (a3 : GCNGraphSAGENodeSetUpdate.Args) (s3 : GCNGraphSAGENodeSetUpdate.t)
    (a4 : GraphSAGENextState.Args) (s4 : GraphSAGENextState.t) :
  GraphSAGEAggregatorConv.init a1 = Ok s1 ->
  GraphSAGEPoolingConv.init registry a2 = Ok s2 ->
  GCNGraphSAGENodeSetUpdate.init registry a3 = Ok s3 ->
  GraphSAGENextState.init registry auto_name a4 = Ok s4 ->
  (exists config,
     GraphSAGEAggregatorConv.get_config s1 = Ok config /\
     GraphSAGEAggregatorConv.from_config config = Ok s1 /\
     GraphSAGEAggregatorConv.receiver_tag config = GraphSAGEAggregatorConv.receiver_tag a1 /\
     GraphSAGEAggregatorConv.reduce_type config = GraphSAGEAggregatorConv.reduce_type a1 /\
     GraphSAGEAggregatorConv.sender_node_feature config =
       GraphSAGEAggregatorConv.sender_node_feature a1 /\
     GraphSAGEAggregatorConv.units config = GraphSAGEAggregatorConv.units a1 /\
     GraphSAGEAggregatorConv.dropout_rate config = GraphSAGEAggregatorConv.dropout_rate a1) /\
  (exists config,
     GraphSAGEPoolingConv.get_config s2 = Ok config /\
     GraphSAGEPoolingConv.from_config registry config = Ok s2 /\
     GraphSAGEPoolingConv.receiver_tag config = GraphSAGEPoolingConv.receiver_tag a2 /\
     GraphSAGEPoolingConv.sender_node_feature config =
       GraphSAGEPoolingConv.sender_node_feature a2 /\
     GraphSAGEPoolingConv.units config = GraphSAGEPoolingConv.units a2 /\
     GraphSAGEPoolingConv.hidden_units config = GraphSAGEPoolingConv.hidden_units a2 /\
     GraphSAGEPoolingConv.reduce_type config = GraphSAGEPoolingConv.reduce_type a2 /\
     GraphSAGEPoolingConv.use_bias config = GraphSAGEPoolingConv.use_bias a2 /\
     GraphSAGEPoolingConv.dropout_rate config = GraphSAGEPoolingConv.dropout_rate a2 /\
     activations_get registry (GraphSAGEPoolingConv.activation config) =
       activations_get registry (GraphSAGEPoolingConv.activation a2)) /\
  (let config := GCNGraphSAGENodeSetUpdate.get_config s3 in
   GCNGraphSAGENodeSetUpdate.from_config registry config = Ok s3 /\
   GCNGraphSAGENodeSetUpdate.edge_set_names config = GCNGraphSAGENodeSetUpdate.edge_set_names a3 /\
   GCNGraphSAGENodeSetUpdate.receiver_tag config = GCNGraphSAGENodeSetUpdate.receiver_tag a3 /\
   GCNGraphSAGENodeSetUpdate.reduce_type config = GCNGraphSAGENodeSetUpdate.reduce_type a3 /\
   GCNGraphSAGENodeSetUpdate.self_node_feature config =
     GCNGraphSAGENodeSetUpdate.self_node_feature a3 /\
   GCNGraphSAGENodeSetUpdate.sender_node_feature config =
     GCNGraphSAGENodeSetUpdate.sender_node_feature a3 /\
   GCNGraphSAGENodeSetUpdate.units config = GCNGraphSAGENodeSetUpdate.units a3 /\
   GCNGraphSAGENodeSetUpdate.dropout_rate config = GCNGraphSAGENodeSetUpdate.dropout_rate a3 /\
   GCNGraphSAGENodeSetUpdate.use_bias config = GCNGraphSAGENodeSetUpdate.use_bias a3 /\
   GCNGraphSAGENodeSetUpdate.share_weights config = GCNGraphSAGENodeSetUpdate.share_weights a3 /\
   GCNGraphSAGENodeSetUpdate.add_self_loop config = GCNGraphSAGENodeSetUpdate.add_self_loop a3 /\
   activations_get registry (GCNGraphSAGENodeSetUpdate.activation config) =
     activations_get registry (GCNGraphSAGENodeSetUpdate.activation a3)) /\
  (let config := GraphSAGENextState.get_config s4 in
   (forall auto_name', GraphSAGENextState.from_config registry auto_name' config = Ok s4) /\
   GraphSAGENextState.units config = GraphSAGENextState.units a4 /\
   GraphSAGENextState.use_bias config = GraphSAGENextState.use_bias a4 /\
   GraphSAGENextState.dropout_rate config = GraphSAGENextState.dropout_rate a4 /\
   GraphSAGENextState.feature_name config = GraphSAGENextState.feature_name a4 /\
   GraphSAGENextState.l2_normalize config = GraphSAGENextState.l2_normalize a4 /\
   GraphSAGENextState.combine_type config = GraphSAGENextState.combine_type a4 /\
   activations_get registry (GraphSAGENextState.activation config) =
     activations_get registry (GraphSAGENextState.activation a4)).
Proof.
  intros H1 H2 H3 H4.
  split; [exact (aggregator_conv_round_trip a1 s1 H1)|].
  split; [exact (pooling_conv_round_trip registry a2 s2 H2)|].
  split; [exact (gcn_round_trip registry a3 s3 H3)|].
  exact (next_state_round_trip registry auto_name a4 s4 H4).
Qed.

(** ** The assembly of the graph update *)

Section Assembly.

Variable registry : string -> option (tensor -> tensor).
Variable auto_name : string.

(** The keys of the [defaultdict] after the first loop: what was there,
    and the receivers, among the requested node sets, of the edge sets
    gone through. *)
Lemma foldM_add_edge_set_dom a items :
  forall d d',
    foldM (GraphSAGEGraphUpdate.add_edge_set registry a) d items = Ok d' ->
    forall n, is_Some (d' !! n) <->
      is_Some (d !! n) \/
      (n ∈ GraphSAGEGraphUpdate.node_set_names a /\
       exists item, item ∈ items /\ receiver_of a item = n).
Proof.
  induction items as [|[es adj] items IH]; intros d d'; simpl.
  - intros [= <-] n. split; [auto|].
    intros [H | (_ & item & Hin & _)]; [exact H | inv Hin].
  - intros H. apply bind_Ok in H as (d1 & Hstep & Hrest).
    intros n. rewrite (IH _ _ Hrest n). clear IH Hrest.
    unfold GraphSAGEGraphUpdate.add_edge_set in Hstep.
    destruct (decide _) as [Hmem | Hmem].
    + apply bind_Ok in Hstep as (c & _ & [= <-]).
      destruct (decide (GraphSAGEGraphUpdate.spec_node_set_name adj
                          (GraphSAGEGraphUpdate.receiver_tag a) = n)) as [E | NE].
      * subst n. rewrite lookup_insert_eq. split.
        -- intros _. right. split; [exact Hmem|].
           exists (es, adj). split; [left | reflexivity].
        -- intros _. left. eauto.
      * rewrite lookup_insert_ne by exact NE. split.
        -- intros [H | (Hn & item & Hin & Hrec)]; [auto|].
           right. split; [exact Hn|]. exists item. split; [right; exact Hin | exact Hrec].
        -- intros [H | (Hn & item & Hin & Hrec)]; [auto|].
           apply elem_of_cons in Hin as [-> | Hin]; [contradiction NE|].
           right. split; [exact Hn|]. exists item. split; assumption.
    + injection Hstep as <-. split.
      * intros [H | (Hn & item & Hin & Hrec)]; [auto|].
        right. split; [exact Hn|]. exists item. split; [right; exact Hin | exact Hrec].
      * intros [H | (Hn & item & Hin & Hrec)]; [auto|].
        apply elem_of_cons in Hin as [-> | Hin].
        -- exfalso. apply Hmem. unfold receiver_of in Hrec. simpl in Hrec.
           rewrite Hrec. exact Hn.
        -- right. split; [exact Hn|]. exists item. split; assumption.
Qed.

(** A loop that rebuilds every item under its own key keeps the keys. *)
Lemma mapM_keys {A B} (f : string * A -> result (string * B)) l l' :
  (forall x y, f x = Ok y -> fst y = fst x) ->
  mapM f l = Ok l' -> l'.*1 = l.*1.
Proof.
  intros Hf. revert l'. induction l as [|x l IH]; intros l'; simpl.
  - intros [= <-]. reflexivity.
  - intros H. apply bind_Ok in H as (y & Hy & H).
    apply bind_Ok in H as (l1 & Hl1 & [= <-]).
    simpl. f_equal; [apply Hf; exact Hy | apply IH; exact Hl1].
Qed.

Lemma make_node_set_update_key a x y :
  GraphSAGEGraphUpdate.make_node_set_update registry auto_name a x = Ok y ->
  fst y = fst x.
Proof.
  destruct x as [n convs]. unfold GraphSAGEGraphUpdate.make_node_set_update.
  intros H. apply bind_Ok in H as (ns & _ & [= <-]). reflexivity.
Qed.

Lemma callback_dom a spec updates :
  GraphSAGEGraphUpdate.GraphUpdateCallback registry auto_name a spec = Ok updates ->
  forall n, is_Some (updates !! n) <->
    (n ∈ GraphSAGEGraphUpdate.node_set_names a /\
     exists item, item ∈ GraphSAGEGraphUpdate.edge_sets_spec spec /\
                  receiver_of a item = n).
Proof.
  unfold GraphSAGEGraphUpdate.GraphUpdateCallback.
  destruct (negb _); [discriminate|]. intros H.
  apply bind_Ok in H as (d & Hd & H).
  apply bind_Ok in H as (l & Hl & [= <-]).
  intros n.
  pose proof (foldM_add_edge_set_dom a _ _ _ Hd n) as Hdom.
  rewrite lookup_empty in Hdom.
  assert (Hkeys : is_Some ((list_to_map l : gmap string NodeSetUpdate.t) !! n) <->
                  is_Some (d !! n)).
  { rewrite <- !elem_of_dom, dom_list_to_map_L.
    rewrite (mapM_keys _ _ _ (make_node_set_update_key a) Hl).
    rewrite (dom_alt d). reflexivity. }
  rewrite Hkeys, Hdom. split; [|auto].
  intros [[? [=]] | H]; exact H.
Qed.

(** A requested node set that receives no edge set makes no difference to
    the first loop. *)
Lemma add_edge_set_without a ns d item :
  receiver_of a item <> ns ->
  GraphSAGEGraphUpdate.add_edge_set registry
    (with_node_set_names a (GraphSAGEGraphUpdate.node_set_names a ∖ {[ns]})) d item =
  GraphSAGEGraphUpdate.add_edge_set registry a d item.
Proof.
  intros Hne. destruct item as [es adj].
  unfold GraphSAGEGraphUpdate.add_edge_set, receiver_of in *. simpl in *.
  destruct (decide (_ ∈ _ ∖ _)) as [H1|H1],
           (decide (_ ∈ GraphSAGEGraphUpdate.node_set_names a)) as [H2|H2];
    try reflexivity; exfalso; set_solver.
Qed.

Lemma foldM_without a ns items :
  (forall item, item ∈ items -> receiver_of a item <> ns) ->
  forall d,
    foldM (GraphSAGEGraphUpdate.add_edge_set registry
             (with_node_set_names a (GraphSAGEGraphUpdate.node_set_names a ∖ {[ns]})))
      d items =
    foldM (GraphSAGEGraphUpdate.add_edge_set registry a) d items.
Proof.
  induction items as [|item items IH]; intros Hall d; simpl; [reflexivity|].
  rewrite add_edge_set_without by (apply Hall; left).
  destruct (GraphSAGEGraphUpdate.add_edge_set registry a d item); simpl;
    [|reflexivity].
  apply IH. intros i Hi. apply Hall. right. exact Hi.
Qed.

(** A node set without an update keeps its entry in the graph. *)
Lemma graph_update_frame (updates : gmap string NodeSetUpdate.t)
    (w : string -> NodeSetUpdate.Weights) (env : Env) (graph graph' : GraphTensor)
    (training : option bool) (ns : string) :
  updates !! ns = None ->
  GraphUpdate.call updates w env graph training = Ok graph' ->
  node_sets graph' !! ns = node_sets graph !! ns.
Proof.
  intros Hnone H. unfold GraphUpdate.call in H.
  apply bind_Ok in H as (l & Hl & [= <-]). simpl.
  rewrite map_lookup_imap.
  destruct (node_sets graph !! ns) as [node_set|]; [simpl|reflexivity].
  replace ((list_to_map l : gmap string (list (string * tensor))) !! ns)
    with (@None (list (string * tensor))); [reflexivity|].
  symmetry. apply not_elem_of_dom. rewrite dom_list_to_map_L.
  erewrite (mapM_keys _ _ _ _ Hl).
  rewrite <- (dom_alt updates). apply not_elem_of_dom. exact Hnone.
  Unshelve.
  intros x y Hxy. apply bind_Ok in Hxy as (f & _ & [= <-]). reflexivity.
Qed.

End Assembly.

(** C10: the callback builds a node set update for exactly the requested
    node sets that are the receiver of at least one edge set.  A requested
    node set that receives no edge set gets no update, listing it changes
    nothing in what the callback returns or raises, and the graph update
    leaves the node set as it is. *)
Theorem graph_update_skips_node_sets_without_edge_sets
    (registry : string -> option (tensor -> tensor)) (auto_name : string)
    (a : GraphSAGEGraphUpdate.Args) (spec : GraphSAGEGraphUpdate.GraphTensorSpec)
    (ns : string) (updates : gmap string NodeSetUpdate.t) :
  ns ∈ GraphSAGEGraphUpdate.node_set_names a ->
  (forall item, item ∈ GraphSAGEGraphUpdate.edge_sets_spec spec ->
                receiver_of a item <> ns) ->
  GraphSAGEGraphUpdate.GraphUpdateCallback registry auto_name a spec = Ok updates ->
  (forall n, is_Some (updates !! n) <->
     (n ∈ GraphSAGEGraphUpdate.node_set_names a /\
      exists item, item ∈ GraphSAGEGraphUpdate.edge_sets_spec spec /\
                   receiver_of a item = n)) /\
  updates !! ns = None /\
  GraphSAGEGraphUpdate.GraphUpdateCallback registry auto_name
    (with_node_set_names a (GraphSAGEGraphUpdate.node_set_names a ∖ {[ns]})) spec =
    Ok updates /\
  (forall w env graph training graph',
     GraphUpdate.call updates w env graph training = Ok graph' ->
     node_sets graph' !! ns = node_sets graph !! ns).
Proof.
  intros Hin Hnone Hcb.
  pose proof (callback_dom registry auto_name a spec updates Hcb) as Hdom.
  assert (Hns : updates !! ns = None).
  { apply eq_None_not_Some. rewrite Hdom. intros (_ & item & Hi & Hr).
    exact (Hnone item Hi Hr). }
  split; [exact Hdom|]. split; [exact Hns|]. split.
  - rewrite <- Hcb. unfold GraphSAGEGraphUpdate.GraphUpdateCallback. simpl.
    rewrite (foldM_without registry a ns _ Hnone). reflexivity.
  - intros w env graph training graph'. apply graph_update_frame. exact Hns.
Qed.

(** ** Shapes along the combiner's pipeline *)



Lemma length_vadd a b : length (vadd a b) = min (length a) (length b).
Proof. apply length_zip_with. Qed.

Lemma length_vecmat u r w :
  Forall (fun wi => length wi = u) w -> length (vecmat u r w) = u.
Proof.
  intros Hw. revert r. induction Hw as [|wi w Hwi Hw IH]; intros [|x r]; simpl;
    try apply length_replicate.
  rewrite length_vadd, IH. unfold vscale. rewrite length_map, Hwi. lia.
Qed.


Lemma foldl_add2_shape l : forall t,
  nrows (foldl add2 t l) <= nrows t /\ ncols (foldl add2 t l) = ncols t.
Proof.
  induction l as [|u l IH]; intros t; simpl; [split; reflexivity|].
  destruct (IH (add2 t u)) as [Hn Hc]. split; [|exact Hc].
  etransitivity; [exact Hn|]. unfold nrows, add2. simpl.
  rewrite length_zip_with. lia.
Qed.

Lemma foldl_concat2_ncols l : forall t,
  ncols (foldl concat2 t l) = ncols t + sum_list (map ncols l).
Proof.
  induction l as [|u l IH]; intros t; simpl; [lia|].
  rewrite IH. simpl. lia.
Qed.




Lemma sum_list_perm (l1 l2 : list nat) : l1 ≡ₚ l2 -> sum_list l1 = sum_list l2.
Proof. induction 1; simpl; lia. Qed.

Lemma sum_ncols_sorted_items (m : list (string * tensor)) :
  sum_list (map ncols (map snd (sorted_items m))) = sum_list (map (fun p => ncols (snd p)) m).
Proof.
  rewrite map_map. apply sum_list_perm.
  change (map (fun p : string * tensor => ncols (snd p))) with
    (fmap (M := list) (fun p : string * tensor => ncols (snd p))).
  unfold sorted_items. rewrite merge_sort_Permutation. reflexivity.
Qed.

Lemma Forall_sorted_items {V} (P : string * V -> Prop) (m : list (string * V)) :
  Forall P m -> Forall P (sorted_items m).
Proof.
  intros H. unfold sorted_items.
  rewrite merge_sort_Permutation. exact H.
Qed.



(** ** Linearity of the transforms *)

Lemma vadd_swap (a b c d : row) :
  vadd (vadd a b) (vadd c d) = vadd (vadd a c) (vadd b d).
Proof.
  revert b c d. induction a as [|x a IH]; intros [|y b] [|z c] [|t d];
    try reflexivity.
  unfold vadd in *. simpl. rewrite IH. f_equal. ring.
Qed.

Lemma vadd_zeros_r (a : row) : vadd a (zeros (length a)) = a.
Proof.
  induction a as [|x a IH]; [reflexivity|].
  unfold vadd, zeros in *. simpl. rewrite IH. f_equal. ring.
Qed.

Lemma vadd_zeros_zeros n : vadd (zeros n) (zeros n) = zeros n.
Proof.
  rewrite <- (length_replicate n 0%Qc) at 2. apply vadd_zeros_r.
Qed.

Lemma vscale_plus (x y : Qc) (w : row) :
  vscale (x + y)%Qc w = vadd (vscale x w) (vscale y w).
Proof.
  induction w as [|z w IH]; [reflexivity|].
  unfold vscale, vadd in *. simpl. rewrite IH. f_equal. ring.
Qed.

Lemma div_row_vadd (a b : row) (c : Qc) :
  div_row (vadd a b) c = vadd (div_row a c) (div_row b c).
Proof.
  revert b. induction a as [|x a IH]; intros [|y b]; try reflexivity.
  unfold div_row, vadd in *. simpl. rewrite IH. f_equal.
  unfold Qcdiv. ring.
Qed.

Lemma div_row_vscale (x c : Qc) (w : row) :
  div_row (vscale x w) c = vscale (x / c)%Qc w.
Proof.
  induction w as [|z w IH]; [reflexivity|].
  unfold div_row, vscale in *. simpl. rewrite IH. f_equal.
  unfold Qcdiv. ring.
Qed.

Lemma div_row_zeros n c : div_row (zeros n) c = zeros n.
Proof.
  induction n as [|n IH]; [reflexivity|].
  unfold div_row, zeros in *. simpl. rewrite IH. f_equal.
  unfold Qcdiv. ring.
Qed.

(** A transform without bias commutes with sums and with the division by a
    count: transforming a pooled mean gives the mean of the transforms. *)
Lemma vecmat_vadd u (a b : row) (w : list row) :
  length a = length b ->
  vecmat u (vadd a b) w = vadd (vecmat u a w) (vecmat u b w).
Proof.
  revert a b. induction w as [|wi w IH]; intros [|x a] [|y b] Hlen;
    try discriminate; simpl; try (symmetry; apply vadd_zeros_zeros).
  injection Hlen as Hlen. fold (vadd a b).
  rewrite (IH a b Hlen), vscale_plus. apply vadd_swap.
Qed.

Lemma vecmat_div_row u (a : row) (c : Qc) (w : list row) :
  vecmat u (div_row a c) w = div_row (vecmat u a w) c.
Proof.
  revert a. induction w as [|wi w IH]; intros [|x a]; simpl;
    try (symmetry; apply div_row_zeros).
  fold (div_row a c). rewrite IH, div_row_vadd, div_row_vscale. reflexivity.
Qed.

Lemma vecmat_zeros u n (w : list row) :
  Forall (fun wi => length wi = u) w ->
  vecmat u (zeros n) w = zeros u.
Proof.
  intros Hw. revert n. induction Hw as [|wi w Hwi Hw IH]; intros [|n]; try reflexivity.
  simpl. fold (zeros n). rewrite IH.
  assert (E : vscale 0%Qc wi = zeros u).
  { rewrite <- Hwi. clear. induction wi as [|z wi IHw]; [reflexivity|].
    unfold vscale, zeros in *. simpl. rewrite IHw. f_equal. ring. }
  rewrite E. apply vadd_zeros_zeros.
Qed.

(** ** The pipeline of the combiner and scenario A *)

Lemma Dropout_call_rate_0 env mask x training :
  Dropout_call env 0%Qc mask x training = x.
Proof.
  unfold Dropout_call.
  replace (Qc_eq_bool 0%Qc 0%Qc) with true by reflexivity.
  rewrite andb_false_r. reflexivity.
Qed.

Lemma reduce_rows_mean width l :
  reduce_rows "mean" width l =
  Ok (div_row (foldr vadd (zeros width) l) (of_nat (length l))).
Proof. reflexivity. Qed.

Lemma scenario_conv (env : Env) (training : option bool) (width : nat)
    (s0 s1 s2 : row) (w_self w_neigh : tensor) :
  wf w_neigh -> ncols w_neigh = 4 -> width = nrows w_neigh ->
  length s1 = width -> length s2 = width ->
  NodeSetUpdate.conv_call (NodeSetUpdate.Aggregator ScenarioA.aggregator)
    (NodeSetUpdate.conv_weights (ScenarioA.weights w_self w_neigh) "edges")
    env (ScenarioA.graph width s0 s1 s2) "edges" training =
  Ok (Tensor 4 [ScenarioA.mean2 (ScenarioA.transform w_neigh s1)
                  (ScenarioA.transform w_neigh s2);
                zeros 4; zeros 4]).
Proof.
  intros Hwf Hc Hw H1 H2.
  unfold NodeSetUpdate.conv_call, AnyToAnyConvolutionBase.call, getitem.
  cbn [ScenarioA.graph edge_sets node_sets ScenarioA.aggregator
       GraphSAGEAggregatorConv.base AnyToAnyConvolutionBase._receiver_tag
       AnyToAnyConvolutionBase._sender_node_feature reverse_tag].
  rewrite !lookup_singleton_eq.
  cbn [Py.bind adjacency node_set_name source_name].
  rewrite !lookup_singleton_eq. cbn [Py.bind features].
  rewrite !lookup_singleton_eq. cbn [Py.bind].
  unfold GraphSAGEAggregatorConv.convolve, broadcast_node_to_edges,
    pool_edges_to_node, getitem.
  cbn [ScenarioA.graph edge_sets node_sets].
  rewrite !lookup_singleton_eq.
  cbn [Py.bind adjacency indices source target node_set_name target_name
       rows mapM lookup list_lookup].
  cbn [GraphSAGEAggregatorConv._dropout_rate ScenarioA.aggregator
       GraphSAGEAggregatorConv._reduce_type].
  rewrite Dropout_call_rate_0. rewrite !lookup_singleton_eq.
  cbn [Py.bind nrows rows length edge_total_size adjacency source Nat.eqb negb
       total_size seq mapM ncols].
  rewrite !reduce_rows_mean.
  change (incident_rows [0; 0] [s1; s2] 0) with [s1; s2].
  change (incident_rows [0; 0] [s1; s2] 1) with (@nil row).
  change (incident_rows [0; 0] [s1; s2] 2) with (@nil row).
  cbn [Py.bind foldr length].
  unfold Dense_call, matmul.
  cbn [GraphSAGEAggregatorConv._transform_neighbor_fn dense_kernel dense_use_bias
       dense_activation ScenarioA.weights NodeSetUpdate.conv_weights
       GraphSAGEPoolingConv.neighbor_kernel ncols rows map].
  rewrite Hw, Nat.eqb_refl. cbn [Py.bind apply_activation].
  rewrite !vecmat_div_row, Hc.
  rewrite (vecmat_zeros 4) by (rewrite <- Hc; exact Hwf).
  rewrite div_row_zeros.
  rewrite <- Hw, <- H2 at 1. rewrite vadd_zeros_r.
  rewrite vecmat_vadd by congruence.
  unfold ScenarioA.mean2, ScenarioA.transform. rewrite Hc. reflexivity.
Qed.

Lemma sorted_items_singleton {V} (p : string * V) : sorted_items [p] = [p].
Proof. reflexivity. Qed.

Lemma scenario_update (env : Env) (training : option bool) (width : nat)
    (s0 s1 s2 : row) (w_self w_neigh : tensor) :
  wf w_neigh -> ncols w_neigh = 4 -> ncols w_self = 4 ->
  width = nrows w_neigh -> width = nrows w_self ->
  length s1 = width -> length s2 = width ->
  NodeSetUpdate.call ScenarioA.update (ScenarioA.weights w_self w_neigh) env
    (ScenarioA.graph width s0 s1 s2) "nodes" training =
  Ok [(HIDDEN_STATE,
       Tensor 4
         [vadd (ScenarioA.transform w_self s0)
            (ScenarioA.mean2 (ScenarioA.transform w_neigh s1)
               (ScenarioA.transform w_neigh s2));
          vadd (ScenarioA.transform w_self s1) (zeros 4);
          vadd (ScenarioA.transform w_self s2) (zeros 4)])].
Proof.
  intros Hwf Hc Hcs Hw Hws H1 H2.
  unfold NodeSetUpdate.call, getitem.
  cbn [ScenarioA.graph node_sets]. rewrite lookup_singleton_eq.
  cbn [Py.bind features ScenarioA.update NodeSetUpdate.init
       NodeSetUpdate._node_input_feature NodeSetUpdate._edge_set_inputs
       NodeSetUpdate._next_state].
  rewrite lookup_singleton_eq. cbn [Py.bind].
  rewrite map_to_list_singleton, sorted_items_singleton.
  cbn [mapM fst snd].
  fold (ScenarioA.graph width s0 s1 s2).
  rewrite (scenario_conv env training width s0 s1 s2 w_self w_neigh Hwf Hc Hw H1 H2).
  cbn [Py.bind].
  unfold GraphSAGENextState.call.
  cbn [ScenarioA.next_state GraphSAGENextState._dropout_rate
       GraphSAGENextState._combine_type GraphSAGENextState._use_bias
       GraphSAGENextState._activation GraphSAGENextState._l2_normalize
       GraphSAGENextState._feature_name].
  rewrite Dropout_call_rate_0, sorted_items_singleton.
  unfold Dense_call, matmul.
  cbn [GraphSAGENextState._self_transform dense_kernel dense_use_bias
       dense_activation ScenarioA.weights NodeSetUpdate.next_state_weights
       GraphSAGENextState.self_transform_kernel ncols rows map snd].
  rewrite Hws, Nat.eqb_refl. cbn [Py.bind apply_activation].
  unfold combine_values, add_n, same_shape, nrows.
  cbn [String.eqb Ascii.eqb Bool.eqb forallb rows ncols length Nat.eqb andb foldl].
  rewrite Hcs. cbn [Nat.eqb andb Py.bind add2 rows ncols zip_with].
  unfold ScenarioA.transform. rewrite Hcs. reflexivity.
Qed.

(** C1: with an empty context input, the combiner returns a single-entry
    feature bag keyed by [feature_name], whose tensor is: dropout of the old
    state, then the self-transform without bias, then the combination of
    the self-transformed state followed by the aggregator outputs in the
    order of their sorted edge set names, then the bias if [use_bias], then
    the activation, then the L2 normalization if [l2_normalize].  In
    scenario A, node 0 gets [self_transform(old_state_0) +
    mean(transform(state_1), transform(state_2))], and nodes 1 and 2 get
    [self_transform(old_state) + 0]. *)
Theorem next_state_pipeline_and_scenario_A
    (self : GraphSAGENextState.t) (w : GraphSAGENextState.Weights) (env : Env)
    (x : tensor) (m : list (string * tensor)) (training : option bool)
    (registry : string -> option (tensor -> tensor))
    (width : nat) (state_0 state_1 state_2 : row) (w_self w_neigh : tensor) :
  wf w_neigh -> ncols w_neigh = 4 -> ncols w_self = 4 ->
  width = nrows w_neigh -> width = nrows w_self ->
  length state_1 = width -> length state_2 = width ->
  GraphSAGENextState.call self w env (x, m, []) training =
    (self_transformed <-
       matmul (Dropout_call env (GraphSAGENextState._dropout_rate self) 0 x training)
         (GraphSAGENextState.self_transform_kernel w) ;;
     combined <-
       combine_values (self_transformed :: map snd (sorted_items m))
         (GraphSAGENextState._combine_type self) ;;
     biased <-
       (if GraphSAGENextState._use_bias self
        then match GraphSAGENextState._bias_term w with
             | Some b => bias_add combined b
             | None => Raise (AttributeError "_bias_term")
             end
        else Ok combined) ;;
     let activated := apply_activation (GraphSAGENextState._activation self) biased in
     Ok [(GraphSAGENextState._feature_name self,
          if GraphSAGENextState._l2_normalize self
          then Keras.l2_normalize env activated else activated)]) /\
  GraphSAGEAggregatorConv.init ScenarioA.aggregator_args = Ok ScenarioA.aggregator /\
  GraphSAGENextState.init registry "graph_sage_next_state" ScenarioA.next_state_args =
    Ok ScenarioA.next_state /\
  NodeSetUpdate.call ScenarioA.update (ScenarioA.weights w_self w_neigh) env
    (ScenarioA.graph width state_0 state_1 state_2) "nodes" training =
    Ok [(HIDDEN_STATE,
         Tensor 4
           [vadd (ScenarioA.transform w_self state_0)
              (ScenarioA.mean2 (ScenarioA.transform w_neigh state_1)
                 (ScenarioA.transform w_neigh state_2));
            vadd (ScenarioA.transform w_self state_1) (zeros 4);
            vadd (ScenarioA.transform w_self state_2) (zeros 4)])].
Proof.
  intros Hwf Hc Hcs Hw Hws H1 H2. split; [|split; [|split]].
  - unfold GraphSAGENextState.call, Dense_call. simpl.
    destruct (matmul _ _); reflexivity.
  - reflexivity.
  - reflexivity.
  - apply scenario_update; assumption.
Qed.

(** ** Evaluation on concrete inputs *)

Lemma zip_eqb_eq {A} (eqb : A -> A -> bool) (a b : list A) :
  (forall x y, eqb x y = true -> x = y) ->
  length a = length b ->
  forallb (fun p => eqb (fst p) (snd p)) (zip a b) = true -> a = b.
Proof.
  intros Heq. revert b. induction a as [|x a IH]; intros [|y b] Hlen H;
    try discriminate; [reflexivity|].
  simpl in H. apply andb_prop in H as [Hxy H]. injection Hlen as Hlen.
  f_equal; [apply Heq; exact Hxy | apply IH; assumption].
Qed.

Lemma row_eqb_eq (a b : row) : row_eqb a b = true -> a = b.
Proof.
  unfold row_eqb. intros H. apply andb_prop in H as [Hlen H].
  apply Nat.eqb_eq in Hlen.
  exact (zip_eqb_eq Qc_eq_bool a b Qc_eq_bool_correct Hlen H).
Qed.

Lemma tensor_eqb_eq (a b : tensor) : tensor_eqb a b = true -> a = b.
Proof.
  destruct a as [ca ra], b as [cb rb]. unfold tensor_eqb, nrows. simpl.
  intros H. apply andb_prop in H as [H Hrows]. apply andb_prop in H as [Hc Hn].
  apply Nat.eqb_eq in Hc, Hn. f_equal; [exact Hc|].
  exact (zip_eqb_eq row_eqb ra rb row_eqb_eq Hn Hrows).
Qed.

Lemma bag_eqb_eq (a b : list (string * tensor)) : bag_eqb a b = true -> a = b.
Proof.
  unfold bag_eqb. intros H. apply andb_prop in H as [Hlen H].
  apply Nat.eqb_eq in Hlen.
  apply (zip_eqb_eq (fun x y => String.eqb (fst x) (fst y) && tensor_eqb (snd x) (snd y))
           a b); [|exact Hlen|exact H].
  intros [k1 t1] [k2 t2] Hxy. simpl in Hxy. apply andb_prop in Hxy as [Hk Ht].
  apply String.eqb_eq in Hk. apply tensor_eqb_eq in Ht. congruence.
Qed.

(** A call whose result, evaluated, is the bag [expected]. *)
Lemma result_bag_eq (r : result (list (string * tensor))) (expected : list (string * tensor)) :
  match r with Ok b => bag_eqb b expected | Raise _ => false end = true ->
  r = Ok expected.
Proof.
  destruct r as [b|e]; [|discriminate]. intros H. f_equal. apply bag_eqb_eq. exact H.
Qed.

(** C3, where it fails, next to where it holds.  On a receiver node set of
    a single node the in-degree tensor of shape [[1, 1]] is squeezed to a
    scalar, and the mean of the GCN update ends in an error of the in-degree
    arithmetic, with and without self loop, where the claimed result is the
    zero vector (no incoming edge) or the node's own transformed state (self
    loop).  On three nodes the mean is the sum over the in-degree, and zero
    at in-degree zero. *)
Theorem gcn_mean_fails_on_single_node (ambient : bool) (training : option bool) :
  GCNGraphSAGENodeSetUpdate.init (fun _ => None) (Sample.gcn_args "mean" 0%Qc false) =
    Ok (Sample.gcn "mean" 0%Qc false) /\
  GCNGraphSAGENodeSetUpdate.call (Sample.gcn "mean" 0%Qc false) Sample.gcn_weights
    (Sample.env ambient) Sample.graph1 "nodes" training =
    Raise (InvalidArgumentError
             "Index out of range using input dim 0; input has only 0 dims") /\
  GCNGraphSAGENodeSetUpdate.call (Sample.gcn "mean" 0%Qc true) Sample.gcn_weights
    (Sample.env ambient) Sample.graph1 "nodes" training =
    Raise (InvalidArgumentError
             "Inputs to operation AddN must have the same size and shape") /\
  GCNGraphSAGENodeSetUpdate.call (Sample.gcn "mean" 0%Qc false) Sample.gcn_weights
    (Sample.env ambient) Sample.graph3 "nodes" training =
    Ok [(HIDDEN_STATE,
         Tensor 2 [[Sample.q 4; Sample.q 5]; [Sample.q 0; Sample.q 0];
                   [Sample.q 0; Sample.q 0]])] /\
  GCNGraphSAGENodeSetUpdate.call (Sample.gcn "mean" 0%Qc true) Sample.gcn_weights
    (Sample.env ambient) Sample.graph3 "nodes" training =
    Ok [(HIDDEN_STATE,
         Tensor 2 [[Sample.q 3; Sample.q 4]; [Sample.q 3; Sample.q 4];
                   [Sample.q 5; Sample.q 6]])].
Proof.
  repeat split; try (destruct ambient; vm_compute; reflexivity);
    apply result_bag_eq; destruct ambient; vm_compute; reflexivity.
Qed.

(** ** The training flag and dropout *)



(** ** The in-degree arithmetic on a node set of one node *)

Lemma mapM_length {A B} (f : A -> result B) l l' :
  mapM f l = Ok l' -> length l' = length l.
Proof.
  revert l'. induction l as [|a l IH]; intros l'; simpl.
  - intros [= <-]. reflexivity.
  - intros H. apply bind_Ok in H as (b & _ & H).
    apply bind_Ok in H as (bs & Hbs & [= <-]). simpl. f_equal. apply IH. exact Hbs.
Qed.

Lemma getitem_Ok {V} (d : gmap string V) key v :
  getitem d key = Ok v -> d !! key = Some v.
Proof. unfold getitem. destruct (d !! key); congruence. Qed.

(** The pooled tensor has one row per node of the receiver node set. *)
Lemma pool_edges_to_node_shape graph edge_set_name tag reduce_type fv t :
  pool_edges_to_node graph edge_set_name tag reduce_type fv = Ok t ->
  exists es ns,
    edge_sets graph !! edge_set_name = Some es /\
    node_sets graph !! node_set_name (adjacency es) tag = Some ns /\
    nrows t = total_size ns /\ ncols t = ncols fv.
Proof.
  unfold pool_edges_to_node. intros H.
  apply bind_Ok in H as (es & Hes & H). apply bind_Ok in H as (ns & Hns & H).
  destruct (negb _); [discriminate|].
  apply bind_Ok in H as (rs & Hrs & [= <-]).
  exists es, ns. repeat split; auto using getitem_Ok.
  unfold nrows. simpl. rewrite (mapM_length _ _ _ Hrs). apply length_seq.
Qed.

Lemma squeeze_single tn : nrows tn = 1 -> ncols tn = 1 -> is_scalar (squeeze tn).
Proof. intros Hn Hc. unfold squeeze. rewrite Hn, Hc. exact I. Qed.

(** Under [mean], every edge set of the loop adds a scalar in-degree. *)
Lemma edge_set_loop_scalars (self : GCNGraphSAGENodeSetUpdate.t)
    (w : GCNGraphSAGENodeSetUpdate.Weights) (env : Env) (graph : GraphTensor)
    (ns : string) (node_set : NodeSet) :
  GCNGraphSAGENodeSetUpdate._reduce_type self = "mean" ->
  node_sets graph !! ns = Some node_set -> total_size node_set = 1 ->
  forall names mask degs pooled degs' pooled',
    GCNGraphSAGENodeSetUpdate.edge_set_loop self w env graph ns names mask degs pooled =
      Ok (degs', pooled') ->
    exists ds, degs' = degs ++ ds /\ length ds = length names /\ Forall is_scalar ds.
Proof.
  intros Hmean Hns Hone. induction names as [|e names IH];
    intros mask degs pooled degs' pooled'; simpl.
  - intros [= <- <-]. exists []. rewrite app_nil_r. auto.
  - intros H. apply bind_Ok in H as (es & Hes & H).
    destruct (negb _) eqn:Hrecv; [discriminate|].
    apply negb_false_iff, String.eqb_eq in Hrecv.
    apply bind_Ok in H as (sns & _ & H). apply bind_Ok in H as (sv & _ & H).
    apply bind_Ok in H as (sv' & _ & H). apply bind_Ok in H as (bv & _ & H).
    apply bind_Ok in H as (pv & _ & H). apply bind_Ok in H as (degs1 & Hdegs & H).
    rewrite Hmean in Hdegs. simpl in Hdegs.
    apply bind_Ok in Hdegs as (po & Hpo & [= <-]).
    apply pool_edges_to_node_shape in Hpo as (es' & ns' & Hes' & Hns' & Hrows & Hcols).
    apply getitem_Ok in Hes. rewrite Hes in Hes'. injection Hes' as <-.
    rewrite <- Hrecv, Hns in Hns'. injection Hns' as <-.
    destruct (IH _ _ _ _ _ H) as (ds & -> & Hlen & Hds).
    exists (squeeze po :: ds). rewrite <- app_assoc. simpl.
    repeat split; [congruence|]. constructor; [|exact Hds].
    apply squeeze_single; [congruence | exact Hcols].
Qed.

Lemma foldl_any_add2_scalar ds : forall a,
  is_scalar a -> Forall is_scalar ds -> is_scalar (foldl any_add2 a ds).
Proof.
  induction ds as [|d ds IH]; intros a Ha Hds; simpl; [exact Ha|].
  apply Forall_cons in Hds as [Hd Hds]. apply IH; [|exact Hds].
  destruct a, d; try contradiction. exact I.
Qed.

(** With [reduce_type="mean"] and at least one edge set, the call on a
    receiver node set of exactly one node never returns. *)
Lemma gcn_mean_single_node_raises (self : GCNGraphSAGENodeSetUpdate.t)
    (w : GCNGraphSAGENodeSetUpdate.Weights) (env : Env) (graph : GraphTensor)
    (ns : string) (node_set : NodeSet) (training : option bool) :
  GCNGraphSAGENodeSetUpdate._reduce_type self = "mean" ->
  GCNGraphSAGENodeSetUpdate._edge_set_names self <> [] ->
  node_sets graph !! ns = Some node_set -> total_size node_set = 1 ->
  is_ok (GCNGraphSAGENodeSetUpdate.call self w env graph ns training) = false.
Proof.
  intros Hmean Hnames Hns Hone.
  destruct (GCNGraphSAGENodeSetUpdate.call self w env graph ns training)
    as [out|e] eqn:Hcall; [exfalso|reflexivity].
  unfold GCNGraphSAGENodeSetUpdate.call in Hcall.
  rewrite Hmean in Hcall. simpl in Hcall.
  apply bind_Ok in Hcall as ([degs pooled] & Hloop & Hcall).
  destruct (edge_set_loop_scalars self w env graph ns node_set Hmean Hns Hone
              _ _ _ _ _ _ Hloop) as (ds & Hdegs & Hlen & Hds).
  simpl in Hdegs. subst degs.
  destruct ds as [|d ds];
    [destruct (GCNGraphSAGENodeSetUpdate._edge_set_names self);
       [contradiction | discriminate]|].
  apply Forall_cons in Hds as [Hd Hds].
  apply bind_Ok in Hcall as (node_set' & _ & Hcall).
  apply bind_Ok in Hcall as ([degs2 pooled2] & Hself & Hcall).
  apply bind_Ok in Hcall as (summed & _ & Hcall).
  apply bind_Ok in Hcall as (res & Hdiv & _).
  apply bind_Ok in Hdiv as (total & Htotal & Hdiv).
  apply bind_Ok in Hdiv as (column & Hcolumn & _).
  destruct (GCNGraphSAGENodeSetUpdate._add_self_loop self).
  - apply bind_Ok in Hself as (sv & _ & Hself).
    apply bind_Ok in Hself as (sv' & _ & [= <- _]).
    simpl in Htotal.
    replace (forallb (any_same_shape d) (ds ++ [T1 (ones (total_size node_set'))]))
      with false in Htotal; [discriminate|].
    symmetry. rewrite forallb_app. simpl.
    destruct d; try contradiction. simpl. apply andb_false_r.
  - injection Hself as <- _. simpl in Htotal.
    destruct (forallb _ ds); [|discriminate]. injection Htotal as <-.
    pose proof (foldl_any_add2_scalar ds d Hd Hds) as Hs.
    destruct (foldl any_add2 d ds); try contradiction. discriminate.
Qed.

(** ** The theorems at concrete inputs *)

Lemma next_state_call_order_invariant_witness :
  NoDup (map fst Sample.edge_inputs) /\
  Sample.edge_inputs ≡ₚ Sample.edge_inputs_other_order /\
  GraphSAGENextState.call (Sample.next_state "sum") (Sample.next_state_weights 4)
    (Sample.env false) (Sample.old_state, Sample.edge_inputs, []) (Some false) =
  GraphSAGENextState.call (Sample.next_state "sum") (Sample.next_state_weights 4)
    (Sample.env false) (Sample.old_state, Sample.edge_inputs_other_order, [])
    (Some false).
Proof.
  assert (H1 : NoDup (map fst Sample.edge_inputs)).
  { simpl. apply NoDup_cons. split.
    - intros H. apply list_elem_of_singleton in H. discriminate.
    - apply NoDup_singleton. }
  assert (H2 : Sample.edge_inputs ≡ₚ Sample.edge_inputs_other_order)
    by apply perm_swap.
  split; [exact H1|]. split; [exact H2|].
  exact (next_state_call_order_invariant (Sample.next_state "sum")
           (Sample.next_state_weights 4) (Sample.env false) Sample.old_state
           Sample.edge_inputs Sample.edge_inputs_other_order [] (Some false) H1 H2).
Defined.

Lemma next_state_bias_built_once_witness :
  GraphSAGENextState._use_bias (Sample.next_state "concat") = true /\
  GraphSAGENextState.build (Sample.next_state "concat")
    (GraphSAGENextState.input_shapes_of (Sample.old_state, Sample.edge_inputs, [])) =
    Ok (Some (zeros 12)).
Proof.
  split; [reflexivity|].
  destruct (next_state_bias_built_once (Sample.next_state "concat") (Sample.env false)
              Sample.unbuilt (Sample.old_state, Sample.edge_inputs, []) (Some false)
              (shape_of Sample.old_state)
              [("writes", shape_of Sample.from_writes); ("cites", shape_of Sample.from_cites)]
              [] eq_refl) as (_ & Hconcat & _).
  apply Hconcat; [reflexivity|].
  intros k s Hin. apply elem_of_cons in Hin as [Hin | Hin].
  - injection Hin as -> ->. split; [reflexivity | discriminate].
  - apply list_elem_of_singleton in Hin. injection Hin as -> ->.
    split; [reflexivity | discriminate].
Defined.

Lemma residual_next_state_errors_witness :
  ResidualNextState.call Sample.residual_misfit
    (Field Sample.old_state, Nest (Fields []), Nest (Fields [])) =
    Raise ResidualNextState.shape_error /\
  ResidualNextState.call Sample.residual_fitting
    (Field Sample.old_state, Nest (Fields []), Nest (Fields [])) =
    Ok (add2 Sample.old_state Sample.old_state) /\
  ResidualNextState.call Sample.residual_fitting
    (Fields [("other", Sample.old_state)], Nest (Fields []), Nest (Fields [])) =
    Raise (ResidualNextState.skip_key_error DEFAULT_STATE_NAME).
Proof.
  split; [|split].
  - destruct (residual_next_state_errors (fun _ => None) Sample.residual_misfit
                (Field Sample.old_state) (Nest (Fields [])) (Nest (Fields []))
                Sample.old_state Sample.old_state (Tensor 1 [[Sample.q 1]; [Sample.q 2]; [Sample.q 3]]))
      as [_ H].
    destruct (H (or_introl eq_refl) eq_refl eq_refl) as [Hbad _].
    apply Hbad. discriminate.
  - destruct (residual_next_state_errors (fun _ => None) Sample.residual_fitting
                (Field Sample.old_state) (Nest (Fields [])) (Nest (Fields []))
                Sample.old_state Sample.old_state Sample.old_state)
      as [_ H].
    destruct (H (or_introl eq_refl) eq_refl eq_refl) as [_ Hgood].
    apply Hgood. reflexivity.
  - destruct (residual_next_state_errors (fun _ => None) Sample.residual_fitting
                (Fields [("other", Sample.old_state)]) (Nest (Fields []))
                (Nest (Fields [])) Sample.old_state Sample.old_state Sample.old_state)
      as [H _].
    apply (H [("other", Sample.old_state)]); reflexivity.
Defined.

Lemma get_config_round_trip_witness :
  GraphSAGEAggregatorConv.init ScenarioA.aggregator_args = Ok ScenarioA.aggregator /\
  GraphSAGEPoolingConv.init (fun _ => None) Sample.pooling_args = Ok Sample.pooling /\
  GCNGraphSAGENodeSetUpdate.init (fun _ => None) (Sample.gcn_args "mean" 0%Qc true) =
    Ok (Sample.gcn "mean" 0%Qc true) /\
  GraphSAGENextState.init (fun _ => None) "graph_sage_next_state"
    (Sample.next_state_args "sum") = Ok (Sample.next_state "sum") /\
  (exists config,
     GraphSAGEAggregatorConv.get_config ScenarioA.aggregator = Ok config /\
     GraphSAGEAggregatorConv.from_config config = Ok ScenarioA.aggregator) /\
  (exists config,
     GraphSAGEPoolingConv.get_config Sample.pooling = Ok config /\
     GraphSAGEPoolingConv.from_config (fun _ => None) config = Ok Sample.pooling) /\
  GCNGraphSAGENodeSetUpdate.from_config (fun _ => None)
    (GCNGraphSAGENodeSetUpdate.get_config (Sample.gcn "mean" 0%Qc true)) =
    Ok (Sample.gcn "mean" 0%Qc true) /\
  GraphSAGENextState.from_config (fun _ => None) "any_name"
    (GraphSAGENextState.get_config (Sample.next_state "sum")) =
    Ok (Sample.next_state "sum").
Proof.
  assert (H1 : GraphSAGEAggregatorConv.init ScenarioA.aggregator_args =
               Ok ScenarioA.aggregator) by reflexivity.
  assert (H2 : GraphSAGEPoolingConv.init (fun _ => None) Sample.pooling_args =
               Ok Sample.pooling) by reflexivity.
  assert (H3 : GCNGraphSAGENodeSetUpdate.init (fun _ => None)
                 (Sample.gcn_args "mean" 0%Qc true) =
               Ok (Sample.gcn "mean" 0%Qc true)) by reflexivity.
  assert (H4 : GraphSAGENextState.init (fun _ => None) "graph_sage_next_state"
                 (Sample.next_state_args "sum") = Ok (Sample.next_state "sum"))
    by reflexivity.
  destruct (get_config_round_trip (fun _ => None) "graph_sage_next_state"
              _ _ _ _ _ _ _ _ H1 H2 H3 H4)
    as ((c1 & G1 & F1 & _) & (c2 & G2 & F2 & _) & (F3 & _) & (F4 & _)).
  repeat (split; [assumption|]).
  split; [exists c1; split; assumption|].
  split; [exists c2; split; assumption|].
  split; [exact F3 | exact (F4 "any_name")].
Defined.

Lemma graph_update_skips_node_sets_without_edge_sets_witness :
  "author" ∈ GraphSAGEGraphUpdate.node_set_names Sample.graph_update_args /\
  GraphSAGEGraphUpdate.GraphUpdateCallback (fun _ => None) "graph_sage_next_state"
    Sample.graph_update_args Sample.spec =
    Ok (Sample.updates_of
          (GraphSAGEGraphUpdate.GraphUpdateCallback (fun _ => None)
             "graph_sage_next_state" Sample.graph_update_args Sample.spec)) /\
  Sample.updates_of
    (GraphSAGEGraphUpdate.GraphUpdateCallback (fun _ => None)
       "graph_sage_next_state" Sample.graph_update_args Sample.spec) !! "author" = None /\
  is_Some (Sample.updates_of
             (GraphSAGEGraphUpdate.GraphUpdateCallback (fun _ => None)
                "graph_sage_next_state" Sample.graph_update_args Sample.spec) !! "paper").
Proof.
  assert (Hin : "author" ∈ GraphSAGEGraphUpdate.node_set_names Sample.graph_update_args).
  { simpl. apply elem_of_union. right. apply elem_of_singleton. reflexivity. }
  assert (Hnone : forall item,
             item ∈ GraphSAGEGraphUpdate.edge_sets_spec Sample.spec ->
             receiver_of Sample.graph_update_args item <> "author").
  { intros item Hitem. simpl in Hitem.
    apply elem_of_cons in Hitem as [-> | Hitem]; [discriminate|].
    apply list_elem_of_singleton in Hitem as ->. discriminate. }
  assert (Hcb : GraphSAGEGraphUpdate.GraphUpdateCallback (fun _ => None)
                  "graph_sage_next_state" Sample.graph_update_args Sample.spec =
                Ok (Sample.updates_of
                      (GraphSAGEGraphUpdate.GraphUpdateCallback (fun _ => None)
                         "graph_sage_next_state" Sample.graph_update_args Sample.spec)))
    by (vm_compute; reflexivity).
  destruct (graph_update_skips_node_sets_without_edge_sets (fun _ => None)
              "graph_sage_next_state" Sample.graph_update_args Sample.spec "author"
              _ Hin Hnone Hcb) as (Hdom & Hauthor & _).
  split; [exact Hin|]. split; [exact Hcb|]. split; [exact Hauthor|].
  apply Hdom. split.
  - simpl. apply elem_of_union. left. apply elem_of_singleton. reflexivity.
  - exists ("cites", {| GraphSAGEGraphUpdate.spec_source_name := "paper";
                        GraphSAGEGraphUpdate.spec_target_name := "paper" |}).
    split; [left | reflexivity].
Defined.


Lemma next_state_pipeline_and_scenario_A_witness :
  wf Sample.kernel_2_4 /\
  NodeSetUpdate.call ScenarioA.update
    (ScenarioA.weights Sample.kernel_2_4 Sample.kernel_2_4) (Sample.env true)
    (ScenarioA.graph 2 [Sample.q 1; Sample.q 2] [Sample.q 3; Sample.q 4]
       [Sample.q 5; Sample.q 6]) "nodes" None =
    Ok [(HIDDEN_STATE,
         Tensor 4
           [vadd (ScenarioA.transform Sample.kernel_2_4 [Sample.q 1; Sample.q 2])
              (ScenarioA.mean2
                 (ScenarioA.transform Sample.kernel_2_4 [Sample.q 3; Sample.q 4])
                 (ScenarioA.transform Sample.kernel_2_4 [Sample.q 5; Sample.q 6]));
            vadd (ScenarioA.transform Sample.kernel_2_4 [Sample.q 3; Sample.q 4]) (zeros 4);
            vadd (ScenarioA.transform Sample.kernel_2_4 [Sample.q 5; Sample.q 6]) (zeros 4)])].
Proof.
  assert (Hwf : wf Sample.kernel_2_4) by (repeat constructor).
  split; [exact Hwf|].
  destruct (next_state_pipeline_and_scenario_A (Sample.next_state "sum")
              (Sample.next_state_weights 4) (Sample.env true) Sample.old_state
              Sample.edge_inputs None (fun _ => None) 2
              [Sample.q 1; Sample.q 2] [Sample.q 3; Sample.q 4] [Sample.q 5; Sample.q 6]
              Sample.kernel_2_4 Sample.kernel_2_4
              Hwf eq_refl eq_refl eq_refl eq_refl eq_refl eq_refl)
    as (_ & _ & _ & H).
  exact H.
Defined.

(** * Further properties of the GCN update *)

Lemma edge_set_loop_pooled (self : GCNGraphSAGENodeSetUpdate.t)
    (w : GCNGraphSAGENodeSetUpdate.Weights) (env : Env) (graph : GraphTensor)
    (ns : string) :
  forall names mask degs pooled degs' pooled',
    GCNGraphSAGENodeSetUpdate.edge_set_loop self w env graph ns names mask degs pooled =
      Ok (degs', pooled') ->
    exists ps, pooled' = pooled ++ ps /\ Forall2 (pooled_from self graph ns) names ps.
Proof.
  induction names as [|e names IH]; intros mask degs pooled degs' pooled'; simpl.
  - intros [= <- <-]. exists []. rewrite app_nil_r. split; [reflexivity | constructor].
  - intros H. apply bind_Ok in H as (es & Hes & H).
    destruct (negb _) eqn:Hrecv; [discriminate|].
    apply negb_false_iff, String.eqb_eq in Hrecv.
    apply bind_Ok in H as (sns & Hsns & H). apply bind_Ok in H as (sv & Hsv & H).
    apply bind_Ok in H as (sv' & _ & H). apply bind_Ok in H as (bv & _ & H).
    apply bind_Ok in H as (pv & Hpv & H). apply bind_Ok in H as (degs1 & _ & H).
    destruct (IH _ _ _ _ _ H) as (ps & -> & Hps).
    exists (pv :: ps). rewrite <- app_assoc. split; [reflexivity|].
    constructor; [|exact Hps].
    exists es, sns, sv, bv. repeat split; auto using getitem_Ok.
Qed.

(** X1: a call of the GCN update that returns has found, in the graph, the
    node set it updates and every configured edge set, each ending in that
    node set at the receiver tag, with the sender feature on the node set at
    its other end. *)
Theorem gcn_call_ok_graph_fits (self : GCNGraphSAGENodeSetUpdate.t)
    (w : GCNGraphSAGENodeSetUpdate.Weights) (env : Env) (graph : GraphTensor)
    (node_set_name : string) (training : option bool)
    (out : list (string * tensor)) :
  GCNGraphSAGENodeSetUpdate.call self w env graph node_set_name training = Ok out ->
  is_Some (node_sets graph !! node_set_name) /\
  (GCNGraphSAGENodeSetUpdate._reduce_type self = "sum" \/
   GCNGraphSAGENodeSetUpdate._reduce_type self = "mean") /\
  forall edge_set_name,
    edge_set_name ∈ GCNGraphSAGENodeSetUpdate._edge_set_names self ->
    exists edge_set sender_node_set,
      edge_sets graph !! edge_set_name = Some edge_set /\
      TFGNN.node_set_name (adjacency edge_set)
        (GCNGraphSAGENodeSetUpdate._receiver_tag self) = node_set_name /\
      node_sets graph !!
        TFGNN.node_set_name (adjacency edge_set)
          (reverse_tag (GCNGraphSAGENodeSetUpdate._receiver_tag self)) =
        Some sender_node_set /\
      is_Some (features sender_node_set !!
                 GCNGraphSAGENodeSetUpdate._sender_node_feature self).
Proof.
  unfold GCNGraphSAGENodeSetUpdate.call. intros H.
  destruct (negb _) eqn:Hrt; [discriminate|].
  apply negb_false_iff, orb_prop in Hrt.
  apply bind_Ok in H as ([degs pooled] & Hloop & H).
  apply bind_Ok in H as (node_set & Hns & _).
  split; [exists node_set; exact (getitem_Ok _ _ _ Hns)|].
  split; [destruct Hrt as [E|E]; apply String.eqb_eq in E; auto|].
  destruct (edge_set_loop_pooled self w env graph node_set_name _ _ _ _ _ _ Hloop)
    as (ps & _ & Hps).
  intros e He. apply list_elem_of_lookup in He as (k & Hk).
  destruct (Forall2_lookup_l _ _ _ _ _ Hps Hk) as (p & _ & es & sns & sv & bv & H1 & H2 & H3 & H4 & _).
  exists es, sns. eauto.
Qed.

Lemma mapM_Ok {A B} (f : A -> B) (l : list A) :
  mapM (fun a => Ok (f a)) l = Ok (map f l).
Proof. induction l as [|a l IH]; simpl; [reflexivity|]. rewrite IH. reflexivity. Qed.

Lemma incident_rows_nil (idx : list nat) (vals : list row) (i : nat) :
  i ∉ idx -> incident_rows idx vals i = [].
Proof.
  unfold incident_rows. revert vals.
  induction idx as [|j idx IH]; intros [|v vals] Hi; try reflexivity.
  apply not_elem_of_cons in Hi as [Hne Hi]. simpl.
  destruct (Nat.eqb_spec j i) as [E|_]; [congruence|]. apply IH. exact Hi.
Qed.

(** Sum-pooling gives every receiver node the sum of the values on its
    incoming edges. *)
Lemma pool_sum_rows graph edge_set_name tag fv t es ns :
  pool_edges_to_node graph edge_set_name tag "sum" fv = Ok t ->
  edge_sets graph !! edge_set_name = Some es ->
  node_sets graph !! node_set_name (adjacency es) tag = Some ns ->
  ncols t = ncols fv /\
  rows t = map (fun i => foldr vadd (zeros (ncols fv))
                           (incident_rows (indices (adjacency es) tag) (rows fv) i))
             (seq 0 (total_size ns)).
Proof.
  unfold pool_edges_to_node, getitem. intros H Hes Hns.
  rewrite Hes in H. cbn [Py.bind] in H. rewrite Hns in H. cbn [Py.bind] in H.
  destruct (negb _); [discriminate|].
  change (fun i : nat => reduce_rows "sum" (ncols fv)
            (incident_rows (indices (adjacency es) tag) (rows fv) i))
    with (fun i : nat => @Ok row (foldr vadd (zeros (ncols fv))
            (incident_rows (indices (adjacency es) tag) (rows fv) i))) in H.
  rewrite mapM_Ok in H. injection H as <-. split; reflexivity.
Qed.

Lemma foldl_add2_row_zeros (c i : nat) (l : list tensor) : forall t,
  rows t !! i = Some (zeros c) ->
  Forall (fun u => rows u !! i = Some (zeros c)) l ->
  rows (foldl add2 t l) !! i = Some (zeros c).
Proof.
  induction l as [|u l IH]; intros t Ht Hl; simpl; [exact Ht|].
  apply Forall_cons in Hl as [Hu Hl]. apply IH; [|exact Hl].
  unfold add2. cbn [rows]. rewrite lookup_zip_with, Ht. simpl. rewrite Hu. simpl.
  rewrite vadd_zeros_zeros. reflexivity.
Qed.

Lemma forallb_same_shape_ext (a b : tensor) (l : list tensor) :
  nrows a = nrows b -> ncols a = ncols b ->
  forallb (same_shape a) l = forallb (same_shape b) l.
Proof.
  intros Hn Hc. induction l as [|v l IH]; simpl; [reflexivity|].
  rewrite IH. unfold same_shape. rewrite Hn, Hc. reflexivity.
Qed.

Lemma foldl_add2_same_shape (l : list tensor) : forall t,
  forallb (same_shape t) l = true ->
  nrows (foldl add2 t l) = nrows t /\ ncols (foldl add2 t l) = ncols t.
Proof.
  induction l as [|u l IH]; intros t H; simpl; [split; reflexivity|].
  simpl in H. apply andb_prop in H as [Hu Hl].
  unfold same_shape in Hu. apply andb_prop in Hu as [Hn Hc].
  apply Nat.eqb_eq in Hn, Hc.
  assert (Hn' : nrows (add2 t u) = nrows t).
  { unfold nrows, add2 in *. cbn [rows]. rewrite length_zip_with. lia. }
  destruct (IH (add2 t u)) as [E1 E2].
  - rewrite (forallb_same_shape_ext (add2 t u) t l Hn' eq_refl). exact Hl.
  - split; [congruence | exact E2].
Qed.

(** X2: in sum mode without self loop, the summed node values have one row
    per node of the updated node set, and the row of a node that receives no
    edge of the configured edge sets is the zero vector (so its new state is
    the activation of the bias, or of zero). *)
Theorem gcn_sum_isolated_nodes (self : GCNGraphSAGENodeSetUpdate.t)
    (w : GCNGraphSAGENodeSetUpdate.Weights) (env : Env) (graph : GraphTensor)
    (node_set_name : string) (training : option bool)
    (out : list (string * tensor)) :
  GCNGraphSAGENodeSetUpdate._reduce_type self = "sum" ->
  GCNGraphSAGENodeSetUpdate._add_self_loop self = false ->
  GCNGraphSAGENodeSetUpdate.call self w env graph node_set_name training = Ok out ->
  exists node_set summed,
    node_sets graph !! node_set_name = Some node_set /\
    nrows summed = total_size node_set /\
    (forall i, i < total_size node_set -> isolated self graph i ->
               rows summed !! i = Some (zeros (ncols summed))) /\
    (result <-
       (if GCNGraphSAGENodeSetUpdate._use_bias self
        then bias_add summed (GCNGraphSAGENodeSetUpdate.bias_term w)
        else Ok summed) ;;
     Ok [(GCNGraphSAGENodeSetUpdate._self_node_feature self,
          apply_activation (GCNGraphSAGENodeSetUpdate._activation self) result)]) =
    Ok out.
Proof.
  intros Hsum Hloopless. unfold GCNGraphSAGENodeSetUpdate.call.
  rewrite Hsum, Hloopless. cbn [String.eqb Ascii.eqb Bool.eqb orb negb andb].
  intros H.
  apply bind_Ok in H as ([degs pooled] & Hloop & H).
  apply bind_Ok in H as (node_set & Hns & H). apply getitem_Ok in Hns.
  cbn [Py.bind] in H.
  apply bind_Ok in H as (summed & Hadd & H). cbn [Py.bind] in H.
  destruct (edge_set_loop_pooled self w env graph node_set_name _ _ _ _ _ _ Hloop)
    as (ps & Hps & Hfrom).
  simpl in Hps. subst pooled.
  assert (Hshape : forall e p, e ∈ GCNGraphSAGENodeSetUpdate._edge_set_names self ->
            pooled_from self graph node_set_name e p ->
            nrows p = total_size node_set /\
            forall i, i < total_size node_set -> isolated self graph i ->
                      rows p !! i = Some (zeros (ncols p))).
  { intros e p He (es & sns & sv & bv & Hes & Hrecv & _ & _ & Hpool).
    rewrite <- Hrecv in Hns.
    destruct (pool_sum_rows _ _ _ _ _ _ _ Hpool Hes Hns) as [Hc Hr].
    split.
    - unfold nrows. rewrite Hr, length_map. apply length_seq.
    - intros i Hi Hiso. rewrite Hr, Hc.
      change (map ?f ?l) with (f <$> l). rewrite list_lookup_fmap, lookup_seq_lt by exact Hi.
      simpl. rewrite incident_rows_nil by exact (Hiso e es He Hes). reflexivity. }
  exists node_set, summed. split; [exact Hns|].
  unfold add_n in Hadd. destruct ps as [|p ps]; [discriminate|].
  destruct (forallb (same_shape p) ps) eqn:Hsame; [|discriminate].
  injection Hadd as <-.
  destruct (GCNGraphSAGENodeSetUpdate._edge_set_names self) as [|e names] eqn:Hnames;
    [inv Hfrom|].
  apply Forall2_cons in Hfrom as [Hp Hfrom].
  destruct (foldl_add2_same_shape ps p Hsame) as [En Ec].
  destruct (Hshape e p (list_elem_of_here _ _) Hp) as [Hpn Hpz].
  split; [congruence|]. split; [|exact H].
  intros i Hi Hiso. rewrite Ec. apply foldl_add2_row_zeros; [auto|].
  apply Forall_forall. intros u Hu.
  apply list_elem_of_lookup in Hu as (k & Hk).
  destruct (Forall2_lookup_r _ _ _ _ _ Hfrom Hk) as (e' & He' & Hfrom').
  destruct (Hshape e' u) as [_ Huz];
    [right; apply list_elem_of_lookup; eauto | exact Hfrom' |].
  assert (Hcu : ncols u = ncols p).
  { rewrite forallb_forall in Hsame.
    assert (Hin : In u ps) by (apply list_elem_of_In, list_elem_of_lookup; eauto).
    specialize (Hsame u Hin). unfold same_shape in Hsame.
    apply andb_prop in Hsame as [_ Hc]. apply Nat.eqb_eq in Hc. congruence. }
  rewrite <- Hcu. auto.
Qed.

(** * Layers without dropout *)

Lemma edge_set_loop_rate_0 (self : GCNGraphSAGENodeSetUpdate.t)
    (w : GCNGraphSAGENodeSetUpdate.Weights) (env env' : Env) (graph : GraphTensor)
    (ns : string) :
  GCNGraphSAGENodeSetUpdate._dropout_rate self = 0%Qc ->
  forall names mask mask' degs pooled,
    GCNGraphSAGENodeSetUpdate.edge_set_loop self w env graph ns names mask degs pooled =
    GCNGraphSAGENodeSetUpdate.edge_set_loop self w env' graph ns names mask' degs pooled.
Proof.
  intros Hrate. induction names as [|e names IH]; intros mask mask' degs pooled;
    simpl; [reflexivity|].
  destruct (getitem (edge_sets graph) e) as [es|]; simpl; [|reflexivity].
  destruct (negb _); [reflexivity|].
  destruct (getitem (node_sets graph) _) as [sns|]; simpl; [|reflexivity].
  destruct (getitem (features sns) _) as [sv|]; simpl; [|reflexivity].
  rewrite Hrate, !Dropout_call_rate_0.
  destruct (if negb _ then _ else _) as [sv'|]; simpl; [|reflexivity].
  destruct (broadcast_node_to_edges _ _ _ _) as [bv|]; simpl; [|reflexivity].
  destruct (pool_edges_to_node graph e _ "sum" bv) as [pv|]; simpl; [|reflexivity].
  destruct (if String.eqb _ "mean" then _ else _) as [degs1|]; simpl; [|reflexivity].
  apply IH.
Qed.

(** X3: with [dropout_rate = 0], the result of each of the four layers is the
    same under every training flag, every ambient training mode and every
    random mask. *)
Theorem dropout_rate_0_deterministic
    (env env' : Env) (training training' : option bool)
    (agg : GraphSAGEAggregatorConv.t) (kernel : tensor)
    (pool : GraphSAGEPoolingConv.t) (pw : GraphSAGEPoolingConv.Weights)
    (ns : GraphSAGENextState.t) (nw : GraphSAGENextState.Weights)
    (gcn : GCNGraphSAGENodeSetUpdate.t) (gw : GCNGraphSAGENodeSetUpdate.Weights)
    (graph : GraphTensor) (node_set_name : string)
    (sender_node_input : option tensor)
    (broadcast_from_sender_node : tensor -> result tensor)
    (pool_to_receiver : tensor -> string -> result tensor)
    (inputs : tensor * list (string * tensor) * list (string * tensor)) :
  GraphSAGEAggregatorConv._dropout_rate agg = 0%Qc ->
  GraphSAGEPoolingConv._dropout_rate pool = 0%Qc ->
  GraphSAGENextState._dropout_rate ns = 0%Qc ->
  GCNGraphSAGENodeSetUpdate._dropout_rate gcn = 0%Qc ->
  rsqrt env = rsqrt env' ->
  GraphSAGEAggregatorConv.convolve agg kernel env sender_node_input
    broadcast_from_sender_node pool_to_receiver training =
  GraphSAGEAggregatorConv.convolve agg kernel env' sender_node_input
    broadcast_from_sender_node pool_to_receiver training' /\
  GraphSAGEPoolingConv.convolve pool pw env sender_node_input
    broadcast_from_sender_node pool_to_receiver training =
  GraphSAGEPoolingConv.convolve pool pw env' sender_node_input
    broadcast_from_sender_node pool_to_receiver training' /\
  GraphSAGENextState.call ns nw env inputs training =
  GraphSAGENextState.call ns nw env' inputs training' /\
  GCNGraphSAGENodeSetUpdate.call gcn gw env graph node_set_name training =
  GCNGraphSAGENodeSetUpdate.call gcn gw env' graph node_set_name training'.
Proof.
  intros H1 H2 H3 H4 Hr. repeat split.
  - unfold GraphSAGEAggregatorConv.convolve.
    destruct sender_node_input as [x|]; [|reflexivity].
    destruct (broadcast_from_sender_node x) as [b|]; simpl; [|reflexivity].
    rewrite H1, !Dropout_call_rate_0. reflexivity.
  - unfold GraphSAGEPoolingConv.convolve.
    destruct sender_node_input as [x|]; [|reflexivity].
    destruct (broadcast_from_sender_node x) as [b|]; simpl; [|reflexivity].
    rewrite H2, !Dropout_call_rate_0. reflexivity.
  - unfold GraphSAGENextState.call. destruct inputs as [[x m] [|c context]];
      [|reflexivity].
    rewrite H3, !Dropout_call_rate_0. unfold Keras.l2_normalize, l2_row.
    rewrite Hr. reflexivity.
  - unfold GCNGraphSAGENodeSetUpdate.call.
    destruct (negb _); [reflexivity|].
    rewrite (edge_set_loop_rate_0 gcn gw env env' graph node_set_name H4 _ 0 0 [] []).
    destruct (GCNGraphSAGENodeSetUpdate.edge_set_loop _ _ env' _ _ _ _ _ _)
      as [[degs pooled]|]; simpl; [|reflexivity].
    destruct (getitem (node_sets graph) node_set_name) as [node_set|]; simpl;
      [|reflexivity].
    destruct (GCNGraphSAGENodeSetUpdate._add_self_loop gcn); [|reflexivity].
    destruct (getitem (features node_set) _) as [sv|]; simpl; [|reflexivity].
    rewrite H4, !Dropout_call_rate_0. reflexivity.
Qed.

(** ** The further properties on the sample graphs *)

Lemma gcn_call_ok_graph_fits_witness :
  GCNGraphSAGENodeSetUpdate.call (Sample.gcn "sum" 0%Qc false) Sample.gcn_weights
    (Sample.env false) Sample.graph3 "nodes" None =
    Ok [(HIDDEN_STATE,
         Tensor 2 [[Sample.q 8; Sample.q 10]; [Sample.q 0; Sample.q 0];
                   [Sample.q 0; Sample.q 0]])] /\
  exists edge_set sender_node_set,
    edge_sets Sample.graph3 !! "edges" = Some edge_set /\
    TFGNN.node_set_name (adjacency edge_set) TARGET = "nodes" /\
    node_sets Sample.graph3 !! TFGNN.node_set_name (adjacency edge_set) SOURCE =
      Some sender_node_set /\
    is_Some (features sender_node_set !! HIDDEN_STATE).
Proof.
  assert (H : GCNGraphSAGENodeSetUpdate.call (Sample.gcn "sum" 0%Qc false)
                Sample.gcn_weights (Sample.env false) Sample.graph3 "nodes" None =
              Ok [(HIDDEN_STATE,
                   Tensor 2 [[Sample.q 8; Sample.q 10]; [Sample.q 0; Sample.q 0];
                             [Sample.q 0; Sample.q 0]])])
    by (apply result_bag_eq; vm_compute; reflexivity).
  split; [exact H|].
  destruct (gcn_call_ok_graph_fits _ _ _ _ _ _ _ H) as (_ & _ & Hedges).
  apply (Hedges "edges"). apply list_elem_of_singleton. reflexivity.
Defined.

Lemma gcn_sum_isolated_nodes_witness :
  isolated (Sample.gcn "sum" 0%Qc false) Sample.graph3 1 /\
  exists summed,
    rows summed !! 1 = Some (zeros (ncols summed)) /\
    Ok [(HIDDEN_STATE, apply_activation linear summed)] =
    Ok [(HIDDEN_STATE,
         Tensor 2 [[Sample.q 8; Sample.q 10]; [Sample.q 0; Sample.q 0];
                   [Sample.q 0; Sample.q 0]])].
Proof.
  assert (H : GCNGraphSAGENodeSetUpdate.call (Sample.gcn "sum" 0%Qc false)
                Sample.gcn_weights (Sample.env false) Sample.graph3 "nodes" None =
              Ok [(HIDDEN_STATE,
                   Tensor 2 [[Sample.q 8; Sample.q 10]; [Sample.q 0; Sample.q 0];
                             [Sample.q 0; Sample.q 0]])])
    by (apply result_bag_eq; vm_compute; reflexivity).
  assert (Hiso : isolated (Sample.gcn "sum" 0%Qc false) Sample.graph3 1).
  { intros e es He Hes. apply list_elem_of_singleton in He. subst e.
    unfold Sample.graph3 in Hes. cbn [edge_sets] in Hes.
    apply lookup_singleton_Some in Hes as [_ <-]. simpl.
    intros Hin. apply list_elem_of_In in Hin. simpl in Hin.
    destruct Hin as [E|[E|[]]]; discriminate. }
  split; [exact Hiso|].
  destruct (gcn_sum_isolated_nodes (Sample.gcn "sum" 0%Qc false) Sample.gcn_weights
              (Sample.env false) Sample.graph3 "nodes" None _ eq_refl eq_refl H)
    as (node_set & summed & Hns & _ & Hzero & Hout).
  unfold Sample.graph3 in Hns. cbn [node_sets] in Hns.
  apply lookup_singleton_Some in Hns as [_ <-].
  exists summed. split; [apply Hzero; [simpl; lia | exact Hiso] | exact Hout].
Defined.

Lemma dropout_rate_0_deterministic_witness :
  GraphSAGEAggregatorConv.convolve ScenarioA.aggregator Sample.identity2
    (Sample.env false) (Some Sample.old_state) Ok (fun t _ => Ok t) (Some false) =
  GraphSAGEAggregatorConv.convolve ScenarioA.aggregator Sample.identity2
    NoDropout.dropping_env (Some Sample.old_state) Ok (fun t _ => Ok t) (Some true) /\
  GCNGraphSAGENodeSetUpdate.call (Sample.gcn "sum" 0%Qc true) Sample.gcn_weights
    (Sample.env false) Sample.graph3 "nodes" (Some false) =
  GCNGraphSAGENodeSetUpdate.call (Sample.gcn "sum" 0%Qc true) Sample.gcn_weights
    NoDropout.dropping_env Sample.graph3 "nodes" (Some true).
Proof.
  destruct (dropout_rate_0_deterministic (Sample.env false) NoDropout.dropping_env
              (Some false) (Some true)
              ScenarioA.aggregator Sample.identity2
              NoDropout.pooling NoDropout.pooling_weights
              ScenarioA.next_state (Sample.next_state_weights 4)
              (Sample.gcn "sum" 0%Qc true) Sample.gcn_weights
              Sample.graph3 "nodes" (Some Sample.old_state) Ok (fun t _ => Ok t)
              (Sample.old_state, Sample.edge_inputs, [])
              eq_refl eq_refl eq_refl eq_refl eq_refl)
    as (Hagg & _ & _ & Hgcn).
  split; [exact Hagg | exact Hgcn].
Defined.

(** * The mean of the GCN update *)

Lemma of_nat_S (k : nat) : of_nat (S k) = (1 + of_nat k)%Qc.
Proof.
  unfold of_nat. apply Qc_is_canon. simpl.
  rewrite !Qred_correct. rewrite Nat2Z.inj_succ. unfold Z.succ.
  rewrite inject_Z_plus. ring.
Qed.

Lemma of_nat_plus (a b : nat) : of_nat (a + b) = (of_nat a + of_nat b)%Qc.
Proof.
  induction a as [|a IH]; simpl.
  - change (of_nat 0) with 0%Qc. ring.
  - rewrite !of_nat_S, IH. ring.
Qed.

Lemma incident_rows_replicate (idx : list nat) (v : row) (i : nat) :
  incident_rows idx (replicate (length idx) v) i =
  replicate (count_occ Nat.eq_dec idx i) v.
Proof.
  unfold incident_rows. induction idx as [|j idx IH]; [reflexivity|].
  simpl. destruct (Nat.eqb_spec j i) as [E|NE], (Nat.eq_dec j i) as [E'|NE'];
    try contradiction; simpl; rewrite IH; reflexivity.
Qed.

Lemma sum_of_ones (k : nat) :
  foldr vadd (zeros 1) (replicate k (ones 1)) = [of_nat k].
Proof.
  induction k as [|k IH]; [reflexivity|].
  simpl. rewrite IH, of_nat_S. reflexivity.
Qed.

(** Sum-pooling a one per edge counts the incoming edges of every node. *)
Lemma pool_ones_counts graph edge_set_name tag es ns po :
  edges_paired graph ->
  edge_sets graph !! edge_set_name = Some es ->
  node_sets graph !! node_set_name (adjacency es) tag = Some ns ->
  pool_edges_to_node graph edge_set_name tag "sum" (ones2 (edge_total_size es) 1) =
    Ok po ->
  ncols po = 1 /\
  rows po = map (fun i => [of_nat (in_degree_along graph tag edge_set_name i)])
              (seq 0 (total_size ns)).
Proof.
  intros Hpaired Hes Hns Hpool.
  destruct (pool_sum_rows _ _ _ _ _ _ _ Hpool Hes Hns) as [Hc Hr].
  split; [exact Hc|]. rewrite Hr. apply map_ext. intros i.
  unfold in_degree_along. rewrite Hes. cbn [ones2 ncols rows].
  assert (Hlen : edge_total_size es = length (indices (adjacency es) tag)).
  { unfold edge_total_size. destruct tag; [reflexivity|]. apply (Hpaired _ _ Hes). }
  rewrite Hlen, incident_rows_replicate. apply sum_of_ones.
Qed.

Lemma squeeze_column (n : nat) (c : nat -> nat) (po : tensor) :
  n <> 1 -> ncols po = 1 ->
  rows po = map (fun i => [of_nat (c i)]) (seq 0 n) ->
  squeeze po = T1 (degree_vector n c).
Proof.
  intros Hn Hc Hr. unfold squeeze, nrows. rewrite Hc, Hr, length_map, length_seq.
  destruct (Nat.eqb_spec n 1) as [E|_]; [contradiction|]. simpl.
  unfold degree_vector. rewrite map_map. reflexivity.
Qed.

(** Under [mean], on a node set of a size other than 1, the loop appends
    the in-degree vector of every edge set. *)
Lemma edge_set_loop_degrees (self : GCNGraphSAGENodeSetUpdate.t)
    (w : GCNGraphSAGENodeSetUpdate.Weights) (env : Env) (graph : GraphTensor)
    (ns : string) (node_set : NodeSet) :
  GCNGraphSAGENodeSetUpdate._reduce_type self = "mean" ->
  edges_paired graph ->
  node_sets graph !! ns = Some node_set -> total_size node_set <> 1 ->
  forall names mask degs pooled degs' pooled',
    GCNGraphSAGENodeSetUpdate.edge_set_loop self w env graph ns names mask degs pooled =
      Ok (degs', pooled') ->
    degs' = degs ++
      map (fun e => T1 (degree_vector (total_size node_set)
                          (in_degree_along graph
                             (GCNGraphSAGENodeSetUpdate._receiver_tag self) e)))
        names.
Proof.
  intros Hmean Hpaired Hns Hsize. induction names as [|e names IH];
    intros mask degs pooled degs' pooled'; simpl.
  - intros [= <- <-]. rewrite app_nil_r. reflexivity.
  - intros H. apply bind_Ok in H as (es & Hes & H).
    destruct (negb _) eqn:Hrecv; [discriminate|].
    apply negb_false_iff, String.eqb_eq in Hrecv.
    apply bind_Ok in H as (sns & _ & H). apply bind_Ok in H as (sv & _ & H).
    apply bind_Ok in H as (sv' & _ & H). apply bind_Ok in H as (bv & _ & H).
    apply bind_Ok in H as (pv & _ & H). apply bind_Ok in H as (degs1 & Hdegs & H).
    rewrite Hmean in Hdegs. simpl in Hdegs.
    apply bind_Ok in Hdegs as (po & Hpo & [= <-]).
    apply getitem_Ok in Hes. rewrite Hrecv in Hns.
    destruct (pool_ones_counts _ _ _ _ _ _ Hpaired Hes Hns Hpo) as [Hc Hr].
    rewrite (squeeze_column _ _ _ Hsize Hc Hr) in H.
    rewrite (IH _ _ _ _ _ H), <- app_assoc. reflexivity.
Qed.

Lemma vadd_degree_vector (n : nat) (c d : nat -> nat) :
  vadd (degree_vector n c) (degree_vector n d) = degree_vector n (fun i => c i + d i).
Proof.
  unfold degree_vector, vadd. induction (seq 0 n) as [|i l IH]; [reflexivity|].
  simpl. rewrite IH, of_nat_plus. reflexivity.
Qed.

Lemma length_degree_vector n c : length (degree_vector n c) = n.
Proof. unfold degree_vector. rewrite length_map. apply length_seq. Qed.

Lemma degree_vector_ext (n : nat) (c d : nat -> nat) :
  (forall i, c i = d i) -> degree_vector n c = degree_vector n d.
Proof.
  intros H. unfold degree_vector. apply map_ext. intros i. rewrite H. reflexivity.
Qed.

Lemma ones_degree_vector (n : nat) : ones n = degree_vector n (fun _ => 1).
Proof.
  unfold ones, degree_vector.
  assert (H : forall k, replicate n 1%Qc = map (fun _ => of_nat 1) (seq k n)).
  { induction n as [|n IH]; intros k; [reflexivity|].
    simpl. rewrite <- (IH (S k)). reflexivity. }
  apply H.
Qed.

Lemma foldl_any_add2_degree_vectors (n : nat) (cs : list (nat -> nat)) : forall c0,
  foldl any_add2 (T1 (degree_vector n c0)) (map (fun c => T1 (degree_vector n c)) cs) =
  T1 (degree_vector n (fun i => c0 i + sum_list (map (fun c => c i) cs))).
Proof.
  induction cs as [|c cs IH]; intros c0; simpl.
  - f_equal. apply degree_vector_ext. intros i. lia.
  - rewrite vadd_degree_vector, IH. f_equal. apply degree_vector_ext. intros i. lia.
Qed.

Lemma any_add_n_degree_vectors (n : nat) (cs : list (nat -> nat)) :
  cs <> [] ->
  any_add_n (map (fun c => T1 (degree_vector n c)) cs) =
  Ok (T1 (degree_vector n (fun i => sum_list (map (fun c => c i) cs)))).
Proof.
  destruct cs as [|c0 cs]; [contradiction|]. intros _. unfold any_add_n.
  cbn [map].
  replace (forallb _ _) with true.
  - rewrite foldl_any_add2_degree_vectors. reflexivity.
  - symmetry. apply forallb_forall. intros a Ha.
    apply in_map_iff in Ha as (c & <- & _). simpl.
    rewrite !length_degree_vector. apply Nat.eqb_refl.
Qed.

(** The loop collects the same pooled values under every [reduce_type]; only
    the in-degrees depend on it. *)
Lemma edge_set_loop_as_sum (self : GCNGraphSAGENodeSetUpdate.t)
    (w : GCNGraphSAGENodeSetUpdate.Weights) (env : Env) (graph : GraphTensor)
    (ns : string) :
  forall names mask degs pooled degs' pooled' degs0,
    GCNGraphSAGENodeSetUpdate.edge_set_loop self w env graph ns names mask degs pooled =
      Ok (degs', pooled') ->
    GCNGraphSAGENodeSetUpdate.edge_set_loop (with_reduce_type self "sum") w env graph ns
      names mask degs0 pooled = Ok (degs0, pooled').
Proof.
  induction names as [|e names IH]; intros mask degs pooled degs' pooled' degs0; simpl.
  - intros [= _ <-]. reflexivity.
  - intros H. apply bind_Ok in H as (es & Hes & H). rewrite Hes. cbn [Py.bind].
    destruct (negb _) eqn:Hrecv; [discriminate|].
    apply bind_Ok in H as (sns & Hsns & H). rewrite Hsns. cbn [Py.bind].
    apply bind_Ok in H as (sv & Hsv & H). rewrite Hsv. cbn [Py.bind].
    apply bind_Ok in H as (sv' & Hsv' & H).
    change (GCNGraphSAGENodeSetUpdate._transform_edge_fn (with_reduce_type self "sum"))
      with (GCNGraphSAGENodeSetUpdate._transform_edge_fn self).
    change (GCNGraphSAGENodeSetUpdate._node_transform_fn (with_reduce_type self "sum"))
      with (GCNGraphSAGENodeSetUpdate._node_transform_fn self).
    rewrite Hsv'. cbn [Py.bind].
    apply bind_Ok in H as (bv & Hbv & H). rewrite Hbv. cbn [Py.bind].
    apply bind_Ok in H as (pv & Hpv & H). rewrite Hpv. cbn [Py.bind].
    apply bind_Ok in H as (degs1 & _ & H).
    exact (IH _ _ _ _ _ degs0 H).
Qed.

Lemma divide_no_nan_column (x : tensor) (v : row) :
  nrows x = length v ->
  divide_no_nan x (Tensor 1 (map (fun d => [d]) v)) =
  Ok (Tensor (ncols x) (zip_with div_row (rows x) v)).
Proof.
  intros Hn. unfold divide_no_nan, nrows. cbn [rows].
  rewrite length_map. unfold nrows in Hn. rewrite Hn, Nat.eqb_refl.
  rewrite map_map. cbn [hd]. rewrite map_id. reflexivity.
Qed.

Lemma add_n_nrows (p : tensor) (ps : list tensor) (summed : tensor) :
  add_n (p :: ps) = Ok summed -> nrows summed = nrows p.
Proof.
  unfold add_n. destruct (forallb (same_shape p) ps) eqn:Hsame; [|discriminate].
  intros [= <-]. apply (foldl_add2_same_shape ps p Hsame).
Qed.

Lemma pooled_from_nrows self graph ns node_set e p :
  node_sets graph !! ns = Some node_set ->
  pooled_from self graph ns e p -> nrows p = total_size node_set.
Proof.
  intros Hns (es & sns & sv & bv & Hes & Hrecv & _ & _ & Hpool).
  apply pool_edges_to_node_shape in Hpool as (es' & ns' & Hes' & Hns' & Hrows & _).
  rewrite Hes in Hes'. injection Hes' as <-.
  rewrite Hrecv, Hns in Hns'. injection Hns' as <-. exact Hrows.
Qed.

Lemma sum_list_app_nat (l k : list nat) : sum_list (l ++ k) = sum_list l + sum_list k.
Proof. induction l as [|a l IH]; simpl; [reflexivity|]. rewrite IH. lia. Qed.

Lemma div_row_by_zero (r : row) : div_row r (of_nat 0) = zeros (length r).
Proof.
  unfold div_row, zeros. induction r as [|x r IH]; [reflexivity|].
  simpl. rewrite IH. f_equal. change (of_nat 0) with 0%Qc.
  unfold Qcdiv. change (/ 0)%Qc with 0%Qc. ring.
Qed.

Lemma lookup_degree_vector (n : nat) (c : nat -> nat) (i : nat) :
  i < n -> degree_vector n c !! i = Some (of_nat (c i)).
Proof.
  intros Hi. unfold degree_vector.
  change (((fun i => of_nat (c i)) <$> seq 0 n : list Qc) !! i = Some (of_nat (c i))).
  rewrite list_lookup_fmap, lookup_seq_lt by exact Hi. reflexivity.
Qed.

Lemma zero_degree_row (x : tensor) (n : nat) (c : nat -> nat) (i : nat) (r : row) :
  nrows x = n -> rows x !! i = Some r -> c i = 0 ->
  zip_with div_row (rows x) (degree_vector n c) !! i = Some (zeros (length r)).
Proof.
  intros Hn Hr Hzero. apply lookup_zip_with_Some. exists r, (of_nat (c i)).
  split; [rewrite Hzero, div_row_by_zero; reflexivity|].
  split; [exact Hr|]. apply lookup_degree_vector.
  rewrite <- Hn. apply lookup_lt_Some in Hr. exact Hr.
Qed.

(** X4: with [reduce_type="mean"] and at least one edge set, a call that
    returns has divided, node by node, the values that the same layer sums
    under [reduce_type="sum"] by the number of the incoming edges of the
    node over all configured edge sets, plus one with [add_self_loop]; a
    node of degree zero gets zero, not NaN. *)
Theorem gcn_mean_divides_sum_by_degree (self : GCNGraphSAGENodeSetUpdate.t)
    (w : GCNGraphSAGENodeSetUpdate.Weights) (env : Env) (graph : GraphTensor)
    (node_set_name : string) (training : option bool)
    (out : list (string * tensor)) :
  GCNGraphSAGENodeSetUpdate._reduce_type self = "mean" ->
  GCNGraphSAGENodeSetUpdate._edge_set_names self <> [] ->
  edges_paired graph ->
  GCNGraphSAGENodeSetUpdate.call self w env graph node_set_name training = Ok out ->
  exists node_set summed,
    node_sets graph !! node_set_name = Some node_set /\
    nrows summed = total_size node_set /\
    GCNGraphSAGENodeSetUpdate.call (with_reduce_type self "sum") w env graph
      node_set_name training = gcn_finish self w summed /\
    gcn_finish self w
      (Tensor (ncols summed)
         (zip_with div_row (rows summed)
            (degree_vector (total_size node_set) (gcn_degree self graph)))) = Ok out /\
    (forall i r, rows summed !! i = Some r -> gcn_degree self graph i = 0 ->
       zip_with div_row (rows summed)
         (degree_vector (total_size node_set) (gcn_degree self graph)) !! i =
       Some (zeros (length r))).
Proof.
  intros Hmean Hne Hpaired Hcall. pose proof Hcall as Hcall0.
  unfold GCNGraphSAGENodeSetUpdate.call in Hcall |- *.
  cbn [GCNGraphSAGENodeSetUpdate._reduce_type with_reduce_type
       GCNGraphSAGENodeSetUpdate._edge_set_names
       GCNGraphSAGENodeSetUpdate._add_self_loop
       GCNGraphSAGENodeSetUpdate._self_node_feature
       GCNGraphSAGENodeSetUpdate._dropout_rate
       GCNGraphSAGENodeSetUpdate._use_bias
       GCNGraphSAGENodeSetUpdate._activation].
  change (GCNGraphSAGENodeSetUpdate._node_transform_fn (with_reduce_type self "sum"))
    with (GCNGraphSAGENodeSetUpdate._node_transform_fn self).
  rewrite Hmean in Hcall.
  cbn [String.eqb Ascii.eqb Bool.eqb orb negb andb] in Hcall |- *.
  apply bind_Ok in Hcall as ([degs pooled] & Hloop & H).
  rewrite (edge_set_loop_as_sum self w env graph node_set_name _ _ _ _ _ _ [] Hloop).
  cbn [Py.bind].
  apply bind_Ok in H as (node_set & Hns & H). rewrite Hns. cbn [Py.bind].
  apply getitem_Ok in Hns.
  assert (Hsize : total_size node_set <> 1).
  { intros E.
    pose proof (gcn_mean_single_node_raises self w env graph node_set_name node_set
                  training Hmean Hne Hns E) as Hraise.
    rewrite Hcall0 in Hraise. discriminate. }
  pose proof (edge_set_loop_degrees self w env graph node_set_name node_set
                Hmean Hpaired Hns Hsize _ _ _ _ _ _ Hloop) as Hdegs.
  destruct (edge_set_loop_pooled self w env graph node_set_name _ _ _ _ _ _ Hloop)
    as (ps & Hps & Hfrom).
  simpl in Hdegs, Hps. subst degs pooled.
  destruct ps as [|p ps].
  { apply Forall2_nil_inv_r in Hfrom. contradiction. }
  assert (Hp : nrows p = total_size node_set).
  { destruct (GCNGraphSAGENodeSetUpdate._edge_set_names self) as [|e names];
      [contradiction|].
    apply Forall2_cons in Hfrom as [Hfrom _].
    exact (pooled_from_nrows _ _ _ _ _ _ Hns Hfrom). }
  exists node_set.
  assert (Hfinish : forall degs' pooled' summed,
    degs' = map (fun c => T1 (degree_vector (total_size node_set) c))
              (map (in_degree_along graph (GCNGraphSAGENodeSetUpdate._receiver_tag self))
                 (GCNGraphSAGENodeSetUpdate._edge_set_names self) ++
               (if GCNGraphSAGENodeSetUpdate._add_self_loop self
                then [fun _ => 1] else [])) ->
    add_n ((p :: ps) ++ pooled') = Ok summed ->
    (result <-
       (total_in_degrees <- any_add_n degs' ;;
        column <- new_axis_1 total_in_degrees ;;
        divide_no_nan summed column) ;;
     result <-
       (if GCNGraphSAGENodeSetUpdate._use_bias self
        then bias_add result (GCNGraphSAGENodeSetUpdate.bias_term w)
        else Ok result) ;;
     Ok [(GCNGraphSAGENodeSetUpdate._self_node_feature self,
          apply_activation (GCNGraphSAGENodeSetUpdate._activation self) result)]) =
      Ok out ->
    nrows summed = total_size node_set /\
    gcn_finish self w
      (Tensor (ncols summed)
         (zip_with div_row (rows summed)
            (degree_vector (total_size node_set) (gcn_degree self graph)))) = Ok out).
  { intros degs' pooled' summed -> Hadd Hout.
    assert (Hn : nrows summed = total_size node_set).
    { rewrite <- Hp. exact (add_n_nrows _ _ _ Hadd). }
    split; [exact Hn|].
    rewrite any_add_n_degree_vectors in Hout.
    2:{ destruct (GCNGraphSAGENodeSetUpdate._edge_set_names self);
          [contradiction | discriminate]. }
    cbn [Py.bind new_axis_1] in Hout.
    rewrite divide_no_nan_column in Hout by (rewrite length_degree_vector; exact Hn).
    cbn [Py.bind] in Hout. unfold gcn_finish.
    rewrite (degree_vector_ext (total_size node_set) _ (gcn_degree self graph)) in Hout;
      [exact Hout|].
    intros i. unfold gcn_degree, in_degree.
    rewrite map_app, sum_list_app_nat, !map_map.
    f_equal. destruct (GCNGraphSAGENodeSetUpdate._add_self_loop self); reflexivity. }
  destruct (GCNGraphSAGENodeSetUpdate._add_self_loop self) eqn:Hself.
  - apply bind_Ok in H as ([degs' pooled'] & Hl & H).
    apply bind_Ok in Hl as (sv & Hsv & Hl). rewrite Hsv. cbn [Py.bind].
    apply bind_Ok in Hl as (sv' & Hsv' & Hl). rewrite Hsv'. cbn [Py.bind].
    injection Hl as <- <-.
    apply bind_Ok in H as (summed & Hadd & H).
    exists summed.
    pose proof (fun E => Hfinish _ [sv'] summed E Hadd H) as Hf.
    destruct Hf as [Hn Hout].
    + rewrite map_app. cbn [map]. rewrite <- ones_degree_vector, map_map.
      reflexivity.
    + repeat split; [exact Hns | exact Hn | | exact Hout |].
      { cbn [app]. cbn [app] in Hadd. rewrite Hadd. reflexivity. }
      intros i r Hr Hzero. apply (zero_degree_row _ _ _ _ _ Hn Hr Hzero).
  - cbn [Py.bind] in H |- *.
    apply bind_Ok in H as (summed & Hadd & H).
    exists summed.
    rewrite <- (app_nil_r (p :: ps)) in Hadd.
    pose proof (fun E => Hfinish _ [] summed E Hadd H) as Hf.
    rewrite app_nil_r in Hadd.
    destruct Hf as [Hn Hout].
    + rewrite app_nil_r, map_map. reflexivity.
    + repeat split; [exact Hns | exact Hn | | exact Hout |].
      { rewrite Hadd. reflexivity. }
      intros i r Hr Hzero. apply (zero_degree_row _ _ _ _ _ Hn Hr Hzero).
Qed.

Lemma gcn_mean_divides_sum_by_degree_witness :
  edges_paired Sample.graph3 /\
  exists summed,
    GCNGraphSAGENodeSetUpdate.call
      (with_reduce_type (Sample.gcn "mean" 0%Qc true) "sum") Sample.gcn_weights
      (Sample.env false) Sample.graph3 "nodes" None =
      gcn_finish (Sample.gcn "mean" 0%Qc true) Sample.gcn_weights summed /\
    gcn_finish (Sample.gcn "mean" 0%Qc true) Sample.gcn_weights
      (Tensor (ncols summed)
         (zip_with div_row (rows summed)
            (degree_vector 3 (gcn_degree (Sample.gcn "mean" 0%Qc true) Sample.graph3)))) =
    Ok [(HIDDEN_STATE,
         Tensor 2 [[Sample.q 3; Sample.q 4]; [Sample.q 3; Sample.q 4];
                   [Sample.q 5; Sample.q 6]])].
Proof.
  assert (H : GCNGraphSAGENodeSetUpdate.call (Sample.gcn "mean" 0%Qc true)
                Sample.gcn_weights (Sample.env false) Sample.graph3 "nodes" None =
              Ok [(HIDDEN_STATE,
                   Tensor 2 [[Sample.q 3; Sample.q 4]; [Sample.q 3; Sample.q 4];
                             [Sample.q 5; Sample.q 6]])])
    by (apply result_bag_eq; vm_compute; reflexivity).
  assert (Hpaired : edges_paired Sample.graph3).
  { intros e es Hes. unfold Sample.graph3 in Hes. cbn [edge_sets] in Hes.
    apply lookup_singleton_Some in Hes as [_ <-]. reflexivity. }
  split; [exact Hpaired|].
  destruct (gcn_mean_divides_sum_by_degree (Sample.gcn "mean" 0%Qc true)
              Sample.gcn_weights (Sample.env false) Sample.graph3 "nodes" None _
              eq_refl ltac:(discriminate) Hpaired H)
    as (node_set & summed & Hns & _ & Hsum & Hmean & _).
  unfold Sample.graph3 in Hns. cbn [node_sets] in Hns.
  apply lookup_singleton_Some in Hns as [_ <-].
  exists summed. split; [exact Hsum | exact Hmean].
Defined.

(** * The layers of next_state.py *)








(** X6: a call of [ResidualNextState] that returns has found the skip
    connection feature, and with the activation [None] (linear) or "relu"
    the new state has the rows and the columns of that feature. *)
Theorem residual_next_state_keeps_shape (self : ResidualNextState.t)
    (inputs : FieldOrFields * FieldsNest * FieldsNest) (out : tensor) :
  ResidualNextState.call self inputs = Ok out ->
  exists skip,
    skip_feature self (fst (fst inputs)) = Some skip /\
    (ResidualNextState.activation self = linear \/
     ResidualNextState.activation self = relu ->
     nrows out = nrows skip /\ ncols out = ncols skip).
Proof.
  unfold ResidualNextState.call. intros H.
  apply bind_Ok in H as (skip & Hskip & H).
  apply bind_Ok in H as (net0 & _ & H). apply bind_Ok in H as (net & _ & H).
  destruct (negb _) eqn:Hshape; [discriminate|].
  apply negb_false_iff in Hshape. unfold is_compatible_with in Hshape.
  apply andb_prop in Hshape as [Hn Hc]. apply Nat.eqb_eq in Hn, Hc. simpl in Hn, Hc.
  apply bind_Ok in H as (sum & Hadd & [= <-]).
  unfold add in Hadd. destruct (same_shape net skip); [|discriminate].
  injection Hadd as <-.
  exists skip. split.
  - unfold skip_feature. destruct (fst (fst inputs)) as [x|d].
    + congruence.
    + destruct (assoc _ d); [congruence | discriminate].
  - assert (Hsum : nrows (add2 net skip) = nrows skip /\ ncols (add2 net skip) = ncols skip).
    { unfold add2, nrows in *. simpl. rewrite length_zip_with. split; lia. }
    intros [-> | ->]; [exact Hsum|].
    destruct Hsum as [H1 H2]. split; [|exact H2].
    unfold nrows. simpl. rewrite length_map. exact H1.
Qed.


Lemma residual_next_state_keeps_shape_witness :
  exists skip,
    skip_feature Sample.residual_fitting
      (Fields [("extra", Sample.from_cites); (HIDDEN_STATE, Sample.old_state)]) =
      Some skip /\
    nrows (add2 Sample.old_state Sample.old_state) = nrows skip /\
    ncols (add2 Sample.old_state Sample.old_state) = ncols skip.
Proof.
  destruct (residual_next_state_keeps_shape Sample.residual_fitting
              (Fields [("extra", Sample.from_cites); (HIDDEN_STATE, Sample.old_state)],
               Nest (Fields []), Nest (Fields []))
              (add2 Sample.old_state Sample.old_state) eq_refl)
    as (skip & Hskip & Hshape).
  exists skip. split; [exact Hskip|]. apply Hshape. left. reflexivity.
Defined.

(** * The weights that the GCN update reads *)

Lemma edge_set_loop_weights (self : GCNGraphSAGENodeSetUpdate.t)
    (w w' : GCNGraphSAGENodeSetUpdate.Weights) (env : Env) (graph : GraphTensor)
    (ns : string) :
  (GCNGraphSAGENodeSetUpdate._share_weights self = true ->
   GCNGraphSAGENodeSetUpdate.node_transform_kernel w =
   GCNGraphSAGENodeSetUpdate.node_transform_kernel w') ->
  forall names mask degs pooled,
    (GCNGraphSAGENodeSetUpdate._share_weights self = false ->
     forall e, e ∈ names ->
       GCNGraphSAGENodeSetUpdate.transform_edge_kernel w e =
       GCNGraphSAGENodeSetUpdate.transform_edge_kernel w' e) ->
    GCNGraphSAGENodeSetUpdate.edge_set_loop self w env graph ns names mask degs pooled =
    GCNGraphSAGENodeSetUpdate.edge_set_loop self w' env graph ns names mask degs pooled.
Proof.
  intros Hnode. induction names as [|e names IH]; intros mask degs pooled Hedge;
    simpl; [reflexivity|].
  destruct (getitem (edge_sets graph) e) as [es|]; simpl; [|reflexivity].
  destruct (negb _); [reflexivity|].
  destruct (getitem (node_sets graph) _) as [sns|]; simpl; [|reflexivity].
  destruct (getitem (features sns) _) as [sv|]; simpl; [|reflexivity].
  assert (Hdense :
    (if negb (GCNGraphSAGENodeSetUpdate._share_weights self)
     then Dense_call (GCNGraphSAGENodeSetUpdate._transform_edge_fn self w e)
            (Dropout_call env (GCNGraphSAGENodeSetUpdate._dropout_rate self) mask sv None)
     else Dense_call (GCNGraphSAGENodeSetUpdate._node_transform_fn self w)
            (Dropout_call env (GCNGraphSAGENodeSetUpdate._dropout_rate self) mask sv None)) =
    (if negb (GCNGraphSAGENodeSetUpdate._share_weights self)
     then Dense_call (GCNGraphSAGENodeSetUpdate._transform_edge_fn self w' e)
            (Dropout_call env (GCNGraphSAGENodeSetUpdate._dropout_rate self) mask sv None)
     else Dense_call (GCNGraphSAGENodeSetUpdate._node_transform_fn self w')
            (Dropout_call env (GCNGraphSAGENodeSetUpdate._dropout_rate self) mask sv None))).
  { unfold GCNGraphSAGENodeSetUpdate._transform_edge_fn,
      GCNGraphSAGENodeSetUpdate._node_transform_fn.
    destruct (GCNGraphSAGENodeSetUpdate._share_weights self) eqn:Hshare; simpl.
    - rewrite (Hnode eq_refl). reflexivity.
    - rewrite (Hedge eq_refl e (list_elem_of_here _ _)). reflexivity. }
  rewrite Hdense. clear Hdense.
  destruct (if negb _ then _ else _) as [sv'|]; simpl; [|reflexivity].
  destruct (broadcast_node_to_edges _ _ _ _) as [bv|]; simpl; [|reflexivity].
  destruct (pool_edges_to_node graph e _ "sum" bv) as [pv|]; simpl; [|reflexivity].
  destruct (if String.eqb _ "mean" then _ else _) as [degs1|]; simpl; [|reflexivity].
  apply IH. intros Hshare e' He'. apply (Hedge Hshare). right. exact He'.
Qed.

(** X7: the call reads only the weights that the constructor creates: the
    kernel of an edge set only for the configured edge sets and without
    [share_weights], the node kernel only with [add_self_loop] or
    [share_weights], and the bias only with [use_bias].  Two sets of weights
    that agree on these give the same result. *)
Theorem gcn_call_reads_created_weights (self : GCNGraphSAGENodeSetUpdate.t)
    (w w' : GCNGraphSAGENodeSetUpdate.Weights) (env : Env) (graph : GraphTensor)
    (node_set_name : string) (training : option bool) :
  (GCNGraphSAGENodeSetUpdate._share_weights self = false ->
   forall e, e ∈ GCNGraphSAGENodeSetUpdate._edge_set_names self ->
     GCNGraphSAGENodeSetUpdate.transform_edge_kernel w e =
     GCNGraphSAGENodeSetUpdate.transform_edge_kernel w' e) ->
  (GCNGraphSAGENodeSetUpdate._add_self_loop self = true \/
   GCNGraphSAGENodeSetUpdate._share_weights self = true ->
   GCNGraphSAGENodeSetUpdate.node_transform_kernel w =
   GCNGraphSAGENodeSetUpdate.node_transform_kernel w') ->
  (GCNGraphSAGENodeSetUpdate._use_bias self = true ->
   GCNGraphSAGENodeSetUpdate.bias_term w = GCNGraphSAGENodeSetUpdate.bias_term w') ->
  GCNGraphSAGENodeSetUpdate.call self w env graph node_set_name training =
  GCNGraphSAGENodeSetUpdate.call self w' env graph node_set_name training.
Proof.
  intros Hedge Hnode Hbias. unfold GCNGraphSAGENodeSetUpdate.call.
  destruct (negb _); [reflexivity|].
  rewrite (edge_set_loop_weights self w w' env graph node_set_name
             (fun H => Hnode (or_intror H)) _ 0 [] [] Hedge).
  destruct (GCNGraphSAGENodeSetUpdate.edge_set_loop _ w' _ _ _ _ _ _ _)
    as [[degs pooled]|]; simpl; [|reflexivity].
  destruct (getitem (node_sets graph) node_set_name) as [node_set|]; simpl;
    [|reflexivity].
  assert (Hfn : GCNGraphSAGENodeSetUpdate._add_self_loop self = true ->
                GCNGraphSAGENodeSetUpdate._node_transform_fn self w =
                GCNGraphSAGENodeSetUpdate._node_transform_fn self w').
  { intros Hloop. unfold GCNGraphSAGENodeSetUpdate._node_transform_fn.
    rewrite (Hnode (or_introl Hloop)). reflexivity. }
  assert (Hend : forall result : tensor,
    (if GCNGraphSAGENodeSetUpdate._use_bias self
     then bias_add result (GCNGraphSAGENodeSetUpdate.bias_term w)
     else Ok result) =
    (if GCNGraphSAGENodeSetUpdate._use_bias self
     then bias_add result (GCNGraphSAGENodeSetUpdate.bias_term w')
     else Ok result)).
  { intros result. destruct (GCNGraphSAGENodeSetUpdate._use_bias self); [|reflexivity].
    rewrite (Hbias eq_refl). reflexivity. }
  clear Hedge Hnode Hbias.
  destruct (GCNGraphSAGENodeSetUpdate._add_self_loop self).
  - rewrite (Hfn eq_refl).
    destruct (getitem (features node_set) _) as [sv|]; simpl; [|reflexivity].
    destruct (Dense_call _ _) as [sv'|]; simpl; [|reflexivity].
    destruct (add_n _) as [summed|]; simpl; [|reflexivity].
    destruct (if String.eqb _ "mean" then _ else _) as [result|]; simpl; [|reflexivity].
    rewrite Hend. reflexivity.
  - simpl.
    destruct (add_n pooled) as [summed|]; simpl; [|reflexivity].
    destruct (if String.eqb _ "mean" then _ else _) as [result|]; simpl; [|reflexivity].
    rewrite Hend. reflexivity.
Qed.

Lemma gcn_call_reads_created_weights_witness :
  GCNGraphSAGENodeSetUpdate.call (Sample.gcn "sum" 0%Qc false) Sample.gcn_weights
    (Sample.env false) Sample.graph3 "nodes" None =
  GCNGraphSAGENodeSetUpdate.call (Sample.gcn "sum" 0%Qc false)
    {| GCNGraphSAGENodeSetUpdate.transform_edge_kernel :=
         fun e => if String.eqb e "edges" then Sample.identity2 else Tensor 2 [];
       GCNGraphSAGENodeSetUpdate.node_transform_kernel := Tensor 2 [];
       GCNGraphSAGENodeSetUpdate.bias_term := [] |}
    (Sample.env false) Sample.graph3 "nodes" None.
Proof.
  apply gcn_call_reads_created_weights.
  - intros _ e He. apply list_elem_of_singleton in He. subst e. reflexivity.
  - intros [H | H]; discriminate.
  - intros H. discriminate.
Defined.

(** * What the callback of the graph update builds *)

Lemma mapM_elem {A B} (f : A -> result B) (l : list A) : forall l' y,
  mapM f l = Ok l' -> y ∈ l' -> exists x, x ∈ l /\ f x = Ok y.
Proof.
  induction l as [|x l IH]; intros l' y; simpl.
  - intros [= <-] Hy. inv Hy.
  - intros H Hy. apply bind_Ok in H as (y0 & Hy0 & H).
    apply bind_Ok in H as (l1 & Hl1 & [= <-]).
    apply elem_of_cons in Hy as [-> | Hy].
    + exists x. split; [left | exact Hy0].
    + destruct (IH _ _ Hl1 Hy) as (x' & Hx' & Hf). exists x'. split; [right|]; assumption.
Qed.

Lemma make_conv_as_requested registry (a : GraphSAGEGraphUpdate.Args)
    (c : NodeSetUpdate.Conv) :
  Bool.eqb (GraphSAGEGraphUpdate.use_pooling a)
    (match GraphSAGEGraphUpdate.hidden_units a with Some _ => true | None => false end) =
    true ->
  GraphSAGEGraphUpdate.make_conv registry a = Ok c -> conv_as_requested a c.
Proof.
  intros Hpair. unfold GraphSAGEGraphUpdate.make_conv.
  destruct (GraphSAGEGraphUpdate.use_pooling a) eqn:Hpool; intros H;
    apply bind_Ok in H as (conv & Hinit & [= <-]).
  - destruct (GraphSAGEGraphUpdate.hidden_units a) as [h|] eqn:Hh; [|discriminate].
    unfold GraphSAGEPoolingConv.init in Hinit. cbn [GraphSAGEPoolingConv.kwargs
      GraphSAGEPoolingConv.sender_node_feature] in Hinit.
    destruct (kwargs_get _); [discriminate|].
    destruct (kwargs_get _); [discriminate|].
    apply bind_Ok in Hinit as (b & Hb & Hinit).
    apply bind_Ok in Hinit as (act & Hact & [= <-]).
    unfold AnyToAnyConvolutionBase.init in Hb.
    destruct (kw_receiver_feature _); [discriminate|].
    destruct (kw_sender_edge_feature _); [discriminate|].
    apply bind_Ok in Hb as (name & _ & [= <-]).
    simpl in Hact. injection Hact as <-.
    simpl. unfold base_as_requested. simpl. rewrite ?Hpool, ?Hh. repeat split; reflexivity.
  - destruct (GraphSAGEGraphUpdate.hidden_units a) as [h|] eqn:Hh; [discriminate|].
    unfold GraphSAGEAggregatorConv.init in Hinit. cbn [GraphSAGEAggregatorConv.kwargs
      GraphSAGEAggregatorConv.sender_node_feature] in Hinit.
    destruct (kwargs_get _); [discriminate|].
    destruct (kwargs_get _); [discriminate|].
    apply bind_Ok in Hinit as (b & Hb & [= <-]).
    unfold AnyToAnyConvolutionBase.init in Hb.
    destruct (kw_receiver_feature _); [discriminate|].
    destruct (kw_sender_edge_feature _); [discriminate|].
    apply bind_Ok in Hb as (name & _ & [= <-]).
    simpl. unfold base_as_requested. simpl. rewrite ?Hpool, ?Hh. repeat split; reflexivity.
Qed.

(** The entries of the [defaultdict] after the first loop: what was there,
    and one convolution for every edge set gone through whose receiver is a
    requested node set. *)
Lemma foldM_add_edge_set_convs registry a items :
  forall d d',
    foldM (GraphSAGEGraphUpdate.add_edge_set registry a) d items = Ok d' ->
    forall n e,
      (forall c, default ∅ (d' !! n) !! e = Some c ->
                 default ∅ (d !! n) !! e = Some c \/
                 GraphSAGEGraphUpdate.make_conv registry a = Ok c) /\
      (is_Some (default ∅ (d' !! n) !! e) <->
       is_Some (default ∅ (d !! n) !! e) \/
       (n ∈ GraphSAGEGraphUpdate.node_set_names a /\
        exists item, item ∈ items /\ fst item = e /\ receiver_of a item = n)).
Proof.
  induction items as [|[es adj] items IH]; intros d d'; simpl.
  - intros [= <-] n e. split; [auto|]. split; [auto|].
    intros [H | (_ & item & Hin & _)]; [exact H | inv Hin].
  - intros H. apply bind_Ok in H as (d1 & Hstep & Hrest).
    intros n e. destruct (IH _ _ Hrest n e) as [IH1 IH2]. clear IH Hrest.
    unfold GraphSAGEGraphUpdate.add_edge_set in Hstep.
    destruct (decide _) as [Hmem | Hmem].
    + apply bind_Ok in Hstep as (c0 & Hc0 & [= <-]).
      set (r := GraphSAGEGraphUpdate.spec_node_set_name adj
                  (GraphSAGEGraphUpdate.receiver_tag a)) in *.
      assert (Hd1 : forall c,
                default ∅ (<[r := <[es := c0]> (default ∅ (d !! r))]> d !! n) !! e = Some c <->
                (n = r /\ e = es /\ c = c0) \/
                ((n <> r \/ e <> es) /\ default ∅ (d !! n) !! e = Some c)).
      { intros c. destruct (decide (n = r)) as [-> | NE].
        - rewrite lookup_insert_eq. simpl.
          destruct (decide (e = es)) as [-> | NE'].
          + rewrite lookup_insert_eq. split.
            * intros [= <-]. left. auto.
            * intros [(_ & _ & ->) | ([? | ?] & _)]; [reflexivity | contradiction..].
          + rewrite lookup_insert_ne by congruence. split.
            * intros H. right. auto.
            * intros [(_ & ? & _) | (_ & H)]; [contradiction | exact H].
        - rewrite lookup_insert_ne by congruence. split.
          + intros H. right. auto.
          + intros [(? & _) | (_ & H)]; [contradiction | exact H]. }
      split.
      * intros c Hc. destruct (IH1 c Hc) as [Hc1 | Hmk]; [|auto].
        apply Hd1 in Hc1 as [(_ & _ & ->) | (_ & H)]; auto.
      * rewrite IH2. split.
        -- intros [[c Hc] | (Hn & item & Hin & He & Hrec)].
           ++ apply Hd1 in Hc as [(-> & -> & _) | (_ & H)]; [|left; eauto].
              right. split; [exact Hmem|]. exists (es, adj).
              split; [left | split; reflexivity].
           ++ right. split; [exact Hn|]. exists item.
              split; [right; exact Hin | split; assumption].
        -- intros [[c Hc] | (Hn & item & Hin & He & Hrec)].
           ++ destruct (decide (n = r /\ e = es)) as [[-> ->] | NE].
              ** left. exists c0. apply Hd1. left. auto.
              ** left. exists c. apply Hd1. right. split; [|exact Hc].
                 destruct (decide (n = r)); [right; intros ->; apply NE; auto | left; assumption].
           ++ apply elem_of_cons in Hin as [-> | Hin].
              ** left. exists c0. apply Hd1. left. simpl in He.
                 unfold receiver_of in Hrec. simpl in Hrec. subst r. auto.
              ** right. split; [exact Hn|]. exists item. split; [exact Hin | split; assumption].
    + injection Hstep as <-. split; [exact IH1|]. rewrite IH2. split.
      * intros [H | (Hn & item & Hin & He & Hrec)]; [auto|].
        right. split; [exact Hn|]. exists item. split; [right; exact Hin | split; assumption].
      * intros [H | (Hn & item & Hin & He & Hrec)]; [auto|].
        apply elem_of_cons in Hin as [-> | Hin].
        -- exfalso. apply Hmem. unfold receiver_of in Hrec. simpl in Hrec.
           rewrite Hrec. exact Hn.
        -- right. split; [exact Hn|]. exists item. split; [exact Hin | split; assumption].
Qed.

(** X8: every node set update that the callback returns reads the node
    state under [feature_name], has the combiner that the arguments ask for,
    and has one convolution for exactly the edge sets of the schema that end
    in its node set at the receiver tag, each of them as the arguments ask
    for: a pooling convolution with [use_pooling], always with the
    activation "relu", and an aggregator convolution without. *)
Theorem graph_update_callback_wiring
    (registry : string -> option (tensor -> tensor)) (auto_name : string)
    (a : GraphSAGEGraphUpdate.Args) (spec : GraphSAGEGraphUpdate.GraphTensorSpec)
    (updates : gmap string NodeSetUpdate.t) (ns : string) (u : NodeSetUpdate.t) :
  GraphSAGEGraphUpdate.GraphUpdateCallback registry auto_name a spec = Ok updates ->
  updates !! ns = Some u ->
  NodeSetUpdate._node_input_feature u = GraphSAGEGraphUpdate.feature_name a /\
  next_state_as_requested registry a (NodeSetUpdate._next_state u) /\
  (forall e, is_Some (NodeSetUpdate._edge_set_inputs u !! e) <->
     exists item, item ∈ GraphSAGEGraphUpdate.edge_sets_spec spec /\
                  fst item = e /\ receiver_of a item = ns) /\
  (forall e c, NodeSetUpdate._edge_set_inputs u !! e = Some c -> conv_as_requested a c).
Proof.
  unfold GraphSAGEGraphUpdate.GraphUpdateCallback.
  destruct (negb _) eqn:Hpair; [discriminate|]. apply negb_false_iff in Hpair.
  intros H Hu. apply bind_Ok in H as (d & Hd & H).
  apply bind_Ok in H as (l & Hl & [= <-]).
  apply elem_of_list_to_map_2 in Hu.
  destruct (mapM_elem _ _ _ _ Hl Hu) as ([n m] & Hin & Hmake).
  apply elem_of_map_to_list in Hin.
  unfold GraphSAGEGraphUpdate.make_node_set_update in Hmake.
  apply bind_Ok in Hmake as (next_state & Hnext & [= -> <-]).
  unfold GraphSAGENextState.init in Hnext.
  apply bind_Ok in Hnext as (name & _ & Hnext).
  apply bind_Ok in Hnext as (act & Hact & [= <-]).
  cbn [GraphSAGENextState.activation] in Hact.
  pose proof (foldM_add_edge_set_convs registry a _ _ _ Hd ns) as Hconvs.
  rewrite Hin, lookup_empty in Hconvs. cbn [default] in Hconvs.
  split; [reflexivity|]. split; [repeat split; try reflexivity; exact Hact|].
  cbn [NodeSetUpdate.init NodeSetUpdate._edge_set_inputs]. split.
  - intros e. destruct (Hconvs e) as [_ Hkeys]. rewrite Hkeys, lookup_empty. split.
    + intros [[? [=]] | (_ & H)]; exact H.
    + intros (item & Hitem & He & Hrec). right. split; [|eauto].
      destruct (foldM_add_edge_set_dom registry a _ _ _ Hd ns) as [Hdom _].
      destruct Hdom as [[? Hempty] | [Hn _]]; [eauto | | exact Hn].
      rewrite lookup_empty in Hempty. discriminate.
  - intros e c Hc. destruct (Hconvs e) as [Hmk _].
    destruct (Hmk c Hc) as [Hempty | Hmk']; [rewrite lookup_empty in Hempty; discriminate|].
    exact (make_conv_as_requested registry a c Hpair Hmk').
Qed.

Lemma graph_update_callback_wiring_witness :
  Sample.updates_of
    (GraphSAGEGraphUpdate.GraphUpdateCallback (fun _ => None)
       "graph_sage_next_state" Sample.graph_update_args Sample.spec) !! "paper" =
    Some (NodeSetUpdate.init
            {[ "cites" := NodeSetUpdate.Aggregator ScenarioA.aggregator;
               "writes" := NodeSetUpdate.Aggregator ScenarioA.aggregator ]}
            (Sample.next_state "sum") HIDDEN_STATE) /\
  next_state_as_requested (fun _ => None) Sample.graph_update_args
    (Sample.next_state "sum") /\
  conv_as_requested Sample.graph_update_args
    (NodeSetUpdate.Aggregator ScenarioA.aggregator).
Proof.
  assert (Hcb : GraphSAGEGraphUpdate.GraphUpdateCallback (fun _ => None)
                  "graph_sage_next_state" Sample.graph_update_args Sample.spec =
                Ok (Sample.updates_of
                      (GraphSAGEGraphUpdate.GraphUpdateCallback (fun _ => None)
                         "graph_sage_next_state" Sample.graph_update_args Sample.spec)))
    by (vm_compute; reflexivity).
  assert (Hu : Sample.updates_of
                 (GraphSAGEGraphUpdate.GraphUpdateCallback (fun _ => None)
                    "graph_sage_next_state" Sample.graph_update_args Sample.spec)
                 !! "paper" =
               Some (NodeSetUpdate.init
                       {[ "cites" := NodeSetUpdate.Aggregator ScenarioA.aggregator;
                          "writes" := NodeSetUpdate.Aggregator ScenarioA.aggregator ]}
                       (Sample.next_state "sum") HIDDEN_STATE))
    by (vm_compute; reflexivity).
  destruct (graph_update_callback_wiring (fun _ => None) "graph_sage_next_state"
              Sample.graph_update_args Sample.spec _ "paper" _ Hcb Hu)
    as (_ & Hnext & _ & Hconvs).
  split; [exact Hu|]. split; [exact Hnext|].
  apply (Hconvs "cites"). reflexivity.
Defined.

(** * When the callback of the graph update raises *)









(** * The first call of the combiner *)

Lemma add2_wf (a b : tensor) : wf a -> wf b -> ncols b = ncols a -> wf (add2 a b).
Proof.
  unfold wf, add2. cbn [rows ncols]. intros Ha Hb Hc.
  apply Forall_lookup. intros i r Hr.
  apply lookup_zip_with_Some in Hr as (x & y & -> & Hx & Hy).
  rewrite length_vadd.
  rewrite (Forall_lookup_1 _ _ _ _ Ha Hx), (Forall_lookup_1 _ _ _ _ Hb Hy). lia.
Qed.

Lemma foldl_add2_wf (l : list tensor) : forall t,
  wf t -> Forall wf l -> forallb (same_shape t) l = true -> wf (foldl add2 t l).
Proof.
  induction l as [|u l IH]; intros t Ht Hl Hsame; simpl; [exact Ht|].
  apply Forall_cons in Hl as [Hu Hl]. simpl in Hsame.
  apply andb_prop in Hsame as [Hsu Hsame].
  pose proof Hsu as Hsu'. unfold same_shape in Hsu'.
  apply andb_prop in Hsu' as [Hn Hc]. apply Nat.eqb_eq in Hn, Hc.
  apply IH; [apply add2_wf; auto | exact Hl |].
  rewrite (forallb_same_shape_ext (add2 t u) t l); [exact Hsame | | reflexivity].
  unfold nrows, add2 in *. cbn [rows]. rewrite length_zip_with. lia.
Qed.

Lemma concat2_wf (a b : tensor) : wf a -> wf b -> wf (concat2 a b).
Proof.
  unfold wf, concat2. cbn [rows ncols]. intros Ha Hb.
  apply Forall_lookup. intros i r Hr.
  apply lookup_zip_with_Some in Hr as (x & y & -> & Hx & Hy).
  rewrite length_app.
  rewrite (Forall_lookup_1 _ _ _ _ Ha Hx), (Forall_lookup_1 _ _ _ _ Hb Hy). reflexivity.
Qed.

Lemma foldl_concat2_wf (l : list tensor) : forall t,
  wf t -> Forall wf l -> wf (foldl concat2 t l).
Proof.
  induction l as [|u l IH]; intros t Ht Hl; simpl; [exact Ht|].
  apply Forall_cons in Hl as [Hu Hl]. apply IH; [apply concat2_wf; auto | exact Hl].
Qed.

Lemma combine_values_wf (t : tensor) (l : list tensor) (combine_type : string)
    (c : tensor) :
  wf t -> Forall wf l -> combine_values (t :: l) combine_type = Ok c -> wf c.
Proof.
  intros Ht Hl. unfold combine_values, add_n, concat.
  destruct (String.eqb combine_type "sum").
  - destruct (forallb (same_shape t) l) eqn:Hsame; [|discriminate].
    intros [= <-]. apply foldl_add2_wf; assumption.
  - destruct (String.eqb combine_type "concat"); [|discriminate].
    destruct (forallb _ l); [|discriminate].
    intros [= <-]. apply foldl_concat2_wf; assumption.
Qed.

Lemma matmul_wf (x w y : tensor) : wf w -> matmul x w = Ok y -> wf y.
Proof.
  intros Hw. unfold matmul. destruct (Nat.eqb _ _); [|discriminate].
  intros [= <-]. unfold wf. cbn [rows ncols].
  apply Forall_forall. intros r Hr. apply list_elem_of_In, in_map_iff in Hr as (r0 & <- & _).
  apply length_vecmat. exact Hw.
Qed.

Lemma bias_add_zeros (c r : tensor) (k : nat) :
  wf c -> ncols c = k -> bias_add c (zeros k) = Ok r -> r = c.
Proof.
  intros Hc <-. unfold bias_add.
  replace (length (zeros (ncols c))) with (ncols c)
    by (unfold zeros; rewrite length_replicate; reflexivity).
  rewrite Nat.eqb_refl.
  intros [= <-]. destruct c as [n rs]. cbn [ncols rows] in *. f_equal.
  unfold wf in Hc. cbn [ncols rows] in Hc.
  induction Hc as [|r rs Hr _ IH]; [reflexivity|].
  simpl. rewrite IH. f_equal. rewrite <- Hr. apply vadd_zeros_r.
Qed.

(** The width that [build] gives the bias is the width of the combined
    tensor. *)
Lemma build_width (self : GraphSAGENextState.t) (x y c : tensor)
    (m context : list (string * tensor)) (k : nat) :
  GraphSAGENextState._use_bias self = true ->
  GraphSAGENextState.build self (GraphSAGENextState.input_shapes_of (x, m, context)) =
    Ok (Some (zeros k)) ->
  ncols y = GraphSAGENextState._units self ->
  combine_values (y :: map snd (sorted_items m)) (GraphSAGENextState._combine_type self) =
    Ok c ->
  ncols c = k.
Proof.
  intros Hub Hb Hy. unfold GraphSAGENextState.build in Hb. cbn in Hb.
  rewrite Hub in Hb. apply bind_Ok in Hb as (k' & Hk & [= Hz]).
  assert (k' = k).
  { apply (f_equal length) in Hz. unfold zeros in Hz.
    rewrite !length_replicate in Hz. exact Hz. }
  subst k'. unfold combine_values, add_n, concat.
  destruct (String.eqb _ "sum").
  - injection Hk as <-. destruct (forallb _ _); [|discriminate].
    intros [= <-]. rewrite <- Hy. apply foldl_add2_shape.
  - destruct (String.eqb _ "concat"); [|discriminate].
    destruct (existsb _ _); [discriminate|]. injection Hk as <-.
    destruct (forallb _ _); [|discriminate]. intros [= <-].
    rewrite foldl_concat2_ncols, sum_ncols_sorted_items, Hy. f_equal.
    rewrite !map_map. reflexivity.
Qed.

(** X10: [build] fills the bias with zeros and gives it the width of the
    combined tensor, so a first call of the layer that returns gives what
    the same layer without bias gives on the same inputs. *)
Theorem next_state_first_call_without_bias
    (self : GraphSAGENextState.t) (env : Env) (st st' : GraphSAGENextState.State)
    (x : tensor) (edge_inputs context : list (string * tensor))
    (training : option bool) (out : list (string * tensor)) :
  GraphSAGENextState.built st = false ->
  wf (GraphSAGENextState.self_transform_kernel (GraphSAGENextState.weights st)) ->
  ncols (GraphSAGENextState.self_transform_kernel (GraphSAGENextState.weights st)) =
    GraphSAGENextState._units self ->
  Forall (fun p => wf (snd p)) edge_inputs ->
  GraphSAGENextState.keras_call self env st (x, edge_inputs, context) training =
    Ok (st', out) ->
  GraphSAGENextState.call (without_bias self) (GraphSAGENextState.weights st) env
    (x, edge_inputs, context) training = Ok out /\
  GraphSAGENextState.built st' = true /\
  (GraphSAGENextState._use_bias self = true ->
   exists k, GraphSAGENextState._bias_term (GraphSAGENextState.weights st') =
             Some (zeros k)).
Proof.
  intros Hbuilt Hw Hunits Hm. unfold GraphSAGENextState.keras_call. rewrite Hbuilt.
  intros H. apply bind_Ok in H as (st1 & Hst1 & H).
  apply bind_Ok in Hst1 as (b & Hb & [= <-]).
  apply bind_Ok in H as (out' & Hcall & [= <- <-]).
  cbn [GraphSAGENextState.built GraphSAGENextState.weights
       GraphSAGENextState._bias_term].
  assert (Hbias : GraphSAGENextState._use_bias self = true -> exists k, b = Some (zeros k)).
  { intros Hub. unfold GraphSAGENextState.build in Hb. cbn in Hb.
    rewrite Hub in Hb. apply bind_Ok in Hb as (k & _ & [= <-]). eauto. }
  split; [|split; [reflexivity | exact Hbias]].
  unfold GraphSAGENextState.call in Hcall |- *.
  cbn [GraphSAGENextState.weights] in Hcall.
  destruct context as [|c context]; [|discriminate].
  change (GraphSAGENextState._self_transform (without_bias self)
            (GraphSAGENextState.weights st))
    with (GraphSAGENextState._self_transform self
            {| GraphSAGENextState.self_transform_kernel :=
                 GraphSAGENextState.self_transform_kernel (GraphSAGENextState.weights st);
               GraphSAGENextState._bias_term := b |}).
  cbn [without_bias GraphSAGENextState._dropout_rate GraphSAGENextState._combine_type
       GraphSAGENextState._use_bias GraphSAGENextState._activation
       GraphSAGENextState._l2_normalize GraphSAGENextState._feature_name].
  apply bind_Ok in Hcall as (y & Hy & Hcall). rewrite Hy. cbn [Py.bind].
  apply bind_Ok in Hcall as (combined & Hc & Hcall). rewrite Hc. cbn [Py.bind].
  apply bind_Ok in Hcall as (r & Hr & Hcall).
  assert (Er : r = combined).
  { destruct (GraphSAGENextState._use_bias self) eqn:Hub; [|congruence].
    destruct (Hbias eq_refl) as [k ->].
    cbn [GraphSAGENextState._bias_term] in Hr.
    unfold Dense_call in Hy. cbn in Hy.
    apply bind_Ok in Hy as (y0 & Hy0 & [= <-]).
    apply (bias_add_zeros combined r k); [| |exact Hr].
    - apply (combine_values_wf y0 _ _ _) with (3 := Hc).
      + apply (matmul_wf _ _ _ Hw Hy0).
      + apply Forall_forall. intros t Ht.
        apply list_elem_of_In, in_map_iff in Ht as ([k' t'] & <- & Hin).
        apply list_elem_of_In in Hin.
        pose proof (Forall_sorted_items _ _ Hm) as Hs.
        rewrite Forall_forall in Hs. apply (Hs _ Hin).
    - apply (build_width self x y0 combined edge_inputs [] k Hub Hb); [|exact Hc].
      unfold matmul in Hy0. destruct (Nat.eqb _ _); [|discriminate].
      injection Hy0 as <-. exact Hunits. }
  subst r. exact Hcall.
Qed.

Lemma next_state_first_call_without_bias_witness :
  match GraphSAGENextState.keras_call (Sample.next_state "concat") (Sample.env false)
          Sample.unbuilt (Sample.old_state, Sample.edge_inputs, []) (Some false) with
  | Ok (st', out) =>
      GraphSAGENextState.call (without_bias (Sample.next_state "concat"))
        (GraphSAGENextState.weights Sample.unbuilt) (Sample.env false)
        (Sample.old_state, Sample.edge_inputs, []) (Some false) = Ok out /\
      GraphSAGENextState._bias_term (GraphSAGENextState.weights st') = Some (zeros 12)
  | Raise _ => False
  end.
Proof.
  destruct (GraphSAGENextState.keras_call (Sample.next_state "concat") (Sample.env false)
              Sample.unbuilt (Sample.old_state, Sample.edge_inputs, []) (Some false))
    as [[st' out]|e] eqn:H.
  - destruct (next_state_first_call_without_bias (Sample.next_state "concat")
                (Sample.env false) Sample.unbuilt st' Sample.old_state
                Sample.edge_inputs [] (Some false) out eq_refl)
      as (Hcall & _ & _); [repeat constructor | reflexivity | repeat constructor | exact H |].
    split; [exact Hcall|].
    unfold GraphSAGENextState.keras_call in H. simpl in H.
    destruct (GraphSAGENextState.call _ _ _ _ _); [|discriminate].
    injection H as <- _. reflexivity.
  - unfold GraphSAGENextState.keras_call in H. cbn in H.
    vm_compute in H. discriminate.
Defined.

(** * The shape of the output of the GCN update *)










(** * The transform after pooling in the two convolutions *)

Lemma Dense_plain_rows (d : Dense) (x y : tensor) :
  dense_use_bias d = false -> dense_activation d = linear -> wf (dense_kernel d) ->
  Dense_call d x = Ok y ->
  nrows y = nrows x /\ ncols y = ncols (dense_kernel d) /\
  forall i, rows x !! i = Some (zeros (ncols x)) ->
            rows y !! i = Some (zeros (ncols (dense_kernel d))).
Proof.
  intros Hb Ha Hw. unfold Dense_call, matmul. rewrite Hb, Ha.
  destruct (Nat.eqb _ _); [|discriminate]. simpl. intros [= <-].
  unfold nrows. cbn [rows ncols]. rewrite length_map.
  split; [reflexivity|]. split; [reflexivity|].
  intros i Hi.
  change (map ?f (rows x)) with (f <$> rows x).
  rewrite list_lookup_fmap, Hi. simpl. f_equal. apply vecmat_zeros. exact Hw.
Qed.

(** X12: in both convolutions the transform that follows the pooling has
    no bias and no activation: the output has one row per pooled row and as
    many columns as the kernel, and a receiver whose pooled value is zero,
    as for a node without incoming edges, gets a zero row. *)
Theorem conv_zero_where_pooled_zero
    (agg : GraphSAGEAggregatorConv.t) (kernel : tensor)
    (pool : GraphSAGEPoolingConv.t) (pw : GraphSAGEPoolingConv.Weights)
    (env : Env) (sender_node_input : option tensor)
    (broadcast_from_sender_node : tensor -> result tensor)
    (pool_to_receiver : tensor -> string -> result tensor)
    (training : option bool) :
  wf kernel -> wf (GraphSAGEPoolingConv.neighbor_kernel pw) ->
  (forall out,
     GraphSAGEAggregatorConv.convolve agg kernel env sender_node_input
       broadcast_from_sender_node pool_to_receiver training = Ok out ->
     exists v pooled,
       pool_to_receiver v (GraphSAGEAggregatorConv._reduce_type agg) = Ok pooled /\
       nrows out = nrows pooled /\ ncols out = ncols kernel /\
       forall i, rows pooled !! i = Some (zeros (ncols pooled)) ->
                 rows out !! i = Some (zeros (ncols kernel))) /\
  (forall out,
     GraphSAGEPoolingConv.convolve pool pw env sender_node_input
       broadcast_from_sender_node pool_to_receiver training = Ok out ->
     exists v pooled,
       pool_to_receiver v (GraphSAGEPoolingConv._reduce_type pool) = Ok pooled /\
       nrows out = nrows pooled /\
       ncols out = ncols (GraphSAGEPoolingConv.neighbor_kernel pw) /\
       forall i, rows pooled !! i = Some (zeros (ncols pooled)) ->
                 rows out !! i =
                 Some (zeros (ncols (GraphSAGEPoolingConv.neighbor_kernel pw)))).
Proof.
  intros Hk Hn. split; intros out H.
  - unfold GraphSAGEAggregatorConv.convolve in H.
    destruct sender_node_input as [x|]; [|discriminate].
    apply bind_Ok in H as (b & _ & H). apply bind_Ok in H as (pooled & Hpool & H).
    apply bind_Ok in H as (y & Hy & [= <-]).
    apply Dense_plain_rows in Hy as (H1 & H2 & H3); try reflexivity; [|exact Hk].
    eexists _, pooled. split; [exact Hpool|]. auto.
  - unfold GraphSAGEPoolingConv.convolve in H.
    destruct sender_node_input as [x|]; [|discriminate].
    apply bind_Ok in H as (b & _ & H). apply bind_Ok in H as (h & _ & H).
    apply bind_Ok in H as (pooled & Hpool & H).
    apply bind_Ok in H as (y & Hy & [= <-]).
    apply Dense_plain_rows in Hy as (H1 & H2 & H3); try reflexivity; [|exact Hn].
    eexists _, pooled. split; [exact Hpool|]. auto.
Qed.

Lemma conv_zero_where_pooled_zero_witness :
  exists out,
    GraphSAGEAggregatorConv.convolve ScenarioA.aggregator Sample.identity2
      (Sample.env false) (Some Sample.old_state) Ok
      (fun _ _ => Ok (Tensor 2 [[Sample.q 1; Sample.q 2]; [Sample.q 0; Sample.q 0]]))
      None = Ok out /\
    rows out !! 1 = Some (zeros 2).
Proof.
  destruct (GraphSAGEAggregatorConv.convolve ScenarioA.aggregator Sample.identity2
              (Sample.env false) (Some Sample.old_state) Ok
              (fun _ _ => Ok (Tensor 2 [[Sample.q 1; Sample.q 2]; [Sample.q 0; Sample.q 0]]))
              None) as [out|e] eqn:H; [|vm_compute in H; discriminate].
  destruct (conv_zero_where_pooled_zero ScenarioA.aggregator Sample.identity2
              NoDropout.pooling NoDropout.pooling_weights (Sample.env false)
              (Some Sample.old_state) Ok
              (fun _ _ => Ok (Tensor 2 [[Sample.q 1; Sample.q 2]; [Sample.q 0; Sample.q 0]]))
              None) as [Hagg _]; [repeat constructor | repeat constructor |].
  destruct (Hagg out H) as (v & pooled & Hpool & _ & _ & Hzero).
  injection Hpool as <-.
  exists out. split; [reflexivity|]. apply Hzero. reflexivity.
Defined.
